(** * MIDT fMRI pipeline: a shallow embedding and its properties

    The development follows the Python package [midt_pipeline]:
    - [Py]         the Python values the package computes with (floats with
                   NaN, exceptions, [str] methods);
    - [Events]     [events.py]: the timing-log reader, [process_single_trial]
                   and [extract_midt_events];
    - [Motion]     [motion.py]: [extract_subject_motion] and
                   [calculate_motion_qc];
    - [FirstLevel] [first_level.py]: the contrast catalogue and the contrast
                   resolution of [run_first_level_midt];
    - [Config]     [config.py]: [MIDTConfig] and
                   [get_valid_subjects_for_session];
    - [Pipeline]   [pipeline.py] and [utils.safe_parallel_processing]: the
                   per-session stages and the session loop, with the
                   configuration object threaded as state;
    - [Sample]     concrete timing logs, tables and configurations on which
                   the definitions are evaluated.
    - [Validation] [events.validate_events_file];
    - [Timepoints] and [Confounds]: the volume counts checked by
                   [run_first_level_midt] and [load_midt_confounds];
    - [Paths]      [MIDTConfig._validate_paths] and [create_example_config];
    - [MotionDriver] the subject and session loops of
                   [motion.extract_motion_regressors];
    - [Subjects]   [extract_subject_from_filename] and
                   [convert_to_bids_format], their regular expressions
                   written out as matchers.

    The properties follow the definitions, one section per component.

    Numbers.  Python floats are modelled by [pyfloat]: the rationals plus
    NaN, with exact arithmetic.  Subtraction and division of binary64 values
    are correctly rounded, hence monotone, and the constants compared against
    (0, 1, 8.0 = 5 * 1.6) are representable, so every sign test and
    comparison below has the same outcome as on the machine; infinities are
    left out (no claim depends on them). *)

From Stdlib Require Import List String Ascii Bool Arith ZArith QArith Qabs Lia Lqa.
From Stdlib Require Import Permutation Sorted DecimalString DecimalN.
Import ListNotations.
Open Scope string_scope.
Open Scope list_scope.

(* ================================================================== *)
(** * Python values *)
(* ================================================================== *)

Module Py.

(** A float: a finite value or NaN. *)
Inductive pyfloat : Type :=
| NaN
| Fin (q : Q).

Definition fsub (x y : pyfloat) : pyfloat :=
  match x, y with
  | Fin a, Fin b => Fin (a - b)
  | _, _ => NaN
  end.

Definition fdiv (x : pyfloat) (d : Q) : pyfloat :=
  match x with
  | Fin a => Fin (a / d)
  | NaN => NaN
  end.

(** [x >= 0]; every comparison with NaN is [False]. *)
Definition fge0 (x : pyfloat) : bool :=
  match x with
  | Fin a => Qle_bool 0 a
  | NaN => false
  end.

Definition is_nan (x : pyfloat) : bool :=
  match x with NaN => true | Fin _ => false end.

(** The exceptions the modelled code raises or catches.  All of them are
    subclasses of [Exception]. *)
Inductive exn : Type :=
| IndexError
| KeyError
| TypeError
| ValueError (msg : string)
| FileNotFoundError
| OtherException (msg : string).

Inductive result (A : Type) : Type :=
| Ok (a : A)
| Raise (e : exn).
Arguments Ok {A} a.
Arguments Raise {A} e.

Definition bind {A B : Type} (m : result A) (k : A -> result B) : result B :=
  match m with
  | Ok a => k a
  | Raise e => Raise e
  end.

(** ** [str] methods, on ASCII text *)

Definition tab : ascii := ascii_of_nat 9.

(** The characters [str.strip()] removes: space, TAB, LF, VT, FF, CR and
    the separators FS, GS, RS, US. *)
Definition is_space (c : ascii) : bool :=
  let n := nat_of_ascii c in
  (n =? 32)%nat || ((9 <=? n)%nat && (n <=? 13)%nat)
  || ((28 <=? n)%nat && (n <=? 31)%nat).

Fixpoint lstrip (s : string) : string :=
  match s with
  | EmptyString => EmptyString
  | String c s' => if is_space c then lstrip s' else s
  end.

Fixpoint rstrip (s : string) : string :=
  match s with
  | EmptyString => EmptyString
  | String c s' =>
      match rstrip s' with
      | EmptyString => if is_space c then EmptyString else String c EmptyString
      | r => String c r
      end
  end.

Definition strip (s : string) : string := rstrip (lstrip s).

(** [s.split('\t')] *)
Fixpoint split_tab (s : string) : list string :=
  match s with
  | EmptyString => [EmptyString]
  | String c s' =>
      if Ascii.eqb c tab then EmptyString :: split_tab s'
      else match split_tab s' with
           | h :: t => String c h :: t
           | [] => [String c EmptyString]
           end
  end.

Definition lower_ascii (c : ascii) : ascii :=
  let n := nat_of_ascii c in
  if (65 <=? n)%nat && (n <=? 90)%nat then ascii_of_nat (n + 32) else c.

(** [s.lower()] *)
Fixpoint lower (s : string) : string :=
  match s with
  | EmptyString => EmptyString
  | String c s' => String (lower_ascii c) (lower s')
  end.

(** [kw in s] *)
Fixpoint contains (kw s : string) : bool :=
  String.prefix kw s
  || match s with
     | EmptyString => false
     | String _ s' => contains kw s'
     end.

(** [s.startswith(p)] *)
Definition startswith (s p : string) : bool := String.prefix p s.

(** [x in l] for a list of strings. *)
Definition mem (x : string) (l : list string) : bool :=
  existsb (String.eqb x) l.

(** [l.index(x)]; the callers test [x in l] first. *)
Fixpoint index (x : string) (l : list string) : nat :=
  match l with
  | [] => 0
  | y :: l' => if String.eqb x y then 0 else S (index x l')
  end.

(** [l.remove(x)]: deletes the first occurrence. *)
Fixpoint remove_first (x : string) (l : list string) : list string :=
  match l with
  | [] => []
  | y :: l' => if String.eqb x y then l' else y :: remove_first x l'
  end.

End Py.

Import Py.

Declare Scope py_scope.
Notation "x <- m ;; k" := (bind m (fun x => k))
  (at level 61, m at next level, right associativity) : py_scope.
Open Scope py_scope.

(* ================================================================== *)
(** * events.py *)
(* ================================================================== *)

Module Events.

(** A cell of the timing table: the text read from the file, or the float
    that [pd.to_numeric] put in its place. *)
Inductive cell : Type :=
| Str (s : string)
| Num (x : pyfloat).

(** The [pd.DataFrame] the reader builds: the header and the data rows. *)
Record DataFrame : Type := {
  columns : list string;
  data : list (list cell)
}.

(** One row of the events table (the dict built per event). *)
Record event : Type := {
  onset : pyfloat;
  duration : pyfloat;
  trial_type : string;
  accuracy : cell;
  response_time : pyfloat
}.

Inductive warning : Type :=
| MissingDataForTrial (trial_idx : nat) (e : exn)
| ErrorProcessingTrial (trial_idx : nat) (e : exn).

(** A timing file as the decoder sees it: what
    [extract_subject_from_filename] finds in its name (a regular-expression
    search, not modelled further) and its lines ([f.readlines()]). *)
Record timing_file : Type := {
  subject_in_name : option string;
  lines : list string
}.

(** ** Reading the file (lines 49-80) *)

(** "Pad with empty strings if too short, truncate if too long". *)
Definition reconcile (n : nat) (row_data : list string) : list string :=
  if (List.length row_data <? n)%nat
  then row_data ++ repeat EmptyString (n - List.length row_data)
  else if (n <? List.length row_data)%nat then firstn n row_data
  else row_data.

Definition is_blank (line : string) : bool :=
  match strip line with EmptyString => true | _ => false end.

Fixpoint data_rows (header : list string) (rest : list string)
  : list (list string) :=
  match rest with
  | [] => []
  | line :: rest' =>
      if is_blank line then data_rows header rest'
      else reconcile (List.length header) (split_tab (strip line))
             :: data_rows header rest'
  end.

Definition numeric_columns : list string :=
  ["trial_number"; "acc"; "rt"; "min"; "cti_duration"; "target_duration";
   "iti_duration"; "onsettime_cue"; "onsettime_target";
   "onsettime_feedback"; "totalreward"].

Section Coercion.
(** [pd.to_numeric(..., errors='coerce')] on one text cell: the parsed
    number, or NaN when the text is not a number. *)
Variable to_numeric : string -> pyfloat.

Definition coerce (v : cell) : cell :=
  match v with
  | Str s => Num (to_numeric s)
  | Num x => Num x
  end.

Fixpoint coerce_row (col : string) (cols : list string) (row : list cell)
  : list cell :=
  match cols, row with
  | c :: cols', v :: row' =>
      (if String.eqb c col then coerce v else v) :: coerce_row col cols' row'
  | _, _ => row
  end.

(** [timing_data[col] = pd.to_numeric(timing_data[col], errors='coerce')].
    When the header names [col] more than once, [timing_data[col]] is a
    frame, not a series, and [pd.to_numeric] raises [TypeError]. *)
Definition assign_numeric (col : string) (df : DataFrame) : result DataFrame :=
  if (1 <? count_occ string_dec (columns df) col)%nat then Raise TypeError
  else Ok {| columns := columns df;
             data := map (coerce_row col (columns df)) (data df) |}.

Fixpoint convert_numeric (cols : list string) (df : DataFrame)
  : result DataFrame :=
  match cols with
  | [] => Ok df
  | col :: cols' =>
      if mem col (columns df)
      then df' <- assign_numeric col df ;; convert_numeric cols' df'
      else convert_numeric cols' df
  end.

(** The body of the [try] block; [lines[0]] raises [IndexError] on a
    file without lines. *)
Definition parse_lines (ls : list string) : result DataFrame :=
  match ls with
  | [] => Raise IndexError
  | first :: rest =>
      let header := split_tab (strip first) in
      convert_numeric numeric_columns
        {| columns := header;
           data := map (map Str) (data_rows header rest) |}
  end.

(** [except Exception as e: raise ValueError("Error reading ...")] *)
Definition read_timing_data (ls : list string) : result DataFrame :=
  match parse_lines ls with
  | Ok df => Ok df
  | Raise _ => Raise (ValueError "Error reading timing file")
  end.
End Coercion.

(** ** [process_single_trial] *)

(** [timing_data.iloc[r, c]] *)
Definition iloc (df : DataFrame) (r c : nat) : result cell :=
  match nth_error (data df) r with
  | None => Raise IndexError
  | Some row =>
      match nth_error row c with
      | None => Raise IndexError
      | Some v => Ok v
      end
  end.

(** [v / 1000]: a text cell cannot be divided. *)
Definition truediv (v : cell) (d : Q) : result pyfloat :=
  match v with
  | Num x => Ok (fdiv x d)
  | Str _ => Raise TypeError
  end.

(** [kw in str(cue_type).lower()].  The [str] of a float is made of digits,
    a sign, a point, an exponent mark, or is ['nan'] or ['inf']: it holds
    neither keyword. *)
Definition cue_matches (kw : string) (cue_type : cell) : bool :=
  match cue_type with
  | Str s => contains kw (lower s)
  | Num _ => false
  end.

(** [accuracy == 1] *)
Definition is_one (v : cell) : bool :=
  match v with
  | Num (Fin q) => Qeq_bool q 1
  | _ => false
  end.

Record trial_fields : Type := {
  f_cue_type : cell;
  f_accuracy : cell;
  f_cue_onset : pyfloat;
  f_cue_offset : pyfloat;
  f_feedback_onset : pyfloat
}.

(** The inner [try] block, statement by statement. *)
Definition read_trial (df : DataFrame) (trial_idx : nat) : result trial_fields :=
  cue_type <- iloc df trial_idx 2 ;;
  acc <- iloc df trial_idx 3 ;;
  c9 <- iloc df trial_idx 9 ;;
  cue_onset <- truediv c9 1000 ;;
  c10 <- iloc df trial_idx 10 ;;
  cue_offset <- truediv c10 1000 ;;
  c11 <- iloc df trial_idx 11 ;;
  feedback_onset <- truediv c11 1000 ;;
  Ok {| f_cue_type := cue_type; f_accuracy := acc;
        f_cue_onset := cue_onset; f_cue_offset := cue_offset;
        f_feedback_onset := feedback_onset |}.

Definition feedback_duration : pyfloat := Fin 2.

Definition mk_event (o d : pyfloat) (ty : string) (acc : cell) : event :=
  {| onset := o; duration := d; trial_type := ty; accuracy := acc;
     response_time := NaN |}.

Definition trial_events (t : trial_fields) : list event :=
  let cue_duration := fsub (f_cue_offset t) (f_cue_onset t) in
  if cue_matches "smile" (f_cue_type t) then
    [ mk_event (f_cue_onset t) cue_duration "anticip-reward" (f_accuracy t);
      mk_event (f_feedback_onset t) feedback_duration
        (if is_one (f_accuracy t) then "fb-reward" else "fb-miss-reward")
        (f_accuracy t) ]
  else if cue_matches "neutral" (f_cue_type t) then
    [ mk_event (f_cue_onset t) cue_duration "anticip-neutral" (f_accuracy t);
      mk_event (f_feedback_onset t) feedback_duration
        (if is_one (f_accuracy t) then "fb-corr-neutral" else "fb-incorr-neutral")
        (f_accuracy t) ]
  else [].

(** The warnings issued and the value returned or exception raised.
    Only [IndexError] and [KeyError] are caught here. *)
Definition process_single_trial (df : DataFrame) (trial_idx : nat)
  : list warning * result (list event) :=
  match read_trial df trial_idx with
  | Raise IndexError => ([MissingDataForTrial trial_idx IndexError], Ok [])
  | Raise KeyError => ([MissingDataForTrial trial_idx KeyError], Ok [])
  | Raise e => ([], Raise e)
  | Ok t => ([], Ok (trial_events t))
  end.

(** ** [extract_midt_events] *)

Definition trial_start : nat := 20.

(** [range(trial_start, min(79, len(timing_data) - 1) + 1)] on a non-empty
    table. *)
Definition trial_window (df : DataFrame) : list nat :=
  seq trial_start (Nat.min 80 (List.length (data df)) - trial_start).

(** The [for trial_idx in range(...)] loop with its [try]/[except Exception],
    from the state ([events_list], warnings so far). *)
Fixpoint trial_loop (df : DataFrame) (idxs : list nat)
    (events_list : list event) (ws : list warning)
  : list event * list warning :=
  match idxs with
  | [] => (events_list, ws)
  | trial_idx :: idxs' =>
      match process_single_trial df trial_idx with
      | (w, Ok event_data) =>
          trial_loop df idxs' (events_list ++ event_data) (ws ++ w)
      | (w, Raise e) =>
          trial_loop df idxs' events_list
            (ws ++ w ++ [ErrorProcessingTrial trial_idx e])
      end
  end.

(** [events_df.sort_values('onset')]: the rows with a number in [onset] in
    ascending order, then the rows with NaN (na_position='last'), in their
    original order.  The order of the numbers is that of an insertion sort;
    the results below use only that it follows the comparisons of the
    keys. *)
Definition onset_le (a b : event) : bool :=
  match onset a, onset b with
  | Fin x, Fin y => Qle_bool x y
  | _, _ => true
  end.

Fixpoint insert_by_onset (e : event) (l : list event) : list event :=
  match l with
  | [] => [e]
  | x :: l' => if onset_le e x then e :: l else x :: insert_by_onset e l'
  end.

Definition sort_values (l : list event) : list event :=
  fold_right insert_by_onset []
    (filter (fun e => negb (is_nan (onset e))) l)
  ++ filter (fun e => is_nan (onset e)) l.

(** "For now, use a default of 5 dummy scans and 1.6s TR". *)
Definition dummy_scans : Q := 5.
Definition tr : Q := 16 # 10.
Definition dummy_scan_time : Q := dummy_scans * tr.

(** [events_df['onset'] = events_df['onset'] - t] *)
Definition shift_onset (t : Q) (e : event) : event :=
  {| onset := fsub (onset e) (Fin t); duration := duration e;
     trial_type := trial_type e; accuracy := accuracy e;
     response_time := response_time e |}.

(** Lines 104-120: sort, shift, drop the negative onsets. *)
Definition finish_events (events_list : list event) : list event :=
  filter (fun e => fge0 (onset e))
    (map (shift_onset dummy_scan_time) (sort_values events_list)).

(** The decoder from the parsed table on (lines 82-139). *)
Definition events_of_table (df : DataFrame)
  : list warning * result (list event) :=
  match data df with
  | [] => ([], Raise (ValueError "Timing file is empty"))
  | _ :: _ =>
      let '(events_list, ws) := trial_loop df (trial_window df) [] [] in
      match events_list with
      | [] => (ws, Raise (ValueError "No valid trials found in timing file"))
      | _ :: _ => (ws, Ok (finish_events events_list))
      end
  end.

(** [extract_midt_events(timing_file, output_dir, session, subject_id)]:
    the warnings issued, and the returned (and written) events table or the
    [ValueError] raised.  Messages are cut to their fixed part.  Neither
    [output_dir] nor [session] enters the table. *)
Definition extract_midt_events (to_numeric : string -> pyfloat)
    (f : timing_file) (subject_id : option string)
  : list warning * result (list event) :=
  match (match subject_id with
         | Some s => Some s
         | None => subject_in_name f
         end) with
  | None => ([], Raise (ValueError "Could not extract subject ID from filename"))
  | Some _ =>
      match read_timing_data to_numeric (lines f) with
      | Raise e => ([], Raise e)
      | Ok df => events_of_table df
      end
  end.

(** [validate_events_file]'s set of expected trial types. *)
Definition expected_types : list string :=
  ["anticip-reward"; "anticip-neutral"; "fb-reward"; "fb-miss-reward";
   "fb-corr-neutral"; "fb-incorr-neutral"].

(** The events a trial adds to [events_list]: those it returns, none when
    it raises. *)
Definition kept_events (df : DataFrame) (trial_idx : nat) : list event :=
  match snd (process_single_trial df trial_idx) with
  | Ok event_data => event_data
  | Raise _ => []
  end.

(** The warnings a trial leaves behind in the decoder loop. *)
Definition trial_warnings (df : DataFrame) (trial_idx : nat) : list warning :=
  match process_single_trial df trial_idx with
  | (w, Ok _) => w
  | (w, Raise e) => w ++ [ErrorProcessingTrial trial_idx e]
  end.

End Events.

(* ================================================================== *)
(** * motion.py *)
(* ================================================================== *)

Module Motion.

(** A numeric matrix ([np.ndarray], timepoints x parameters), row by row. *)
Definition matrix : Type := list (list pyfloat).

(** The QC dict of [calculate_motion_qc]. *)
Record qc_metrics : Type := {
  max_motion_mm : pyfloat;
  mean_motion_mm : pyfloat;
  std_motion_mm : pyfloat;
  max_abs_displacement : pyfloat;
  mean_abs_displacement : pyfloat;
  max_rotation_deg : pyfloat;
  mean_rotation_deg : pyfloat
}.

Definition fadd (x y : pyfloat) : pyfloat :=
  match x, y with Fin a, Fin b => Fin (a + b) | _, _ => NaN end.

Definition fmap (f : Q -> Q) (x : pyfloat) : pyfloat :=
  match x with Fin a => Fin (f a) | NaN => NaN end.

Definition fmax (x y : pyfloat) : pyfloat :=
  match x, y with
  | Fin a, Fin b => Fin (if Qle_bool a b then b else a)
  | _, _ => NaN
  end.

(** [np.max] of a flattened array: NaN propagates, and a zero-size array
    raises [ValueError]. *)
Definition np_max (xs : list pyfloat) : result pyfloat :=
  match xs with
  | [] => Raise (ValueError "zero-size array to reduction operation maximum")
  | x :: xs' => Ok (fold_left fmax xs' x)
  end.

(** [np.mean]: NaN (and a RuntimeWarning) on a zero-size array. *)
Definition np_mean (xs : list pyfloat) : pyfloat :=
  match xs with
  | [] => NaN
  | _ :: _ =>
      fmap (fun s => s / inject_Z (Z.of_nat (List.length xs)))
        (fold_left fadd xs (Fin 0))
  end.

(** [i for i, param in enumerate(motion_params) if kw in param] *)
Fixpoint indices_from (i : nat) (kw : string) (motion_params : list string)
  : list nat :=
  match motion_params with
  | [] => []
  | param :: rest =>
      if contains kw param then i :: indices_from (S i) kw rest
      else indices_from (S i) kw rest
  end.

Definition indices_of (kw : string) (motion_params : list string) : list nat :=
  indices_from 0 kw motion_params.

(** [motion_data[:, idx]] *)
Definition take_columns (motion_data : matrix) (idx : list nat) : matrix :=
  map (fun row => map (fun i => nth i row NaN) idx) motion_data.

Section Numpy.
(** [np.sqrt] and [np.degrees] on finite values, as the library rounds
    them. *)
Variable np_sqrt : Q -> Q.
Variable np_degrees : Q -> Q.

(** [np.std]: the square root of the mean squared deviation. *)
Definition np_std (xs : list pyfloat) : pyfloat :=
  let m := np_mean xs in
  fmap np_sqrt
    (np_mean (map (fun x => fmap (fun d => d * d) (fsub x m)) xs)).

(** [np.sqrt(np.sum(trans_data**2, axis=1))] *)
Definition euclidean (trans_data : matrix) : list pyfloat :=
  map (fun row =>
         fmap np_sqrt
           (fold_left fadd (map (fmap (fun v => v * v)) row) (Fin 0)))
      trans_data.

Definition calculate_motion_qc (motion_data : matrix)
    (motion_params : list string) : result qc_metrics :=
  let trans_idx := indices_of "trans" motion_params in
  trans <-
    match trans_idx with
    | _ :: _ =>
        let trans_data := take_columns motion_data trans_idx in
        let translation_euclidean := euclidean trans_data in
        let abs_data := map (fmap Qabs) (List.concat trans_data) in
        mx <- np_max translation_euclidean ;;
        mxabs <- np_max abs_data ;;
        Ok (mx, np_mean translation_euclidean,
            np_std translation_euclidean, mxabs, np_mean abs_data)
    | [] => Ok (NaN, NaN, NaN, NaN, NaN)
    end ;;
  let rot_idx := indices_of "rot" motion_params in
  rot <-
    match rot_idx with
    | _ :: _ =>
        let rot_data := take_columns motion_data rot_idx in
        let rot_data_deg := map (map (fmap np_degrees)) rot_data in
        let abs_deg := map (fmap Qabs) (List.concat rot_data_deg) in
        mx <- np_max abs_deg ;;
        Ok (mx, np_mean abs_deg)
    | [] => Ok (NaN, NaN)
    end ;;
  let '(t_max, t_mean, t_std, t_maxabs, t_meanabs) := trans in
  let '(r_max, r_mean) := rot in
  Ok {| max_motion_mm := t_max; mean_motion_mm := t_mean;
        std_motion_mm := t_std; max_abs_displacement := t_maxabs;
        mean_abs_displacement := t_meanabs;
        max_rotation_deg := r_max; mean_rotation_deg := r_mean |}.

(** The confound table ([pd.read_csv]): its named columns. *)
Definition confounds : Type := list (string * list pyfloat).

Fixpoint column (name : string) (df : confounds) : option (list pyfloat) :=
  match df with
  | [] => None
  | (c, vals) :: df' => if String.eqb name c then Some vals else column name df'
  end.

(** [param_name in confounds_df.columns] *)
Definition has_column (df : confounds) (name : string) : bool :=
  match column name df with Some _ => true | None => false end.

(** The loop over [config.motion_params]: the columns found, without
    their first [dummy_scans] rows, and their names. *)
Fixpoint collect_params (df : confounds) (dummy_scans : nat)
    (motion_params : list string) : list (list pyfloat) * list string :=
  match motion_params with
  | [] => ([], [])
  | param_name :: rest =>
      let '(motion_data, available_params) :=
        collect_params df dummy_scans rest in
      match column param_name df with
      | Some vals =>
          (skipn dummy_scans vals :: motion_data,
           param_name :: available_params)
      | None => (motion_data, available_params)
      end
  end.

(** [np.column_stack] of columns of one length. *)
Definition column_stack (cols : list (list pyfloat)) : matrix :=
  match cols with
  | [] => []
  | c :: _ =>
      map (fun i => map (fun col => nth i col NaN) cols)
          (seq 0 (List.length c))
  end.

(** [extract_subject_motion]: the trace, the QC record and the
    [available_params] stored with it. *)
Definition extract_subject_motion (df : confounds) (dummy_scans : nat)
    (motion_params : list string)
  : result (matrix * qc_metrics * list string) :=
  let '(motion_data, available_params) :=
    collect_params df dummy_scans motion_params in
  match motion_data with
  | [] => Raise (ValueError "No motion parameters found in confounds file")
  | _ :: _ =>
      let m := column_stack motion_data in
      qc <- calculate_motion_qc m available_params ;;
      Ok (m, qc, available_params)
  end.
End Numpy.

End Motion.

(* ================================================================== *)
(** * first_level.py: contrasts *)
(* ================================================================== *)

Module FirstLevel.

(** The conditions in the order the catalogue's weight lists assume (the
    comment of [define_midt_contrasts]). *)
Definition midt_conditions : list string :=
  ["anticip-reward"; "anticip-neutral"; "fb-reward"; "fb-miss-reward";
   "fb-corr-neutral"; "fb-incorr-neutral"].

(** [define_midt_contrasts()], in the dict's insertion order. *)
Definition define_midt_contrasts : list (string * list Z) :=
  [ ("anticip-reward-vs-neutral",            [1; -1; 0; 0; 0; 0]);
    ("anticip-neutral-vs-reward",            [-1; 1; 0; 0; 0; 0]);
    ("feedback-reward-vs-neutral-correct",   [0; 0; 1; 0; -1; 0]);
    ("feedback-neutral-correct-vs-reward",   [0; 0; -1; 0; 1; 0]);
    ("feedback-reward-success-vs-failure",   [0; 0; 1; -1; 0; 0]);
    ("feedback-reward-failure-vs-success",   [0; 0; -1; 1; 0; 0]);
    ("feedback-neutral-success-vs-failure",  [0; 0; 0; 0; 1; -1]);
    ("feedback-neutral-failure-vs-success",  [0; 0; 0; 0; -1; 1]);
    ("anticip-reward",                       [1; 0; 0; 0; 0; 0]);
    ("anticip-neutral",                      [0; 1; 0; 0; 0; 0]);
    ("feedback-reward-success",              [0; 0; 1; 0; 0; 0]);
    ("feedback-neutral-success",             [0; 0; 0; 0; 1; 0]) ]%Z.

(** The conditions a catalogue weight list gives the weight [x]. *)
Definition weighted (x : Z) (weights : list Z) : list string :=
  map fst (filter (fun p => Z.eqb (snd p) x) (combine midt_conditions weights)).

(** A paired (signed-difference) entry: one condition at +1, one at -1. *)
Definition paired (weights : list Z) (plus minus : string) : Prop :=
  weighted 1 weights = [plus] /\ weighted (-1) weights = [minus].

(** What is handed to [glm.compute_contrast]: a condition name or a weight
    vector over [condition_columns]. *)
Inductive contrast_def : Type :=
| ByName (condition : string)
| ByVector (contrast_vector : list Z).

Inductive skip_reason : Type :=
| MissingConditions
| ComplexContrast.

Inductive resolution : Type :=
| Resolved (d : contrast_def)
| Skipped (why : skip_reason).

(** [[col for col in design_matrix.columns
      if not col.startswith(('drift', 'constant'))]] *)
Definition condition_columns (design_columns : list string) : list string :=
  filter (fun col => negb (startswith col "drift" || startswith col "constant"))
         design_columns.

(** [contrast_vector[i] = x] (the callers pass an index in range). *)
Fixpoint setitem (v : list Z) (i : nat) (x : Z) : list Z :=
  match v, i with
  | [], _ => []
  | _ :: v', O => x :: v'
  | y :: v', S i' => y :: setitem v' i' x
  end.

(** The body shared by the four implemented differences. *)
Definition difference (plus minus : string) (cols : list string) : resolution :=
  if mem plus cols && mem minus cols then
    let contrast_vector := repeat 0%Z (List.length cols) in
    let contrast_vector := setitem contrast_vector (index plus cols) 1 in
    let contrast_vector := setitem contrast_vector (index minus cols) (-1) in
    Resolved (ByVector contrast_vector)
  else Skipped MissingConditions.

(** The [if]/[elif] chain of the contrast loop of [run_first_level_midt];
    the catalogue's weight list is not consulted. *)
Definition resolve_contrast (contrast_name : string) (cols : list string)
  : resolution :=
  if String.eqb contrast_name "anticip-reward" then
    Resolved (ByName "anticip-reward")
  else if String.eqb contrast_name "anticip-neutral" then
    Resolved (ByName "anticip-neutral")
  else if String.eqb contrast_name "feedback-reward-success" then
    Resolved (ByName "fb-reward")
  else if String.eqb contrast_name "feedback-neutral-success" then
    Resolved (ByName "fb-corr-neutral")
  else if String.eqb contrast_name "anticip-reward-vs-neutral" then
    difference "anticip-reward" "anticip-neutral" cols
  else if String.eqb contrast_name "feedback-reward-vs-neutral-correct" then
    difference "fb-reward" "fb-corr-neutral" cols
  else if String.eqb contrast_name "feedback-reward-success-vs-failure" then
    difference "fb-reward" "fb-miss-reward" cols
  else if String.eqb contrast_name "feedback-neutral-success-vs-failure" then
    difference "fb-corr-neutral" "fb-incorr-neutral" cols
  else Skipped ComplexContrast.

(** The loop over [contrasts.items()] against a fitted design. *)
Definition resolve_all (design_columns : list string)
  : list (string * resolution) :=
  map (fun entry =>
         (fst entry,
          resolve_contrast (fst entry) (condition_columns design_columns)))
      define_midt_contrasts.

(** The differences the chain implements, with the conditions each one
    names, and the catalogue's differences it leaves to the last branch. *)
Definition implemented_differences : list (string * (string * string)) :=
  [ ("anticip-reward-vs-neutral", ("anticip-reward", "anticip-neutral"));
    ("feedback-reward-vs-neutral-correct", ("fb-reward", "fb-corr-neutral"));
    ("feedback-reward-success-vs-failure", ("fb-reward", "fb-miss-reward"));
    ("feedback-neutral-success-vs-failure",
     ("fb-corr-neutral", "fb-incorr-neutral")) ].

Definition reversed_differences : list string :=
  [ "anticip-neutral-vs-reward"; "feedback-neutral-correct-vs-reward";
    "feedback-reward-failure-vs-success";
    "feedback-neutral-failure-vs-success" ].

End FirstLevel.

(* ================================================================== *)
(** * config.py *)
(* ================================================================== *)

Module Config.

(** A field of an exclusion entry as loaded from YAML or JSON: a string,
    or a list of strings. *)
Inductive field : Type :=
| FStr (s : string)
| FList (l : list string).

Record MIDTConfig : Type := {
  subject_ids : list string;
  sessions_to_process : list string;
  excluded_subjects : list (list field);
  tr : Q;
  dummy_scans : nat;
  run_timing_extraction : bool;
  run_motion_extraction : bool;
  run_first_level : bool;
  motion_params : list string
}.

Definition ses (session : string) : string := String.append "ses-" session.

Definition session_affected (affected_sessions : field) (session : string)
  : bool :=
  match affected_sessions with
  | FStr s => String.eqb s "all" || String.eqb s (ses session)
  | FList l => mem (ses session) l
  end.

(** [subject_id in valid_subjects] and [valid_subjects.remove(subject_id)];
    a list is never an element of a list of strings. *)
Definition exclude (subject_id : field) (valid_subjects : list string)
  : list string :=
  match subject_id with
  | FStr s => if mem s valid_subjects then remove_first s valid_subjects
              else valid_subjects
  | FList _ => valid_subjects
  end.

Fixpoint apply_exclusions (exclusions : list (list field)) (session : string)
    (valid_subjects : list string) : list string :=
  match exclusions with
  | [] => valid_subjects
  | exclusion :: rest =>
      match exclusion with
      | subject_id :: _ :: affected_sessions :: _ =>
          if session_affected affected_sessions session
          then apply_exclusions rest session (exclude subject_id valid_subjects)
          else apply_exclusions rest session valid_subjects
      | _ => apply_exclusions rest session valid_subjects
      end
  end.

Definition get_valid_subjects_for_session (config : MIDTConfig)
    (session : string) : list string :=
  apply_exclusions (excluded_subjects config) session (subject_ids config).

End Config.

(* ================================================================== *)
(** * pipeline.py and utils.safe_parallel_processing *)
(* ================================================================== *)

Module Pipeline.
Import Config.

(** [session_summary] of [process_single_session]. *)
Record session_summary : Type := {
  session : string;
  total_subjects : nat;
  successful_subjects : nat;
  failed_subjects : list string
}.

(** [overall_summary] of [run_complete_pipeline]. *)
Record overall_summary : Type := {
  sessions_processed : list string;
  all_total_subjects : nat;
  all_successful_subjects : nat;
  all_failed_subjects : list string
}.

(** The summary dict of [motion.extract_motion_regressors]. *)
Record motion_summary : Type := {
  m_total_subjects : nat;
  m_successful_subjects : nat;
  m_failed_subjects : list string
}.

(** What [joblib] does with a batch: it cannot be imported, the pool
    raises, or the pool returns the results in the order of the items. *)
Inductive joblib_outcome : Type :=
| JoblibMissing
| PoolRaises
| PoolCompletes.

(** ** [utils.safe_parallel_processing] *)
Section SafeParallel.
Context {A B : Type}.
Variable func : A -> result B.
Variable joblib : list A -> joblib_outcome.

(** The [n_jobs == 1] branch: an exception becomes [None]. *)
Definition sequential_results (items : list A) : list (option B) :=
  map (fun item => match func item with
                   | Ok r => Some r
                   | Raise _ => None
                   end) items.

(** [Parallel(...)(delayed(func)(item) for item in items)]: an exception
    of a task is raised again by the pool. *)
Fixpoint pool_results (items : list A) : result (list (option B)) :=
  match items with
  | [] => Ok []
  | item :: rest =>
      r <- func item ;;
      rs <- pool_results rest ;;
      Ok (Some r :: rs)
  end.

Definition safe_parallel_processing (items : list A) (n_jobs : nat)
  : list (option B) :=
  if (n_jobs =? 1)%nat then sequential_results items
  else
    match joblib items with
    | JoblibMissing => sequential_results items
    | PoolRaises => sequential_results items
    | PoolCompletes =>
        match pool_results items with
        | Ok results => results
        | Raise _ => sequential_results items
        end
    end.
End SafeParallel.

(** [if result:] for a result of [process_single_subject] or [None]. *)
Definition truthy (r : option bool) : bool :=
  match r with Some b => b | None => false end.

Section World.
(** The collaborators of a run: the numeric parser of pandas, the timing
    files found in [behavioral_dir], the motion extraction driver
    ([motion.extract_motion_regressors], which reads the confound
    files), the first-level analysis of one subject
    ([first_level.run_first_level_midt], which fits the model), and the
    worker pool. *)
Variable to_numeric : string -> pyfloat.
Variable timing_files : list Events.timing_file.
Variable extract_motion_regressors : MIDTConfig -> result motion_summary.
Variable run_first_level_midt : MIDTConfig -> string -> string -> result bool.
Variable joblib : list string -> joblib_outcome.

(** The calls [extract_midt_events(str(timing_file), str(output_dir),
    session=session)] of [extract_timing_for_session]: the configuration
    supplies the directories only. *)
Definition timing_tables (config : MIDTConfig) (session : string)
  : list (result (list Events.event)) :=
  map (fun f => snd (Events.extract_midt_events to_numeric f None))
      timing_files.

Definition is_ok {X : Type} (r : result X) : bool :=
  match r with Ok _ => true | Raise _ => false end.

(** [return successful_extractions > 0]; without timing files [False]. *)
Definition extract_timing_for_session (config : MIDTConfig)
    (session : string) : bool :=
  let successful_extractions :=
    List.length (filter is_ok (timing_tables config session)) in
  (0 <? successful_extractions)%nat.

(** [process_single_subject]: every exception becomes [False].  The
    entries written to [log_file] are left out. *)
Definition process_single_subject (config : MIDTConfig)
    (subject_id session : string) : bool :=
  match run_first_level_midt config subject_id session with
  | Ok success => success
  | Raise _ => false
  end.

(** [extract_motion_regressors_for_session].  [session_config = config]
    binds a second name to the one configuration object, so the two
    assignments change the caller's configuration: the new state is
    returned with the [success] flag. *)
Definition extract_motion_regressors_for_session (config : MIDTConfig)
    (session : string) (session_subjects : list string)
  : bool * MIDTConfig :=
  let session_config :=
    {| subject_ids := session_subjects;
       sessions_to_process := [session];
       excluded_subjects := excluded_subjects config;
       tr := tr config; dummy_scans := dummy_scans config;
       run_timing_extraction := run_timing_extraction config;
       run_motion_extraction := run_motion_extraction config;
       run_first_level := run_first_level config;
       motion_params := motion_params config |} in
  match extract_motion_regressors session_config with
  | Ok motion_summary =>
      ((0 <? m_successful_subjects motion_summary)%nat, session_config)
  | Raise _ => (false, session_config)
  end.

(** The loops that count the results (lines 186-199), from a summary. *)
Fixpoint count_results (subjects : list string) (results : list bool)
    (s : session_summary) : session_summary :=
  match subjects, results with
  | subject_id :: subjects', r :: results' =>
      count_results subjects' results'
        (if r
         then {| session := session s; total_subjects := total_subjects s;
                 successful_subjects := successful_subjects s + 1;
                 failed_subjects := failed_subjects s |}
         else {| session := session s; total_subjects := total_subjects s;
                 successful_subjects := successful_subjects s;
                 failed_subjects := failed_subjects s ++ [subject_id] |})
  | _, _ => s
  end.

(** Step 3 of [process_single_session]. *)
Definition first_level_stage (config : MIDTConfig) (sess : string)
    (session_subjects : list string) (n_jobs : nat) (s : session_summary)
  : session_summary :=
  if (1 <? n_jobs)%nat then
    let results :=
      safe_parallel_processing
        (fun subject_id => Ok (process_single_subject config subject_id sess))
        joblib session_subjects n_jobs in
    count_results session_subjects (map truthy results) s
  else
    count_results session_subjects
      (map (fun subject_id => process_single_subject config subject_id sess)
           session_subjects) s.

(** [process_single_session]: the summary, and the configuration object
    as the call leaves it. *)
Definition process_single_session (config : MIDTConfig) (sess : string)
    (session_subjects : list string) (n_jobs : nat)
  : session_summary * MIDTConfig :=
  let session_summary :=
    {| session := sess; total_subjects := List.length session_subjects;
       successful_subjects := 0; failed_subjects := [] |} in
  if run_timing_extraction config
     && negb (extract_timing_for_session config sess)
  then (session_summary, config)
  else
    let '(motion_ok, config') :=
      if run_motion_extraction config
      then extract_motion_regressors_for_session config sess session_subjects
      else (true, config) in
    if negb motion_ok then (session_summary, config')
    else if run_first_level config'
    then (first_level_stage config' sess session_subjects n_jobs
            session_summary, config')
    else (session_summary, config').

(** One pass of [for session in config.sessions_to_process]: the loop
    walks the list object it started on, while the configuration object
    may change under it.  The state is the configuration, the overall
    summary, and the calls made to [process_single_session] (session and
    eligible subjects). *)
Fixpoint session_loop (sessions : list string) (config : MIDTConfig)
    (n_jobs : nat) (overall : overall_summary)
    (calls : list (string * list string))
  : overall_summary * list (string * list string) * MIDTConfig :=
  match sessions with
  | [] => (overall, calls, config)
  | sess :: sessions' =>
      let session_subjects := get_valid_subjects_for_session config sess in
      match session_subjects with
      | [] => session_loop sessions' config n_jobs overall calls
      | _ :: _ =>
          let '(s, config') :=
            process_single_session config sess session_subjects n_jobs in
          session_loop sessions' config' n_jobs
            {| sessions_processed := sessions_processed overall ++ [sess];
               all_total_subjects :=
                 all_total_subjects overall + total_subjects s;
               all_successful_subjects :=
                 all_successful_subjects overall + successful_subjects s;
               all_failed_subjects :=
                 all_failed_subjects overall ++ failed_subjects s |}
            (calls ++ [(sess, session_subjects)])
      end
  end.

(** [run_complete_pipeline] after the environment checks. *)
Definition run_complete_pipeline (config : MIDTConfig) (n_jobs : nat)
  : overall_summary * list (string * list string) * MIDTConfig :=
  session_loop (sessions_to_process config) config n_jobs
    {| sessions_processed := []; all_total_subjects := 0;
       all_successful_subjects := 0; all_failed_subjects := [] |} [].
End World.

End Pipeline.

(* ================================================================== *)
(** * Sample inputs *)
(* ================================================================== *)

Module Sample.
Import Events.

(** A parser that agrees with [pd.to_numeric(errors='coerce')] on the texts
    used below: an unsigned decimal integer gives its value, the empty
    string and a word give NaN. *)
Fixpoint digits (s : string) (acc : Z) : option Z :=
  match s with
  | EmptyString => Some acc
  | String c s' =>
      let n := nat_of_ascii c in
      if (48 <=? n)%nat && (n <=? 57)%nat
      then digits s' (10 * acc + Z.of_nat (n - 48))%Z
      else None
  end.

Definition to_numeric (s : string) : pyfloat :=
  match s with
  | EmptyString => NaN
  | _ => match digits s 0 with
         | Some z => Fin (inject_Z z)
         | None => NaN
         end
  end.

(** ['\t'.join(fields)] *)
Fixpoint join_tab (fields : list string) : string :=
  match fields with
  | [] => EmptyString
  | [x] => x
  | x :: rest => String.append x (String tab (join_tab rest))
  end.

(** A header with the columns where [process_single_trial] reads them:
    cue type in column 2, accuracy in column 3, the three onsets in
    columns 9, 10 and 11. *)
Definition header : string :=
  join_tab ["trial_number"; "block"; "cue_type"; "acc"; "rt"; "min";
            "cti_duration"; "target_duration"; "iti_duration";
            "onsettime_cue"; "onsettime_target"; "onsettime_feedback";
            "totalreward"].

Definition trial (cue acc cue_ms target_ms feedback_ms : string) : string :=
  join_tab ["1"; "1"; cue; acc; "250"; "0"; "2000"; "300"; "2000";
            cue_ms; target_ms; feedback_ms; "0"].

(** Twenty warm-up rows (rows 0 to 19, before the window), then [rows]. *)
Definition log (rows : list string) : timing_file :=
  {| subject_in_name := Some "ld017s2";
     lines := header
              :: repeat (trial "smile" "1" "1000" "3000" "5000") 20 ++ rows |}.

Definition decode (rows : list string) : result (list event) :=
  snd (extract_midt_events to_numeric (log rows) None).

(** A table whose first row has text where the cue onset is read. *)
Definition text_onset_table : DataFrame :=
  let row (c9 : cell) :=
    [Str "21"; Str "1"; Str "smile"; Num (Fin 1); Num (Fin 250); Num (Fin 0);
     Num (Fin 2000); Num (Fin 300); Num (Fin 2000);
     c9; Num (Fin 12000); Num (Fin 14000)] in
  {| columns := ["trial_number"; "block"; "cue_type"; "acc"; "rt"; "min";
                 "cti_duration"; "target_duration"; "iti_duration";
                 "cue_onset_ms"; "onsettime_target"; "onsettime_feedback"];
     data := [row (Str "10000"); row (Num (Fin 10000))] |}.

(** A configuration that excludes sub-021 from every session. *)
Definition excluding_everywhere : Config.MIDTConfig :=
  {| Config.subject_ids := ["sub-001"; "sub-021"];
     Config.sessions_to_process := ["1"; "2"];
     Config.excluded_subjects :=
       [[Config.FStr "sub-021"; Config.FStr "Motion artifacts";
         Config.FStr "all"]];
     Config.tr := 16 # 10; Config.dummy_scans := 5;
     Config.run_timing_extraction := true;
     Config.run_motion_extraction := true;
     Config.run_first_level := true;
     Config.motion_params := ["trans_x"; "trans_y"; "trans_z";
                              "rot_x"; "rot_y"; "rot_z"] |}.

End Sample.


(* ================================================================== *)
(** * Views of the decoder used to state its properties *)
(* ================================================================== *)

Module EventViews.
Import Events.

(** [t <= x] for a float [x]; false on NaN. *)
Definition at_or_after (t : Q) (x : pyfloat) : bool :=
  match x with
  | Fin q => Qle_bool t q
  | NaN => false
  end.

(** Two events in time order: both onsets are numbers and the first is not
    later than the second. *)
Definition in_time_order (a b : event) : Prop :=
  match onset a, onset b with
  | Fin x, Fin y => x <= y
  | _, _ => False
  end.

(** The line holds something besides white space. *)
Definition has_text (line : string) : bool := negb (is_blank line).

(** A cell holds a float / holds text. *)
Definition is_num (v : cell) : bool :=
  match v with Num _ => true | Str _ => false end.

(** The header names one of the numeric columns more than once. *)
Definition duplicated_numeric (header : list string) : bool :=
  existsb (fun col => (1 <? count_occ string_dec header col)%nat)
          numeric_columns.

(** The lines cannot be parsed: there is none, or the header (the first
    line) names a numeric column more than once. *)
Definition unreadable (ls : list string) : bool :=
  match ls with
  | [] => true
  | first :: _ => duplicated_numeric (split_tab (strip first))
  end.

(** The warning a trial leaves when reading its fields raises [e]: the one
    of the handler of [process_single_trial] for [IndexError] and
    [KeyError], the one of the handler of the loop for any other
    exception. *)
Definition warning_for (trial_idx : nat) (e : exn) : warning :=
  match e with
  | IndexError | KeyError => MissingDataForTrial trial_idx e
  | _ => ErrorProcessingTrial trial_idx e
  end.

(** A log of four columns and twenty-two rows: the columns where the three
    onsets are read do not exist. *)
Definition narrow_log : timing_file :=
  {| subject_in_name := Some "ld017s2";
     lines := Sample.join_tab ["trial_number"; "block"; "cue_type"; "acc"]
              :: repeat (Sample.join_tab ["1"; "1"; "smile"; "1"]) 22 |}.

End EventViews.


(* ================================================================== *)
(** * Views of the exclusion list and of a run *)
(* ================================================================== *)

Module ConfigViews.
Import Config.

(** The entry names the subject [x] and affects [session]: it has at least
    three fields, its first field is the string [x], and its third field is
    "all", the session's tag, or a list holding the tag. *)
Definition excludes (session x : string) (exclusion : list field) : bool :=
  match exclusion with
  | FStr s :: _ :: affected_sessions :: _ =>
      String.eqb s x && session_affected affected_sessions session
  | _ => false
  end.

End ConfigViews.


(* ================================================================== *)
(** * events.py: [validate_events_file] *)
(* ================================================================== *)

Module Validation.
Import Events.

(** An events table: its column names and its rows. *)
Record events_table : Type := {
  table_columns : list string;
  table_rows : list event
}.

(** The columns of the table the decoder builds: the keys of the event
    dicts, in their order. *)
Definition decoder_columns : list string :=
  ["onset"; "duration"; "trial_type"; "accuracy"; "response_time"].

Definition decoded_table (events_df : list event) : events_table :=
  {| table_columns := decoder_columns; table_rows := events_df |}.

(** [x < 0]; false on NaN. *)
Definition flt0 (x : pyfloat) : bool :=
  match x with
  | Fin q => negb (Qle_bool 0 q)
  | NaN => false
  end.

Inductive validation_warning : Type :=
| UnexpectedTrialTypes (unexpected_types : list string).

(** [validate_events_file]: the warning issued, and [True] or the
    [ValueError] raised.  [found_types - expected_types] is a set; it is
    listed here in the order of first appearance. *)
Definition validate_events_file (events_df : events_table)
  : list validation_warning * result bool :=
  let required_columns := ["onset"; "duration"; "trial_type"] in
  let missing_columns :=
    filter (fun col => negb (mem col (table_columns events_df)))
           required_columns in
  match missing_columns with
  | _ :: _ => ([], Raise (ValueError "Missing required BIDS columns"))
  | [] =>
      if existsb (fun e => flt0 (onset e)) (table_rows events_df)
      then ([], Raise (ValueError "Found negative onset times"))
      else if existsb (fun e => flt0 (duration e)) (table_rows events_df)
      then ([], Raise (ValueError "Found negative durations"))
      else
        let found_types :=
          nodup string_dec (map trial_type (table_rows events_df)) in
        let unexpected_types :=
          filter (fun ty => negb (mem ty expected_types)) found_types in
        match unexpected_types with
        | [] => ([], Ok true)
        | _ :: _ => ([UnexpectedTrialTypes unexpected_types], Ok true)
        end
  end.

End Validation.

(* ================================================================== *)
(** * first_level.py: the volume counts of [run_first_level_midt] *)
(* ================================================================== *)

Module Timepoints.

(** Lines 84-94: how many rows to drop from the confounds of fMRIPrep,
    from the volume count of the functional image, the row count of the
    confound table and [config.dummy_scans].  The second test compares
    Python integers, so the difference may be negative. *)
Definition dummy_scans_to_remove (n_timepoints_fmri n_timepoints_confounds
                                  dummy_scans : nat) : nat :=
  if (n_timepoints_fmri =? n_timepoints_confounds)%nat then dummy_scans
  else if (Z.of_nat n_timepoints_fmri
           =? Z.of_nat n_timepoints_confounds - Z.of_nat dummy_scans)%Z
  then dummy_scans
  else 0.

(** The rows [load_midt_confounds] returns when it returns: those of the
    file without the first [dummy_scans] ([iloc[dummy_scans:]]). *)
Definition loaded_confound_rows (n_timepoints_confounds dummy_scans : nat)
  : nat :=
  if (0 <? dummy_scans)%nat then n_timepoints_confounds - dummy_scans
  else n_timepoints_confounds.

(** Lines 134-139: the volumes of [fmri_img_trimmed]. *)
Definition trimmed_volumes (n_timepoints_fmri dummy_scans : nat) : nat :=
  if (dummy_scans <? n_timepoints_fmri)%nat
  then n_timepoints_fmri - dummy_scans
  else n_timepoints_fmri.

(** The rows of [confounds_df] (lines 96-112): those of the extracted
    motion regressors when their file exists ([regressor_rows]), else
    those loaded from the confounds of fMRIPrep. *)
Definition confound_rows (n_timepoints_fmri n_timepoints_confounds
                          dummy_scans : nat) (regressor_rows : option nat)
  : nat :=
  match regressor_rows with
  | Some rows => rows
  | None =>
      loaded_confound_rows n_timepoints_confounds
        (dummy_scans_to_remove n_timepoints_fmri n_timepoints_confounds
           dummy_scans)
  end.

(** Lines 145-148: [False] is the "Timepoint mismatch" [ValueError], which
    the function turns into the return value [False]. *)
Definition timepoints_match (n_timepoints_fmri n_timepoints_confounds
                             dummy_scans : nat) (regressor_rows : option nat)
  : bool :=
  (trimmed_volumes n_timepoints_fmri dummy_scans
   =? confound_rows n_timepoints_fmri n_timepoints_confounds dummy_scans
        regressor_rows)%nat.

End Timepoints.

(* ================================================================== *)
(** * config.py: [_validate_paths] *)
(* ================================================================== *)

Module Paths.

Definition placeholder_indicators : list string :=
  ["/path/to/"; "CHANGE_THIS"; "UPDATE_ME"].

Section FileSystem.
(** [Path(p).exists()] *)
Variable path_exists : string -> bool.

(** The loop over the indicators. *)
Fixpoint check_placeholders (indicators : list string)
    (base_dir behavioral_dir fmriprep_dir : string) : result unit :=
  match indicators with
  | [] => Ok tt
  | indicator :: rest =>
      if contains indicator base_dir || contains indicator behavioral_dir
         || contains indicator fmriprep_dir
      then Raise (ValueError "Configuration contains placeholder paths")
      else check_placeholders rest base_dir behavioral_dir fmriprep_dir
  end.

(** [MIDTConfig._validate_paths], run by [__post_init__] on every
    construction. *)
Definition validate_paths (base_dir behavioral_dir fmriprep_dir : string)
  : result unit :=
  _ <- check_placeholders placeholder_indicators base_dir behavioral_dir
         fmriprep_dir ;;
  if negb (path_exists behavioral_dir) then Raise FileNotFoundError
  else if negb (path_exists fmriprep_dir) then Raise FileNotFoundError
  else Ok tt.

(** [create_example_config()]: the constructor call with its three
    directories. *)
Definition create_example_config : result unit :=
  validate_paths "/path/to/your/analysis/directory"
    "/path/to/behavioral/timing/files" "/path/to/fmriprep/derivatives".
End FileSystem.

End Paths.

(* ================================================================== *)
(** * motion.py: [extract_motion_regressors] *)
(* ================================================================== *)

Module MotionDriver.
Import Motion.

(** The summary dict of the driver; a QC entry carries its subject and
    session. *)
Record summary : Type := {
  total_subjects : nat;
  successful_subjects : nat;
  failed_subjects : list string;
  qc_data : list (string * string * qc_metrics)
}.

Section Driver.
Variable np_sqrt : Q -> Q.
Variable np_degrees : Q -> Q.
(** The confound file of a subject and session: [None] when it does not
    exist, else the table read by [pd.read_csv] or the exception raised
    while reading. *)
Variable confounds_file : string -> string -> option (result confounds).
Variable dummy_scans : nat.
Variable motion_params : list string.

(** One pass of the inner loop, from the state of the summary.  The
    writes of the pass (creating the output directory, saving the
    regressors) are taken to succeed. *)
Definition process_session (subject_id session : string) (s : summary)
  : summary :=
  match confounds_file subject_id session with
  | None => s
  | Some read =>
      match (df <- read ;;
             extract_subject_motion np_sqrt np_degrees df dummy_scans
               motion_params) with
      | Ok (_, qc_metrics, _) =>
          {| total_subjects := total_subjects s;
             successful_subjects := successful_subjects s + 1;
             failed_subjects := failed_subjects s;
             qc_data := qc_data s ++ [(subject_id, session, qc_metrics)] |}
      | Raise _ =>
          {| total_subjects := total_subjects s;
             successful_subjects := successful_subjects s;
             failed_subjects :=
               failed_subjects s
               ++ [String.append subject_id (String.append "_ses-" session)];
             qc_data := qc_data s |}
      end
  end.

Fixpoint session_loop (subject_id : string) (sessions : list string)
    (s : summary) : summary :=
  match sessions with
  | [] => s
  | session :: rest =>
      session_loop subject_id rest (process_session subject_id session s)
  end.

Fixpoint subject_loop (subject_ids sessions : list string) (s : summary)
  : summary :=
  match subject_ids with
  | [] => s
  | subject_id :: rest =>
      subject_loop rest sessions (session_loop subject_id sessions s)
  end.

Definition extract_motion_regressors (subject_ids sessions : list string)
  : summary :=
  subject_loop subject_ids sessions
    {| total_subjects := List.length subject_ids; successful_subjects := 0;
       failed_subjects := []; qc_data := [] |}.
(** Views used to state the ledger: the pairs in the order the loops visit
    them, and what happens to a pair. *)
Definition pairs (subject_ids sessions : list string)
  : list (string * string) :=
  flat_map (fun subject_id => map (fun session => (subject_id, session))
                                  sessions) subject_ids.

Definition extraction (p : string * string)
  : option (result (matrix * qc_metrics * list string)) :=
  match confounds_file (fst p) (snd p) with
  | None => None
  | Some read =>
      Some (df <- read ;;
            extract_subject_motion np_sqrt np_degrees df dummy_scans
              motion_params)
  end.

Definition is_missing (p : string * string) : bool :=
  match extraction p with None => true | Some _ => false end.

Definition is_failure (p : string * string) : bool :=
  match extraction p with Some (Raise _) => true | _ => false end.

Definition is_success (p : string * string) : bool :=
  match extraction p with Some (Ok _) => true | _ => false end.

Definition label (p : string * string) : string :=
  String.append (fst p) (String.append "_ses-" (snd p)).
End Driver.

End MotionDriver.

(* ================================================================== *)
(** * first_level.py: [load_midt_confounds] *)
(* ================================================================== *)

Module Confounds.
Import Motion.

Definition basic_motion_params : list string :=
  ["trans_x"; "trans_y"; "trans_z"; "rot_x"; "rot_y"; "rot_z"].

Definition tissue_params : list string :=
  ["csf"; "white_matter"; "global_signal"].

(** [df[names]]: the named columns in the order of [names]; a name that is
    not a column raises [KeyError]. *)
Fixpoint select (df : confounds) (names : list string) : result confounds :=
  match names with
  | [] => Ok []
  | name :: rest =>
      match column name df with
      | Some vals =>
          selected <- select df rest ;; Ok ((name, vals) :: selected)
      | None => Raise KeyError
      end
  end.

(** [df.fillna(0)] *)
Definition fillna0 (df : confounds) : confounds :=
  map (fun col : string * list pyfloat =>
         (fst col,
          map (fun x => if is_nan x then Fin 0 else x) (snd col))) df.

(** [df.iloc[dummy_scans:]], under [if dummy_scans > 0]. *)
Definition drop_dummy_scans (dummy_scans : nat) (df : confounds)
  : confounds :=
  if (0 <? dummy_scans)%nat
  then map (fun col : string * list pyfloat =>
              (fst col, skipn dummy_scans (snd col))) df
  else df.

(** [load_midt_confounds(confounds_file, dummy_scans)].  [nilearn] is what
    [load_confounds] does on the file (its table, or the exception it
    raises) and [confounds_raw] what [pd.read_csv] does. *)
Definition load_midt_confounds (nilearn confounds_raw : result confounds)
    (dummy_scans : nat) : result confounds :=
  match nilearn with
  | Ok confounds_df => Ok (drop_dummy_scans dummy_scans confounds_df)
  | Raise _ =>
      raw <- confounds_raw ;;
      let confounds_selected :=
        filter (has_column raw) basic_motion_params
        ++ filter (has_column raw) tissue_params in
      match confounds_selected with
      | [] => Raise (ValueError "No usable confound regressors found")
      | _ :: _ =>
          selected <- select raw confounds_selected ;;
          Ok (drop_dummy_scans dummy_scans (fillna0 selected))
      end
  end.

End Confounds.

(* ================================================================== *)
(** * events.py: subject identifiers *)
(* ================================================================== *)

Module Subjects.

(** The character classes of the patterns, on ASCII text: [\d],
    [[a-zA-Z]] and [[^_]]. *)
Definition is_digit (c : ascii) : bool :=
  let n := nat_of_ascii c in (48 <=? n)%nat && (n <=? 57)%nat.

Definition is_letter (c : ascii) : bool :=
  let n := nat_of_ascii c in
  ((65 <=? n)%nat && (n <=? 90)%nat) || ((97 <=? n)%nat && (n <=? 122)%nat).

Definition not_underscore (c : ascii) : bool := negb (Ascii.eqb c "_").

(** A greedy repetition [[class]*] at the start of [s]: the longest run
    and what follows it.  In the patterns below the item after a
    repetition never matches a character of the repeated class, so
    backtracking into the run cannot succeed and the longest run is the
    only candidate. *)
Fixpoint span (class : ascii -> bool) (s : string) : string * string :=
  match s with
  | EmptyString => (EmptyString, EmptyString)
  | String c rest =>
      if class c
      then let (run, tail) := span class rest in (String c run, tail)
      else (EmptyString, s)
  end.

(** Literal text at the start of [s]: what follows it. *)
Fixpoint strip_prefix (literal s : string) : option string :=
  match literal, s with
  | EmptyString, _ => Some s
  | String a literal', String b s' =>
      if Ascii.eqb a b then strip_prefix literal' s' else None
  | String _ _, EmptyString => None
  end.

(** [$]: the end of the string, or just before a newline that ends it. *)
Definition at_end (s : string) : bool :=
  String.eqb s "" || String.eqb s (String (ascii_of_nat 10) "").

(** [re.search(pattern, s)] for a pattern without [^]: the match at the
    leftmost position that has one. *)
Fixpoint search (match_at : string -> option string) (s : string)
  : option string :=
  match match_at s with
  | Some group => Some group
  | None =>
      match s with
      | EmptyString => None
      | String _ rest => search match_at rest
      end
  end.

(** [prefix([^_]+)suffix] at the start of [s]: group 1. *)
Definition between (prefix suffix s : string) : option string :=
  match strip_prefix prefix s with
  | Some s1 =>
      match span not_underscore s1 with
      | (String c group, s2) =>
          match strip_prefix suffix s2 with
          | Some _ => Some (String c group)
          | None => None
          end
      | _ => None
      end
  | None => None
  end.

(** The fourth pattern at the start of [s], group 1: a run of letters, a
    run of digits that is not empty, a run of letters and a run of digits
    ([[a-zA-Z]*], [\d+], [[a-zA-Z]*], [\d*] in a row). *)
Definition letters_digits (s : string) : option string :=
  let (letters, s1) := span is_letter s in
  let (digits, s2) := span is_digit s1 in
  match digits with
  | EmptyString => None
  | String _ _ =>
      let (letters', s3) := span is_letter s2 in
      let (digits', _) := span is_digit s3 in
      Some (letters ++ digits ++ letters' ++ digits')%string
  end.

Fixpoint first_match (patterns : list (string -> option string))
    (filename : string) : option string :=
  match patterns with
  | [] => None
  | pattern :: rest =>
      match pattern filename with
      | Some group => Some group
      | None => first_match rest filename
      end
  end.

(** [extract_subject_from_filename], on [Path(filename).name]. *)
Definition extract_subject_from_filename (filename : string)
  : option string :=
  first_match
    [search (between "Reward_task_" "_reward");
     search (between "task_" "_");
     between "" "_";
     search letters_digits]
    filename.

(** [int(digits)] for a text of decimal digits. *)
Definition int (digits : string) : N :=
  match NilEmpty.uint_of_string digits with
  | Some d => N.of_uint d
  | None => 0%N
  end.

Fixpoint zeros (k : nat) : string :=
  match k with
  | O => EmptyString
  | S k' => String "0" (zeros k')
  end.

(** [f'{subject_num:03d}'] *)
Definition format_03d (subject_num : N) : string :=
  let digits := NilEmpty.string_of_uint (N.to_uint subject_num) in
  (zeros (3 - String.length digits) ++ digits)%string.

(** [re.match(r'^ld(\d+)s\d*$', s)]: group 1. *)
Definition match_ld (s : string) : option string :=
  match strip_prefix "ld" s with
  | Some s1 =>
      match span is_digit s1 with
      | (String c digits, s2) =>
          match strip_prefix "s" s2 with
          | Some s3 =>
              let (_, s4) := span is_digit s3 in
              if at_end s4 then Some (String c digits) else None
          | None => None
          end
      | _ => None
      end
  | None => None
  end.

(** [re.match(r'^sub(\d+)$', s)]: group 1. *)
Definition match_sub (s : string) : option string :=
  match strip_prefix "sub" s with
  | Some s1 =>
      match span is_digit s1 with
      | (String c digits, s2) =>
          if at_end s2 then Some (String c digits) else None
      | _ => None
      end
  | None => None
  end.

(** [re.match(r'^(\d+)$', s)]: group 1. *)
Definition match_number (s : string) : option string :=
  match span is_digit s with
  | (String c digits, s1) =>
      if at_end s1 then Some (String c digits) else None
  | _ => None
  end.

(** [re.match(r'^sub-\d{3}$', s)] *)
Definition match_bids (s : string) : bool :=
  match strip_prefix "sub-" s with
  | Some (String d1 (String d2 (String d3 s1))) =>
      is_digit d1 && is_digit d2 && is_digit d3 && at_end s1
  | _ => false
  end.

(** [re.search(r'(\d+)', s)]: group 1. *)
Definition digits_at (s : string) : option string :=
  match span is_digit s with
  | (String c digits, _) => Some (String c digits)
  | _ => None
  end.

(** [re.sub(r'[^a-zA-Z0-9]', '', s)] *)
Fixpoint clean (s : string) : string :=
  match s with
  | EmptyString => EmptyString
  | String c rest =>
      if is_letter c || is_digit c then String c (clean rest)
      else clean rest
  end.

Definition bids (subject_num : N) : string :=
  ("sub-" ++ format_03d subject_num)%string.

(** [convert_to_bids_format] *)
Definition convert_to_bids_format (original_id : string) : string :=
  if String.eqb original_id "" then "sub-unknown"
  else
    match match_ld original_id with
    | Some group => bids (int group)
    | None =>
    match match_sub original_id with
    | Some group => bids (int group)
    | None =>
    match match_number original_id with
    | Some group => bids (int group)
    | None =>
    if match_bids original_id then original_id
    else
      match search digits_at original_id with
      | Some group => bids (int group)
      | None => ("sub-" ++ clean original_id)%string
      end
    end
    end
    end.

(** The name of the events file: as [extract_midt_events] writes it
    ([output_filename]) and as [run_first_level_midt] looks it up. *)
Definition events_filename (bids_subject_id session : string) : string :=
  (bids_subject_id ++ "_ses-" ++ session ++ "_task-MIDT_events.tsv")%string.

(** Lines 40-47 and 129 of [extract_midt_events]: the file name the table
    of a timing file is written under, in the session's output directory,
    when the decoder gets to write it. *)
Definition output_filename (timing_file session : string)
    (subject_id : option string) : result string :=
  match (match subject_id with
         | Some s => Some s
         | None => extract_subject_from_filename timing_file
         end) with
  | None => Raise (ValueError "Could not extract subject ID from filename")
  | Some id => Ok (events_filename (convert_to_bids_format id) session)
  end.

(** Views used in the statements: whether a text holds a decimal digit,
    and whether all its characters are of a class. *)
Fixpoint has_digit (s : string) : bool :=
  match s with
  | EmptyString => false
  | String c rest => is_digit c || has_digit rest
  end.

Fixpoint all_of (class : ascii -> bool) (s : string) : bool :=
  match s with
  | EmptyString => true
  | String c rest => class c && all_of class rest
  end.

End Subjects.

(* ================================================================== *)
(** * Shared list facts *)
(* ================================================================== *)

Lemma mem_In (x : string) (l : list string) : mem x l = true <-> In x l.
Proof.
  unfold mem. rewrite existsb_exists. split.
  - intros [y [Hy E]]. apply String.eqb_eq in E. now subst.
  - intros H. exists x. split; [assumption|apply String.eqb_refl].
Qed.

(** Membership in a list written out. *)
Ltac in_list :=
  simpl; solve [repeat (first [left; reflexivity | right])].

(* ================================================================== *)
(** * Properties of the event decoder *)
(* ================================================================== *)

Section EventDecoder.
Import Events.

Lemma trial_loop_unfold (df : DataFrame) (idxs : list nat) :
  forall evs ws,
    trial_loop df idxs evs ws =
    (evs ++ flat_map (kept_events df) idxs,
     ws ++ flat_map (trial_warnings df) idxs).
Proof.
  induction idxs as [|i idxs IH]; intros evs ws; simpl.
  - now rewrite !app_nil_r.
  - unfold kept_events, trial_warnings.
    destruct (process_single_trial df i) as [w [event_data|e]]; simpl;
      rewrite IH, <- ?app_assoc; reflexivity.
Qed.

Lemma flat_map_nil {X Y : Type} (f : X -> list Y) (l : list X) :
  flat_map f l = [] <-> forall x, In x l -> f x = [].
Proof.
  induction l as [|a l IH]; simpl.
  - split; [intros _ x []|reflexivity].
  - split.
    + intros H x [->|Hx]; apply app_eq_nil in H; destruct H as [Ha Hl];
        [assumption|now apply IH].
    + intros H. rewrite (H a (or_introl eq_refl)).
      apply IH. intros x Hx. apply H. now right.
Qed.

(** The decoder's result from the parsed table, as a function of the events
    kept per trial. *)
Lemma events_of_table_kept (df : DataFrame) :
  snd (events_of_table df) =
  match data df with
  | [] => Raise (ValueError "Timing file is empty")
  | _ :: _ =>
      match flat_map (kept_events df) (trial_window df) with
      | [] => Raise (ValueError "No valid trials found in timing file")
      | (_ :: _) as events_list => Ok (finish_events events_list)
      end
  end.
Proof.
  unfold events_of_table. destruct (data df); [reflexivity|].
  rewrite trial_loop_unfold. simpl.
  destruct (flat_map (kept_events df) (trial_window df)); reflexivity.
Qed.

(** ** Sorting and the time shift *)








Lemma In_insert_by_onset (e x : event) (l : list event) :
  In x (insert_by_onset e l) <-> x = e \/ In x l.
Proof.
  induction l as [|y l IH]; simpl.
  - intuition.
  - destruct (onset_le e y); simpl; [intuition|]. rewrite IH. intuition.
Qed.

Lemma In_isort (x : event) (l : list event) :
  In x (fold_right insert_by_onset [] l) <-> In x l.
Proof.
  induction l as [|y l IH]; simpl; [tauto|].
  rewrite In_insert_by_onset, IH. intuition.
Qed.

Lemma In_sort_values (x : event) (l : list event) :
  In x (sort_values l) <-> In x l.
Proof.
  unfold sort_values. rewrite in_app_iff, In_isort, !filter_In.
  destruct (is_nan (onset x)); simpl; intuition congruence.
Qed.


(** ** Reading the file *)

Lemma data_rows_nil (header rest : list string) :
  data_rows header rest = [] <-> forallb is_blank rest = true.
Proof.
  induction rest as [|line rest IH]; simpl; [tauto|].
  destruct (is_blank line); simpl; [exact IH|].
  split; discriminate.
Qed.

Lemma convert_numeric_rows (to_numeric : string -> pyfloat)
    (cols : list string) :
  forall df df',
    convert_numeric to_numeric cols df = Ok df' ->
    List.length (data df') = List.length (data df).
Proof.
  induction cols as [|col cols IH]; intros df df' H; simpl in H.
  - now inversion H.
  - destruct (mem col (columns df)); [|now apply IH].
    unfold assign_numeric in H.
    destruct (1 <? count_occ string_dec (columns df) col)%nat;
      [discriminate|].
    simpl in H. apply IH in H. simpl in H. now rewrite length_map in H.
Qed.

Lemma read_timing_data_rows (to_numeric : string -> pyfloat)
    (ls : list string) (df : DataFrame) :
  read_timing_data to_numeric ls = Ok df ->
  (data df = [] <-> forallb is_blank (tl ls) = true).
Proof.
  unfold read_timing_data.
  destruct (parse_lines to_numeric ls) as [df0|e] eqn:E; [|discriminate].
  intros H; inversion H; subst df0; clear H.
  destruct ls as [|first rest]; [discriminate|].
  unfold parse_lines in E. apply convert_numeric_rows in E.
  cbn [data tl] in E |- *. rewrite !length_map in E.
  rewrite <- data_rows_nil with (header := split_tab (strip first)).
  split; intros H.
  - rewrite H in E. simpl in E.
    now apply length_zero_iff_nil.
  - rewrite H in E. simpl in E. now apply length_zero_iff_nil.
Qed.

Lemma flat_map_not_nil {X Y : Type} (f : X -> list Y) (l : list X) :
  flat_map f l <> [] <-> exists x, In x l /\ f x <> [].
Proof.
  induction l as [|a l IH]; simpl.
  - split; [congruence|intros [x [[] _]]].
  - split.
    + intros H. destruct (f a) eqn:E.
      * simpl in H. apply IH in H. destruct H as [x [Hx Hk]].
        exists x. auto.
      * exists a. split; [now left|congruence].
    + intros [x [[->|Hx] Hk]] H; apply app_eq_nil in H; destruct H.
      * contradiction.
      * apply IH; [exists x; auto|assumption].
Qed.

(** The three ways the decoder ends on a parsed table. *)
Lemma events_of_table_cases (df : DataFrame) :
  let kept := flat_map (kept_events df) (trial_window df) in
  (data df = [] /\
   snd (events_of_table df) = Raise (ValueError "Timing file is empty"))
  \/ (data df <> [] /\ kept = [] /\
      snd (events_of_table df)
      = Raise (ValueError "No valid trials found in timing file"))
  \/ (data df <> [] /\ kept <> [] /\
      snd (events_of_table df) = Ok (finish_events kept)).
Proof.
  intros kept. rewrite events_of_table_kept. fold kept.
  destruct (data df); [left; split; reflexivity|].
  right. destruct kept; [left|right]; repeat split; discriminate.
Qed.

Lemma unrecognised_cue_keeps_nothing (df : DataFrame) (i : nat) :
  (forall t, read_trial df i = Ok t ->
     cue_matches "smile" (f_cue_type t) = false
     /\ cue_matches "neutral" (f_cue_type t) = false) ->
  kept_events df i = [].
Proof.
  intros H. unfold kept_events, process_single_trial.
  destruct (read_trial df i) as [t|ex] eqn:Et.
  - simpl. unfold trial_events. destruct (H t eq_refl) as [-> ->].
    reflexivity.
  - destruct ex; reflexivity.
Qed.

(** Whether the lines are parsed is decided by their number and by the
    header. *)
Lemma mem_false_count (col : string) (l : list string) :
  mem col l = false -> count_occ string_dec l col = 0%nat.
Proof.
  intros H. apply count_occ_not_In. intros Hin.
  apply mem_In in Hin. congruence.
Qed.

Lemma convert_numeric_cases (to_numeric : string -> pyfloat)
    (cols : list string) :
  forall df,
    if existsb (fun col => (1 <? count_occ string_dec (columns df) col)%nat)
               cols
    then convert_numeric to_numeric cols df = Raise TypeError
    else exists df', convert_numeric to_numeric cols df = Ok df'.
Proof.
  induction cols as [|col cols IH]; intros df; cbn [existsb convert_numeric].
  - now exists df.
  - destruct (mem col (columns df)) eqn:Em.
    + unfold assign_numeric.
      destruct (1 <? count_occ string_dec (columns df) col)%nat;
        [reflexivity|].
      cbn [orb bind].
      exact (IH {| columns := columns df;
                   data := map (coerce_row to_numeric col (columns df))
                               (data df) |}).
    + rewrite (mem_false_count col (columns df) Em).
      cbn [Nat.ltb Nat.leb orb]. exact (IH df).
Qed.

Lemma read_timing_data_cases (to_numeric : string -> pyfloat)
    (ls : list string) :
  if EventViews.unreadable ls
  then read_timing_data to_numeric ls
       = Raise (ValueError "Error reading timing file")
  else exists df, read_timing_data to_numeric ls = Ok df.
Proof.
  unfold read_timing_data, parse_lines, EventViews.unreadable,
    EventViews.duplicated_numeric.
  destruct ls as [|first rest]; [reflexivity|].
  assert (H := convert_numeric_cases to_numeric numeric_columns
                 {| columns := split_tab (strip first);
                    data := map (map Str)
                              (data_rows (split_tab (strip first)) rest) |}).
  cbn [columns] in H.
  destruct (existsb
              (fun col =>
                 (1 <? count_occ string_dec (split_tab (strip first)) col)%nat)
              numeric_columns).
  - now rewrite H.
  - destruct H as [df' ->]. now exists df'.
Qed.

(** C6 (amended): the decoder ends in exactly one of five ways.  It raises
    the could-not-extract-subject-ID error exactly when no subject
    identifier is given and none is found in the file name; otherwise the
    error-reading-timing-file error exactly when the file has no line or
    its header names a numeric column more than once; otherwise the
    empty-file error exactly when the table has no data row (every line
    after the header is blank); otherwise the no-valid-trials error
    exactly when no trial of the window adds an event; and it returns a
    table in every other case.  In particular a log whose cue types are
    all unrecognised ends with the no-valid-trials error. *)
Theorem C6_decoder_errors :
  forall (to_numeric : string -> pyfloat) (f : timing_file)
         (subject_id : option string),
    let subject :=
      match subject_id with Some s => Some s | None => subject_in_name f end in
    let r := snd (extract_midt_events to_numeric f subject_id) in
    (r = Raise (ValueError "Could not extract subject ID from filename")
     <-> subject = None)
    /\ (r = Raise (ValueError "Error reading timing file")
        <-> subject <> None /\ EventViews.unreadable (lines f) = true)
    /\ (r = Raise (ValueError "Timing file is empty")
        <-> subject <> None /\ EventViews.unreadable (lines f) = false
            /\ forallb is_blank (tl (lines f)) = true)
    /\ (subject <> None -> EventViews.unreadable (lines f) = false ->
        exists df,
          read_timing_data to_numeric (lines f) = Ok df
          /\ (data df = [] <-> forallb is_blank (tl (lines f)) = true)
          /\ (r = Raise (ValueError "Timing file is empty") <-> data df = [])
          /\ (r = Raise (ValueError "No valid trials found in timing file")
              <-> data df <> []
                  /\ forall i, In i (trial_window df) ->
                               kept_events df i = [])
          /\ ((exists events_df, r = Ok events_df)
              <-> data df <> []
                  /\ exists i, In i (trial_window df)
                               /\ kept_events df i <> [])
          /\ (data df <> [] ->
              (forall i t, In i (trial_window df) -> read_trial df i = Ok t ->
                 cue_matches "smile" (f_cue_type t) = false
                 /\ cue_matches "neutral" (f_cue_type t) = false) ->
              r = Raise (ValueError "No valid trials found in timing file")))
    /\ (r = Raise (ValueError "No valid trials found in timing file")
        \/ (exists events_df, r = Ok events_df) ->
        subject <> None /\ EventViews.unreadable (lines f) = false).
Proof.
  intros to_numeric f subject_id subject r.
  assert (Hcases := read_timing_data_cases to_numeric (lines f)).
  unfold r, extract_midt_events. fold subject.
  destruct subject as [s|] eqn:Es.
  2:{ cbn [snd]. split; [split; reflexivity|].
      split; [split; [discriminate|intros [H _]; contradiction]|].
      split; [split; [discriminate|intros [H _]; contradiction]|].
      split; [intros H; contradiction|].
      intros [H|[evs H]]; discriminate. }
  assert (Hs : Some s <> None) by discriminate.
  destruct (EventViews.unreadable (lines f)) eqn:Eu.
  { rewrite Hcases. cbn [snd].
    split; [split; discriminate|].
    split; [split; [intros _; now split|reflexivity]|].
    split; [split; [discriminate|intros [_ [H _]]; discriminate]|].
    split; [discriminate|].
    intros [H|[evs H]]; discriminate. }
  destruct Hcases as [df Hread]. rewrite Hread.
  assert (Hnil := flat_map_nil (kept_events df) (trial_window df)).
  assert (Hex := flat_map_not_nil (kept_events df) (trial_window df)).
  assert (Hrows := read_timing_data_rows to_numeric (lines f) df Hread).
  assert (Hlog :
    (snd (events_of_table df) = Raise (ValueError "Timing file is empty")
     <-> data df = [])
    /\ (snd (events_of_table df)
        = Raise (ValueError "No valid trials found in timing file")
        <-> data df <> []
            /\ forall i, In i (trial_window df) -> kept_events df i = [])
    /\ ((exists events_df, snd (events_of_table df) = Ok events_df)
        <-> data df <> []
            /\ exists i, In i (trial_window df) /\ kept_events df i <> [])
    /\ snd (events_of_table df)
       <> Raise (ValueError "Could not extract subject ID from filename")
    /\ snd (events_of_table df)
       <> Raise (ValueError "Error reading timing file")).
  { destruct (events_of_table_cases df)
      as [[Hd He]|[[Hd [Hk He]]|[Hd [Hk He]]]]; rewrite He;
      (split; [|split; [|split; [|split; discriminate]]]).
    - split; [intros _; exact Hd|reflexivity].
    - split; [discriminate|intros [H _]; contradiction].
    - split; [intros [evs H]; discriminate|intros [H _]; contradiction].
    - split; [discriminate|intros H; contradiction].
    - split; [intros _; split; [exact Hd|now apply Hnil]|reflexivity].
    - split; [intros [evs H]; discriminate|].
      intros [_ H]. apply Hex in H. contradiction.
    - split; [discriminate|intros H; contradiction].
    - split; [discriminate|]. intros [_ H]. apply Hnil in H. contradiction.
    - split; [intros _; split; [exact Hd|now apply Hex]|eauto]. }
  destruct Hlog as [L1 [L2 [L3 [L4 L5]]]].
  split; [split; [intros H; contradiction|discriminate]|].
  split; [split; [intros H; contradiction|intros [_ H]; discriminate]|].
  split.
  { rewrite L1, Hrows. split; [intros H; now repeat split|now intros [_ [_ H]]]. }
  split.
  { intros _ _. exists df. split; [reflexivity|].
    split; [exact Hrows|]. split; [exact L1|]. split; [exact L2|].
    split; [exact L3|].
    intros Hd H. apply L2. split; [exact Hd|]. intros i Hi.
    apply unrecognised_cue_keeps_nothing. intros t Ht. now apply (H i t). }
  intros _. now split.
Qed.

(** C6 counterexample: three logs on which the decoder raises an error
    that is neither the empty-file nor the no-valid-trials error.  A file
    without any line, and a file whose only line is a header naming [acc]
    twice, have no data row, yet end in the error-reading error; and a log
    whose trial in the window yields events, decoded when its name gives
    a subject, ends in the could-not-extract-subject-ID error when its
    name ([task.txt]) gives none. *)
Lemma C6_other_errors :
  snd (extract_midt_events Sample.to_numeric
         {| subject_in_name := Some "ld017s2"; lines := [] |} None)
  = Raise (ValueError "Error reading timing file")
  /\ data_rows (split_tab (strip (Sample.join_tab ["acc"; "acc"]))) [] = []
  /\ snd (extract_midt_events Sample.to_numeric
            {| subject_in_name := Some "ld017s2";
               lines := [Sample.join_tab ["acc"; "acc"]] |}
            None)
     = Raise (ValueError "Error reading timing file")
  /\ Subjects.extract_subject_from_filename "task.txt" = None
  /\ (exists events_df,
        Sample.decode [Sample.trial "smile" "1" "10000" "12000" "14000"]
        = Ok events_df)
  /\ snd (extract_midt_events Sample.to_numeric
            {| subject_in_name :=
                 Subjects.extract_subject_from_filename "task.txt";
               lines :=
                 lines (Sample.log
                          [Sample.trial "smile" "1" "10000" "12000" "14000"])
            |} None)
     = Raise (ValueError "Could not extract subject ID from filename").
Proof.
  split; [vm_compute; reflexivity|].
  split; [reflexivity|].
  split; [vm_compute; reflexivity|].
  split; [vm_compute; reflexivity|].
  split; [eexists; vm_compute; reflexivity|].
  vm_compute; reflexivity.
Qed.

(** ** The per-trial boundary *)

Lemma process_single_trial_raise (df : DataFrame) (trial_idx : nat)
    (e : exn) :
  read_trial df trial_idx = Raise e ->
  kept_events df trial_idx = []
  /\ trial_warnings df trial_idx = [EventViews.warning_for trial_idx e].
Proof.
  intros H. unfold kept_events, trial_warnings, process_single_trial.
  rewrite H. destruct e; split; reflexivity.
Qed.

(** C10: a trial whose processing raises, whatever the exception, is
    skipped with one warning and the loop goes on with the following
    trials.  An [IndexError] or [KeyError] (a missing column, an access out
    of range) is caught by the handler of [process_single_trial], any other
    exception by the handler of the loop; in both cases the loop over
    [before ++ trial_idx :: after] continues from the state reached after
    [before] with only that warning added, its events are those of the
    loop without the trial, and the decoder's result is determined by the
    events of the trials that return. *)
Theorem C10_failing_trial_is_skipped :
  forall (df : DataFrame) (before after : list nat) (trial_idx : nat)
         (e : exn),
    read_trial df trial_idx = Raise e ->
    forall events_list ws,
      trial_loop df (before ++ trial_idx :: after) events_list ws
      = (let '(evs1, ws1) := trial_loop df before events_list ws in
         trial_loop df after evs1
           (ws1 ++ [EventViews.warning_for trial_idx e]))
      /\ fst (trial_loop df (before ++ trial_idx :: after) events_list ws)
         = fst (trial_loop df (before ++ after) events_list ws)
      /\ In (EventViews.warning_for trial_idx e)
            (snd (trial_loop df (before ++ trial_idx :: after) events_list ws))
      /\ (forall df',
            (data df = [] <-> data df' = []) ->
            flat_map (kept_events df) (trial_window df)
            = flat_map (kept_events df') (trial_window df') ->
            snd (events_of_table df) = snd (events_of_table df')).
Proof.
  intros df before after trial_idx e H events_list ws.
  destruct (process_single_trial_raise df trial_idx e H) as [Hk Hw].
  repeat split.
  - rewrite (trial_loop_unfold df before).
    rewrite !trial_loop_unfold.
    rewrite !flat_map_app. simpl. rewrite Hk, Hw. simpl.
    now rewrite <- !app_assoc.
  - rewrite !trial_loop_unfold, !flat_map_app. simpl. now rewrite Hk.
  - rewrite trial_loop_unfold, !flat_map_app. cbn [snd flat_map]. rewrite Hw.
    rewrite !in_app_iff. right. right. left. now left.
  - intros df' Hd Hf. rewrite !events_of_table_kept, Hf.
    destruct (data df) eqn:E, (data df') eqn:E'; try reflexivity.
    + destruct Hd as [Hd _]. specialize (Hd eq_refl). discriminate.
    + destruct Hd as [_ Hd]. specialize (Hd eq_refl). discriminate.
Qed.

Lemma C10_witness :
  exists df,
    read_timing_data Sample.to_numeric (lines EventViews.narrow_log) = Ok df
    /\ trial_window df = [20%nat; 21%nat]
    /\ read_trial df 20 = Raise IndexError
    /\ trial_loop df ([] ++ 20%nat :: [21%nat]) [] []
       = ([], [MissingDataForTrial 20 IndexError;
               MissingDataForTrial 21 IndexError]).
Proof.
  eexists. split; [vm_compute; reflexivity|].
  split; [vm_compute; reflexivity|].
  match goal with
  | |- read_trial ?d _ = _ /\ _ =>
      assert (H : read_trial d 20 = Raise IndexError)
        by (vm_compute; reflexivity);
      destruct (C10_failing_trial_is_skipped d [] [21%nat] 20%nat IndexError
                  H [] []) as [H1 _]
  end.
  split; [exact H|]. rewrite H1. vm_compute. reflexivity.
Defined.

(** ** Cue types *)

Lemma lower_ascii_idem (c : ascii) : lower_ascii (lower_ascii c) = lower_ascii c.
Proof.
  unfold lower_ascii.
  destruct ((65 <=? nat_of_ascii c)%nat && (nat_of_ascii c <=? 90)%nat) eqn:E.
  - apply andb_true_iff in E. destruct E as [E1 E2].
    apply Nat.leb_le in E1, E2.
    rewrite nat_ascii_embedding by lia.
    replace ((65 <=? nat_of_ascii c + 32)%nat
             && (nat_of_ascii c + 32 <=? 90)%nat) with false; [reflexivity|].
    symmetry. apply andb_false_iff. right. apply Nat.leb_gt. lia.
  - now rewrite E.
Qed.

Lemma lower_idem (s : string) : lower (lower s) = lower s.
Proof.
  induction s as [|c s IH]; simpl; [reflexivity|].
  now rewrite lower_ascii_idem, IH.
Qed.

(** C2 (amended): for a trial whose five fields are read, the cue type is
    matched without regard to case (only its lower-cased text matters)
    against the keyword "smile" for the reward class, tested first, and
    "neutral" for the neutral class: a cue type holding "smile" yields the
    two reward events, one holding "neutral" and not "smile" yields the
    two neutral events, and one holding neither yields no event, no
    warning and no exception. *)
Theorem C2_cue_classification :
  forall (df : DataFrame) (trial_idx : nat) (t : trial_fields),
    read_trial df trial_idx = Ok t ->
    let cue := f_cue_type t in
    let acc := f_accuracy t in
    let anticipation ty :=
      mk_event (f_cue_onset t) (fsub (f_cue_offset t) (f_cue_onset t)) ty acc in
    let feedback ty := mk_event (f_feedback_onset t) (Fin 2) ty acc in
    (cue_matches "smile" cue = true ->
       process_single_trial df trial_idx
       = ([], Ok [anticipation "anticip-reward";
                  feedback (if is_one acc then "fb-reward"
                            else "fb-miss-reward")]))
    /\ (cue_matches "smile" cue = false -> cue_matches "neutral" cue = true ->
        process_single_trial df trial_idx
        = ([], Ok [anticipation "anticip-neutral";
                   feedback (if is_one acc then "fb-corr-neutral"
                             else "fb-incorr-neutral")]))
    /\ (cue_matches "smile" cue = false -> cue_matches "neutral" cue = false ->
        process_single_trial df trial_idx = ([], Ok []))
    /\ (forall kw s, cue_matches kw (Str s) = cue_matches kw (Str (lower s))).
Proof.
  intros df trial_idx t H cue acc anticipation feedback.
  unfold process_single_trial. rewrite H. unfold trial_events.
  fold cue acc. repeat split.
  - now intros ->.
  - now intros -> ->.
  - now intros -> ->.
  - intros kw s. simpl. now rewrite lower_idem.
Qed.

Lemma C2_witness :
  process_single_trial Sample.text_onset_table 1
  = ([], Ok [mk_event (Fin (10000 / 1000)) (Fin (12000 / 1000 - 10000 / 1000))
               "anticip-reward" (Num (Fin 1));
             mk_event (Fin (14000 / 1000)) (Fin 2) "fb-reward" (Num (Fin 1))]).
Proof.
  apply (proj1 (C2_cue_classification Sample.text_onset_table 1 _ eq_refl)).
  reflexivity.
Defined.

(** C2 counterexample: a cue type that holds the word "reward" (here
    "Reward", in the window at row 20, with numeric timestamps) yields
    no event. *)
Lemma C2_reward_keyword_yields_nothing :
  exists df,
    read_timing_data Sample.to_numeric
      (lines (Sample.log [Sample.trial "Reward" "1" "10000" "12000" "14000"]))
    = Ok df
    /\ In 20%nat (trial_window df)
    /\ iloc df 20 2 = Ok (Str "Reward")
    /\ contains "reward" (lower "Reward") = true
    /\ process_single_trial df 20 = ([], Ok []).
Proof.
  eexists. split; [vm_compute; reflexivity|].
  split; [vm_compute; now left|].
  split; [|split]; vm_compute; reflexivity.
Qed.

Lemma C6_witness :
  snd (extract_midt_events Sample.to_numeric
         {| subject_in_name := Some "ld017s2";
            lines := [Sample.header] |} None)
  = Raise (ValueError "Timing file is empty").
Proof.
  apply (proj1 (proj2 (proj2
           (C6_decoder_errors Sample.to_numeric
              {| subject_in_name := Some "ld017s2";
                 lines := [Sample.header] |} None)))).
  split; [discriminate|]. split; vm_compute; reflexivity.
Defined.

(** ** What a decoded table holds *)

Lemma In_trial_events (t : trial_fields) (e : event) :
  In e (trial_events t) ->
  In (trial_type e) expected_types
  /\ (duration e = Fin 2
      \/ trial_type e = "anticip-reward" \/ trial_type e = "anticip-neutral").
Proof.
  unfold trial_events, expected_types.
  destruct (cue_matches "smile" (f_cue_type t));
    [|destruct (cue_matches "neutral" (f_cue_type t))];
    destruct (is_one (f_accuracy t)); simpl;
    intros H; decompose [or] H; subst; simpl; try contradiction; tauto.
Qed.

Lemma In_kept_events (df : DataFrame) (i : nat) (e : event) :
  In e (kept_events df i) ->
  exists t, read_trial df i = Ok t /\ In e (trial_events t).
Proof.
  unfold kept_events, process_single_trial.
  destruct (read_trial df i) as [t|ex].
  - simpl. eauto.
  - destruct ex; simpl; intros [].
Qed.

(** Every event of a decoded table has a corrected onset that is a number
    and not negative and one of the six expected trial types, and every
    feedback event lasts exactly 2 seconds. *)
Theorem decoded_events_onset_and_type :
  forall (to_numeric : string -> pyfloat) (f : timing_file)
         (subject_id : option string) (ws : list warning)
         (events_df : list event),
    extract_midt_events to_numeric f subject_id = (ws, Ok events_df) ->
    forall e, In e events_df ->
      (exists q, onset e = Fin q /\ 0 <= q)
      /\ In (trial_type e) expected_types
      /\ (duration e = Fin 2
          \/ trial_type e = "anticip-reward"
          \/ trial_type e = "anticip-neutral").
Proof.
  intros to_numeric f subject_id ws events_df H e He.
  assert (Hs : exists df, snd (events_of_table df) = Ok events_df).
  { unfold extract_midt_events in H.
    destruct (match subject_id with
              | Some s => Some s
              | None => subject_in_name f
              end); [|discriminate].
    destruct (read_timing_data to_numeric (lines f)) as [df|ex];
      [|discriminate].
    exists df. now rewrite H. }
  destruct Hs as [df Hs].
  destruct (events_of_table_cases df)
    as [[_ E]|[[_ [_ E]]|[_ [_ E]]]]; rewrite E in Hs; try discriminate.
  inversion Hs; subst events_df; clear Hs E.
  unfold finish_events in He. apply filter_In in He. destruct He as [He Hpos].
  apply in_map_iff in He. destruct He as [e0 [<- He0]].
  apply In_sort_values, in_flat_map in He0. destruct He0 as [i [_ He0]].
  apply In_kept_events in He0. destruct He0 as [t [_ He0]].
  apply In_trial_events in He0. split; [|exact He0].
  destruct (onset (shift_onset dummy_scan_time e0)) as [|q]; [discriminate|].
  exists q. split; [reflexivity|]. now apply Qle_bool_iff.
Qed.

Lemma decoded_events_witness :
  In (trial_type
        (mk_event (Fin (15000 / 1000 - dummy_scan_time)) (Fin 2) "fb-reward"
           (Num (Fin (inject_Z 1)))))
     expected_types.
Proof.
  set (e := mk_event (Fin (15000 / 1000 - dummy_scan_time)) (Fin 2)
              "fb-reward" (Num (Fin (inject_Z 1)))).
  refine (proj1 (proj2 (decoded_events_onset_and_type Sample.to_numeric
            (Sample.log [Sample.trial "smile" "1" "7000" "9000" "15000"])
            None [] [e] _ e (or_introl eq_refl)))).
  vm_compute; reflexivity.
Defined.

(** C1: the decoder emits durations that are not >= 0.  On a log whose
    row 20 has its target onset (9000 ms) before its cue onset (10000 ms)
    the table is returned and its anticipation event lasts -1 second; on
    a log whose row 20 stops after the cue onset (the reader pads the
    missing cells) the anticipation event is returned with duration NaN. *)
Theorem C1_negative_duration_emitted :
  (exists e rest d,
      Sample.decode [Sample.trial "smile" "1" "10000" "9000" "14000"]
      = Ok (e :: rest)
      /\ trial_type e = "anticip-reward"
      /\ duration e = Fin d
      /\ d == -1)
  /\ (exists e,
        Sample.decode
          [Sample.join_tab ["1"; "1"; "smile"; "1"; "250"; "0"; "2000";
                            "300"; "2000"; "10000"]]
        = Ok [e]
        /\ trial_type e = "anticip-reward"
        /\ duration e = NaN).
Proof.
  split.
  - do 3 eexists. split; [vm_compute; reflexivity|]. repeat split.
  - eexists. split; [vm_compute; reflexivity|]. repeat split.
Qed.

End EventDecoder.

Section DecoderAndConfiguration.
Import Events Config.

(** C3: the decoder does not read the configuration.  Under a
    configuration with 3 dummy scans and a TR of 2 s (a shift of 6 s) the
    onsets are still shifted by 8 s: of a trial with its cue at 7 s and
    its feedback at 15 s only the feedback event is returned, at 7 s, and
    the tables are the same under any two configurations. *)
Theorem C3_shift_ignores_configuration :
  let config :=
    {| subject_ids := ["sub-017"]; sessions_to_process := ["1"];
       excluded_subjects := []; tr := 2; dummy_scans := 3;
       run_timing_extraction := true; run_motion_extraction := true;
       run_first_level := true;
       motion_params := ["trans_x"; "trans_y"; "trans_z";
                         "rot_x"; "rot_y"; "rot_z"] |} in
  let files :=
    [Sample.log [Sample.trial "smile" "1" "7000" "9000" "15000"]] in
  (exists e q,
      Pipeline.timing_tables Sample.to_numeric files config "1" = [Ok [e]]
      /\ trial_type e = "fb-reward"
      /\ onset e = Fin q
      /\ q == 15 - 8
      /\ ~ q == 15 - inject_Z (Z.of_nat (dummy_scans config)) * tr config)
  /\ (forall to_numeric timing_files config1 config2 session,
        Pipeline.timing_tables to_numeric timing_files config1 session
        = Pipeline.timing_tables to_numeric timing_files config2 session).
Proof.
  split; [|reflexivity].
  do 2 eexists. split; [vm_compute; reflexivity|].
  repeat split. vm_compute. discriminate.
Qed.

End DecoderAndConfiguration.

(* ================================================================== *)
(** * Properties of the motion QC record *)
(* ================================================================== *)

Section MotionQC.
Import Motion.

Lemma indices_from_nil (kw : string) (motion_params : list string) :
  forall i,
    indices_from i kw motion_params = [] <->
    (forall param, In param motion_params -> contains kw param = false).
Proof.
  induction motion_params as [|p ps IH]; intros i; simpl.
  - split; [intros _ param []|reflexivity].
  - destruct (contains kw p) eqn:E.
    + split; [discriminate|]. intros H.
      rewrite (H p (or_introl eq_refl)) in E. discriminate.
    + rewrite IH. split.
      * intros H param [<-|Hp]; [assumption|now apply H].
      * intros H param Hp. apply H. now right.
Qed.

Lemma np_max_ok (xs : list pyfloat) :
  xs <> [] -> exists m, np_max xs = Ok m.
Proof. destruct xs; [congruence|]. simpl. eauto. Qed.

(** The sentinel branches of [calculate_motion_qc]. *)
Lemma qc_sentinels (np_sqrt np_degrees : Q -> Q) (motion_data : matrix)
    (motion_params : list string) (qc : qc_metrics) :
  calculate_motion_qc np_sqrt np_degrees motion_data motion_params = Ok qc ->
  ((forall param, In param motion_params -> contains "rot" param = false) ->
   max_rotation_deg qc = NaN /\ mean_rotation_deg qc = NaN)
  /\ ((forall param, In param motion_params -> contains "trans" param = false) ->
      max_motion_mm qc = NaN /\ mean_motion_mm qc = NaN
      /\ std_motion_mm qc = NaN /\ max_abs_displacement qc = NaN
      /\ mean_abs_displacement qc = NaN).
Proof.
  intros H. unfold calculate_motion_qc, indices_of in H. split.
  - intros Hrot. apply (indices_from_nil "rot" motion_params 0%nat) in Hrot.
    rewrite Hrot in H.
    destruct (indices_from 0 "trans" motion_params); simpl in H.
    + inversion H. simpl. auto.
    + destruct (np_max _) as [mx|]; [|discriminate]. simpl in H.
      destruct (np_max _) as [mxabs|]; [|discriminate]. simpl in H.
      inversion H. simpl. auto.
  - intros Htrans.
    apply (indices_from_nil "trans" motion_params 0%nat) in Htrans.
    rewrite Htrans in H. simpl in H.
    destruct (indices_from 0 "rot" motion_params); simpl in H.
    + inversion H. simpl. auto.
    + destruct (np_max _) as [mx|]; [|discriminate]. simpl in H.
      inversion H. simpl. auto.
Qed.

(** C7: in every QC record the engine returns, when no available
    parameter is a rotation axis (no name holds "rot") the maximum and
    mean rotation are NaN, and when none is a translation axis (no name
    holds "trans") the five translation fields are NaN; NaN is not the
    number zero.  A record is returned for every trace with at least one
    volume, and the record [extract_subject_motion] stores is computed
    from the parameters found in the confound table. *)
Theorem C7_missing_axes_give_sentinel :
  forall (np_sqrt np_degrees : Q -> Q) (motion_data : matrix)
         (motion_params : list string),
    (forall qc,
        calculate_motion_qc np_sqrt np_degrees motion_data motion_params
        = Ok qc ->
        ((forall param, In param motion_params -> contains "rot" param = false) ->
         max_rotation_deg qc = NaN /\ mean_rotation_deg qc = NaN)
        /\ ((forall param, In param motion_params ->
               contains "trans" param = false) ->
            max_motion_mm qc = NaN /\ mean_motion_mm qc = NaN
            /\ std_motion_mm qc = NaN /\ max_abs_displacement qc = NaN
            /\ mean_abs_displacement qc = NaN))
    /\ (motion_data <> [] ->
        exists qc,
          calculate_motion_qc np_sqrt np_degrees motion_data motion_params
          = Ok qc)
    /\ (forall df dummy_scans trace qc available_params,
          extract_subject_motion np_sqrt np_degrees df dummy_scans
            motion_params
          = Ok (trace, qc, available_params) ->
          (forall param, In param available_params ->
             contains "rot" param = false) ->
          max_rotation_deg qc = NaN /\ mean_rotation_deg qc = NaN)
    /\ NaN <> Fin 0.
Proof.
  intros np_sqrt np_degrees motion_data motion_params.
  split; [|split; [|split; [|discriminate]]].
  - intros qc. apply qc_sentinels.
  - intros Hd. unfold calculate_motion_qc, indices_of.
    destruct motion_data as [|row rows]; [congruence|].
    destruct (indices_from 0 "trans" motion_params) as [|i rest_t];
      destruct (indices_from 0 "rot" motion_params) as [|j rest_r];
      simpl; eauto.
  - intros df dummy_scans trace qc available_params H Hrot.
    unfold extract_subject_motion in H.
    destruct (collect_params df dummy_scans motion_params) as [md ap].
    destruct md as [|c cs]; [discriminate|].
    destruct (calculate_motion_qc np_sqrt np_degrees (column_stack (c :: cs)) ap)
      as [qc0|] eqn:E; [|discriminate].
    simpl in H. inversion H; subst.
    now apply (qc_sentinels np_sqrt np_degrees _ _ _ E).
Qed.

Lemma collect_params_available (df : confounds) (dummy_scans : nat)
    (motion_params : list string) :
  collect_params df dummy_scans motion_params
  = (map (fun p => skipn dummy_scans
                     (match column p df with Some vals => vals | None => [] end))
         (filter (has_column df) motion_params),
     filter (has_column df) motion_params).
Proof.
  induction motion_params as [|p ps IH]; simpl; [reflexivity|].
  rewrite IH. destruct (column p df) as [vals|] eqn:E.
  - assert (Hp : has_column df p = true) by (unfold has_column; now rewrite E).
    rewrite Hp. simpl. now rewrite E.
  - assert (Hp : has_column df p = false) by (unfold has_column; now rewrite E).
    now rewrite Hp.
Qed.

Lemma calculate_motion_qc_raises (np_sqrt np_degrees : Q -> Q)
    (motion_data : matrix) (motion_params : list string) (e : exn) :
  calculate_motion_qc np_sqrt np_degrees motion_data motion_params = Raise e ->
  e = ValueError "zero-size array to reduction operation maximum".
Proof.
  assert (Hmax : forall xs ex, np_max xs = Raise ex ->
            ex = ValueError "zero-size array to reduction operation maximum").
  { intros [|x xs] ex H; simpl in H; [now inversion H|discriminate]. }
  unfold calculate_motion_qc. intros H.
  destruct (indices_of "trans" motion_params);
    destruct (indices_of "rot" motion_params); simpl in H; try discriminate;
    repeat match type of H with
      | context [np_max ?xs] =>
          let E := fresh "E" in
          destruct (np_max xs) eqn:E; simpl in H;
          [|inversion H; subst; now apply Hmax in E]
      end; discriminate.
Qed.

(** The trace of [extract_subject_motion] has one column per configured
    parameter found in the confound table, in the configured order, and one
    row per volume after the first [dummy_scans]; the extraction raises the
    no-motion-parameters error exactly when no configured parameter is a
    column of the table. *)
Theorem motion_trace_shape :
  forall (np_sqrt np_degrees : Q -> Q) (df : confounds) (dummy_scans : nat)
         (motion_params : list string),
    let available := filter (has_column df) motion_params in
    let r :=
      extract_subject_motion np_sqrt np_degrees df dummy_scans motion_params in
    (r = Raise (ValueError "No motion parameters found in confounds file")
     <-> available = [])
    /\ (forall trace qc available_params,
          r = Ok (trace, qc, available_params) ->
          available_params = available
          /\ Forall (fun row => List.length row = List.length available) trace
          /\ (forall p vals,
                hd_error available = Some p -> column p df = Some vals ->
                List.length trace = (List.length vals - dummy_scans)%nat)).
Proof.
  intros np_sqrt np_degrees df dummy_scans motion_params available r.
  unfold r, extract_subject_motion. rewrite collect_params_available.
  fold available. destruct available as [|p ps] eqn:Ea; simpl.
  - split; [tauto|]. intros trace qc ap H. discriminate.
  - split.
    + split; [|discriminate]. intros H.
      destruct (calculate_motion_qc _ _ _ _) as [qc|e] eqn:E; simpl in H;
        [discriminate|].
      apply calculate_motion_qc_raises in E. subst e. discriminate.
    + intros trace qc ap H.
      destruct (calculate_motion_qc _ _ _ _) as [qc0|e]; simpl in H;
        [|discriminate].
      inversion H; subst; clear H. split; [reflexivity|]. split.
      * apply Forall_forall. intros row Hrow.
        apply in_map_iff in Hrow. destruct Hrow as [i [<- _]].
        simpl. now rewrite !length_map.
      * intros p0 vals Hp Hc. inversion Hp; subst p0. rewrite Hc.
        now rewrite length_map, length_seq, length_skipn.
Qed.

End MotionQC.

(* ================================================================== *)
(** * Properties of the contrast resolution *)
(* ================================================================== *)

Section Contrasts.
Import FirstLevel.

(** [index] finds the first position of a name that is present. *)
Lemma index_first (x : string) (l : list string) :
  mem x l = true ->
  (index x l < List.length l)%nat
  /\ nth_error l (index x l) = Some x
  /\ forall j, (j < index x l)%nat -> nth_error l j <> Some x.
Proof.
  induction l as [|y l IH]; simpl; [discriminate|].
  destruct (String.eqb x y) eqn:E.
  - intros _. apply String.eqb_eq in E. subst. repeat split; [lia|].
    intros j Hj. lia.
  - simpl. intros H. destruct (IH H) as [H1 [H2 H3]].
    repeat split; [lia|assumption|].
    intros [|j] Hj; simpl.
    + intros Heq. inversion Heq. subst. rewrite String.eqb_refl in E.
      discriminate.
    + apply H3. lia.
Qed.

Lemma length_setitem (v : list Z) (i : nat) (x : Z) :
  List.length (setitem v i x) = List.length v.
Proof.
  revert i. induction v as [|y v IH]; intros [|i]; simpl; auto.
Qed.

Lemma nth_setitem (v : list Z) (i j : nat) (x d : Z) :
  (i < List.length v)%nat ->
  nth j (setitem v i x) d = if (j =? i)%nat then x else nth j v d.
Proof.
  revert i j. induction v as [|y v IH]; intros i j Hi; simpl in Hi; [lia|].
  destruct i as [|i], j as [|j]; simpl; try reflexivity.
  apply IH. lia.
Qed.

Lemma nth_zeros (n j : nat) : nth j (repeat 0%Z n) 0%Z = 0%Z.
Proof.
  revert j. induction n as [|n IH]; intros [|j]; simpl; auto.
Qed.

Lemma difference_resolved (plus minus : string) (cols : list string) :
  plus <> minus ->
  mem plus cols = true -> mem minus cols = true ->
  exists v,
    difference plus minus cols = Resolved (ByVector v)
    /\ List.length v = List.length cols
    /\ nth_error cols (index plus cols) = Some plus
    /\ nth_error cols (index minus cols) = Some minus
    /\ forall j, nth j v 0%Z =
                 if (j =? index plus cols)%nat then 1%Z
                 else if (j =? index minus cols)%nat then (-1)%Z
                 else 0%Z.
Proof.
  intros Hne Hp Hm. unfold difference. rewrite Hp, Hm. simpl.
  destruct (index_first plus cols Hp) as [Hp1 [Hp2 _]].
  destruct (index_first minus cols Hm) as [Hm1 [Hm2 _]].
  eexists. split; [reflexivity|].
  split; [now rewrite !length_setitem, repeat_length|].
  split; [assumption|]. split; [assumption|].
  intros j.
  rewrite nth_setitem by now rewrite length_setitem, repeat_length.
  rewrite nth_setitem by now rewrite repeat_length.
  rewrite nth_zeros.
  destruct (j =? index minus cols)%nat eqn:Em;
    destruct (j =? index plus cols)%nat eqn:Ep; try reflexivity.
  apply Nat.eqb_eq in Em, Ep. exfalso. apply Hne. congruence.
Qed.

Lemma difference_skipped (plus minus : string) (cols : list string) :
  mem plus cols = false \/ mem minus cols = false ->
  difference plus minus cols = Skipped MissingConditions.
Proof.
  unfold difference. intros [->| ->]; [reflexivity|].
  now rewrite andb_false_r.
Qed.

(** C4 (amended): each of the four differences the resolver implements
    is a paired entry of the catalogue; against any realized condition
    columns it is resolved to a vector as long as the columns, with +1 at
    the position where its first condition is found by name, -1 where
    its second is found, and 0 elsewhere, when both conditions are
    present, and it is skipped for missing conditions when either is
    absent.  The other paired entries of the catalogue are the four
    reversed differences, which are skipped whatever the columns. *)
Theorem C4_paired_contrast_resolution :
  forall (contrast_name plus minus : string) (cols : list string),
    In (contrast_name, (plus, minus)) implemented_differences ->
    (exists weights,
        In (contrast_name, weights) define_midt_contrasts
        /\ paired weights plus minus)
    /\ (mem plus cols = true -> mem minus cols = true ->
        exists v,
          resolve_contrast contrast_name cols = Resolved (ByVector v)
          /\ List.length v = List.length cols
          /\ nth_error cols (index plus cols) = Some plus
          /\ nth_error cols (index minus cols) = Some minus
          /\ forall j, nth j v 0%Z =
                       if (j =? index plus cols)%nat then 1%Z
                       else if (j =? index minus cols)%nat then (-1)%Z
                       else 0%Z)
    /\ (mem plus cols = false \/ mem minus cols = false ->
        resolve_contrast contrast_name cols = Skipped MissingConditions)
    /\ (forall name, In name reversed_differences ->
          forall cols', resolve_contrast name cols' = Skipped ComplexContrast)
    /\ (forall name weights p m,
          In (name, weights) define_midt_contrasts -> paired weights p m ->
          In (name, (p, m)) implemented_differences
          \/ In name reversed_differences).
Proof.
  intros contrast_name plus minus cols H.
  split; [|split; [|split; [|split]]].
  - simpl in H. decompose [or] H; try contradiction;
      match goal with E : (_, _) = _ |- _ => inversion E; subst end;
      first [ exists [1; -1; 0; 0; 0; 0]%Z; split; [in_list|split; reflexivity]
            | exists [0; 0; 1; 0; -1; 0]%Z; split; [in_list|split; reflexivity]
            | exists [0; 0; 1; -1; 0; 0]%Z; split; [in_list|split; reflexivity]
            | exists [0; 0; 0; 0; 1; -1]%Z; split; [in_list|split; reflexivity] ].
  - intros Hp Hm. simpl in H. decompose [or] H; try contradiction;
      match goal with E : (_, _) = _ |- _ => inversion E; subst end;
      apply difference_resolved; try assumption; discriminate.
  - intros Hab. simpl in H. decompose [or] H; try contradiction;
      match goal with E : (_, _) = _ |- _ => inversion E; subst end;
      now apply difference_skipped.
  - intros name Hn cols'. simpl in Hn.
    decompose [or] Hn; try contradiction; subst; reflexivity.
  - intros name weights p m Hin [Hp Hm]. simpl in Hin.
    decompose [or] Hin; try contradiction;
      match goal with E : (_, _) = _ |- _ => inversion E; subst end;
      vm_compute in Hp, Hm; try discriminate;
      inversion Hp; inversion Hm; subst;
      first [left; in_list | right; in_list].
Qed.

Lemma C4_witness :
  exists v,
    resolve_contrast "feedback-reward-success-vs-failure"
      ["fb-miss-reward"; "anticip-reward"; "fb-reward"]
    = Resolved (ByVector v)
    /\ List.length v = 3%nat.
Proof.
  destruct (proj1 (proj2 (C4_paired_contrast_resolution
              "feedback-reward-success-vs-failure" "fb-reward"
              "fb-miss-reward"
              ["fb-miss-reward"; "anticip-reward"; "fb-reward"]
              (or_intror (or_intror (or_introl eq_refl)))))
              eq_refl eq_refl) as [v [Hv [Hl _]]].
  exists v. split; assumption.
Defined.

(** C4 counterexample: "anticip-neutral-vs-reward" is a paired entry of the
    catalogue, both of its conditions are columns of the design, and it
    is skipped instead of being resolved to a vector. *)
Lemma C4_reversed_difference_skipped :
  In ("anticip-neutral-vs-reward", [-1; 1; 0; 0; 0; 0]%Z) define_midt_contrasts
  /\ paired [-1; 1; 0; 0; 0; 0]%Z "anticip-neutral" "anticip-reward"
  /\ mem "anticip-neutral" ["anticip-reward"; "anticip-neutral"] = true
  /\ mem "anticip-reward" ["anticip-reward"; "anticip-neutral"] = true
  /\ resolve_contrast "anticip-neutral-vs-reward"
       ["anticip-reward"; "anticip-neutral"]
     = Skipped ComplexContrast.
Proof.
  split; [in_list|]. repeat split.
Qed.

End Contrasts.

(* ================================================================== *)
(** * Properties of the exclusion list and of the orchestrator *)
(* ================================================================== *)

Section Exclusions.
Import Config.

Lemma In_remove_first (x y : string) (l : list string) :
  In y (remove_first x l) -> In y l.
Proof.
  induction l as [|z l IH]; simpl; [tauto|].
  destruct (String.eqb x z); simpl; tauto.
Qed.

Lemma NoDup_remove_first (x : string) (l : list string) :
  NoDup l -> NoDup (remove_first x l) /\ ~ In x (remove_first x l).
Proof.
  induction 1 as [|z l Hz Hl IH]; simpl.
  - split; [constructor|tauto].
  - destruct (String.eqb x z) eqn:E.
    + apply String.eqb_eq in E. subst. tauto.
    + apply String.eqb_neq in E. destruct IH as [IH1 IH2]. split.
      * constructor; [|assumption]. intros H. apply Hz.
        now apply In_remove_first in H.
      * simpl. intros [H|H]; [congruence|tauto].
Qed.

Lemma exclude_sub (subject_id : field) (valid y : list string) (z : string) :
  In z (exclude subject_id valid) -> In z valid.
Proof.
  destruct subject_id as [s|l]; simpl; [|tauto].
  destruct (mem s valid); [apply In_remove_first|tauto].
Qed.

Lemma apply_exclusions_sub (exclusions : list (list field)) (session : string) :
  forall valid z,
    In z (apply_exclusions exclusions session valid) -> In z valid.
Proof.
  induction exclusions as [|ex rest IH]; intros valid z; simpl; [tauto|].
  destruct ex as [|subject_id [|reason [|affected more]]]; try apply IH.
  destruct (session_affected affected session); [|apply IH].
  intros H. apply IH in H. now apply (exclude_sub subject_id valid valid).
Qed.

Lemma apply_exclusions_NoDup (exclusions : list (list field)) (session : string) :
  forall valid, NoDup valid -> NoDup (apply_exclusions exclusions session valid).
Proof.
  induction exclusions as [|ex rest IH]; intros valid H; simpl; [assumption|].
  destruct ex as [|subject_id [|reason [|affected more]]]; try now apply IH.
  destruct (session_affected affected session); [|now apply IH].
  apply IH. destruct subject_id as [s|l]; simpl; [|assumption].
  destruct (mem s valid); [|assumption]. now apply NoDup_remove_first.
Qed.

Lemma apply_exclusions_app (before after : list (list field)) (session : string) :
  forall valid,
    apply_exclusions (before ++ after) session valid
    = apply_exclusions after session (apply_exclusions before session valid).
Proof.
  induction before as [|ex rest IH]; intros valid; simpl; [reflexivity|].
  destruct ex as [|subject_id [|reason [|affected more]]]; try apply IH.
  destruct (session_affected affected session); apply IH.
Qed.

(** On one configuration with distinct subject identifiers,
    [get_valid_subjects_for_session] gives the exclusion list its
    meaning: an entry for "all" sessions, or for the session asked about,
    removes its subject from the result, and an entry for another session
    does not change the result. *)
Theorem exclusion_entry_semantics :
  forall (config : MIDTConfig) (session subject : string) (reason : field)
         (more : list field),
    NoDup (subject_ids config) ->
    (In (FStr subject :: reason :: FStr "all" :: more)
        (excluded_subjects config) ->
     ~ In subject (get_valid_subjects_for_session config session))
    /\ (In (FStr subject :: reason :: FStr (ses session) :: more)
           (excluded_subjects config) ->
        ~ In subject (get_valid_subjects_for_session config session))
    /\ (forall other before after,
          other <> session ->
          excluded_subjects config
          = before ++ (FStr subject :: reason :: FStr (ses other) :: more)
              :: after ->
          get_valid_subjects_for_session config session
          = apply_exclusions (before ++ after) session (subject_ids config)).
Proof.
  intros config session subject reason more Hnd.
  assert (Hremoved :
    forall affected,
      session_affected affected session = true ->
      In (FStr subject :: reason :: affected :: more)
         (excluded_subjects config) ->
      ~ In subject (get_valid_subjects_for_session config session)).
  { intros affected Ha Hin. unfold get_valid_subjects_for_session.
    apply in_split in Hin. destruct Hin as [before [after ->]].
    rewrite apply_exclusions_app. simpl. rewrite Ha.
    intros H. apply apply_exclusions_sub in H.
    assert (Hb := apply_exclusions_NoDup before session _ Hnd).
    simpl in H.
    destruct (mem subject (apply_exclusions before session (subject_ids config)))
      eqn:E.
    - now apply (NoDup_remove_first subject _ Hb).
    - apply mem_In in H. congruence. }
  split; [|split].
  - apply Hremoved. reflexivity.
  - apply Hremoved. unfold session_affected.
    rewrite (String.eqb_refl (ses session)). apply orb_true_r.
  - intros other before after Hne Hex.
    unfold get_valid_subjects_for_session. rewrite Hex.
    rewrite !apply_exclusions_app. simpl.
    destruct (String.eqb_spec other session); [contradiction|reflexivity].
Qed.

Lemma exclusion_entry_witness :
  ~ In "sub-021"
      (get_valid_subjects_for_session Sample.excluding_everywhere "2").
Proof.
  refine (proj1 (exclusion_entry_semantics Sample.excluding_everywhere
                   "2" "sub-021" (FStr "Motion artifacts") [] _)
                (or_introl eq_refl)).
  simpl. repeat constructor; simpl; intuition discriminate.
Defined.

End Exclusions.

Section Orchestrator.
Import Config Pipeline.

Variable to_numeric : string -> pyfloat.
Variable timing_files : list Events.timing_file.
Variable extract_motion_regressors : MIDTConfig -> result motion_summary.
Variable run_first_level_midt : MIDTConfig -> string -> string -> result bool.
Variable joblib : list string -> joblib_outcome.

Lemma count_results_map (f : string -> bool) (subjects : list string) :
  forall s,
    count_results subjects (map f subjects) s
    = {| session := session s; total_subjects := total_subjects s;
         successful_subjects :=
           successful_subjects s + List.length (filter f subjects);
         failed_subjects :=
           failed_subjects s ++ filter (fun id => negb (f id)) subjects |}.
Proof.
  induction subjects as [|id subjects IH]; intros [se t n fl]; simpl.
  - now rewrite Nat.add_0_r, app_nil_r.
  - rewrite IH. destruct (f id); simpl.
    + f_equal. lia.
    + f_equal. now rewrite <- app_assoc.
Qed.

Lemma safe_parallel_results (f : string -> bool) (items : list string)
    (n_jobs : nat) :
  map truthy
    (safe_parallel_processing (fun id => Ok (f id)) joblib items n_jobs)
  = map f items.
Proof.
  assert (Hseq : map truthy (sequential_results (fun id => Ok (f id)) items)
                 = map f items).
  { unfold sequential_results. rewrite map_map. reflexivity. }
  assert (Hpool : pool_results (fun id => Ok (f id)) items
                  = Ok (map (fun id => Some (f id)) items)).
  { induction items as [|i items IH]; simpl; [reflexivity|].
    rewrite IH; [reflexivity|].
    unfold sequential_results. now rewrite map_map. }
  unfold safe_parallel_processing.
  destruct (n_jobs =? 1)%nat; [assumption|].
  destruct (joblib items); try assumption.
  rewrite Hpool, map_map. reflexivity.
Qed.

Lemma filter_length_split (f : string -> bool) (l : list string) :
  (List.length (filter f l)
   + List.length (filter (fun id => negb (f id)) l))%nat = List.length l.
Proof.
  induction l as [|x l IH]; simpl; [reflexivity|].
  destruct (f x); simpl; lia.
Qed.

(** C5: in the per-subject analysis stage, under sequential and under
    parallel fan-out and whatever the worker pool does, a subject is
    counted as succeeded exactly when its own analysis returns true, and
    is listed as failed exactly when its own analysis returns false or
    raises; so succeeded + |failed| = total, and the session always
    returns its summary: with a complete ledger when the stage ran, or
    with the empty ledger when the session was abandoned or the stage
    is switched off. *)
Theorem C5_per_subject_ledger :
  forall (config : MIDTConfig) (sess : string) (session_subjects : list string)
         (n_jobs : nat),
    let outcome id :=
      process_single_subject run_first_level_midt config id sess in
    let s :=
      first_level_stage run_first_level_midt joblib config sess
        session_subjects n_jobs
        {| session := sess;
           total_subjects := List.length session_subjects;
           successful_subjects := 0; failed_subjects := [] |} in
    total_subjects s = List.length session_subjects
    /\ successful_subjects s = List.length (filter outcome session_subjects)
    /\ failed_subjects s
       = filter (fun id => negb (outcome id)) session_subjects
    /\ (successful_subjects s + List.length (failed_subjects s))%nat
       = total_subjects s
    /\ (forall id e,
          run_first_level_midt config id sess = Raise e -> outcome id = false)
    /\ (let s' :=
          fst (process_single_session to_numeric timing_files
                 extract_motion_regressors run_first_level_midt joblib
                 config sess session_subjects n_jobs) in
        total_subjects s' = List.length session_subjects
        /\ ((successful_subjects s' + List.length (failed_subjects s'))%nat
            = total_subjects s'
            \/ (successful_subjects s' = 0%nat /\ failed_subjects s' = []))).
Proof.
  intros config sess session_subjects n_jobs outcome s.
  assert (Hstage :
    forall c,
      first_level_stage run_first_level_midt joblib c sess session_subjects
        n_jobs
        {| session := sess;
           total_subjects := List.length session_subjects;
           successful_subjects := 0; failed_subjects := [] |}
      = {| session := sess;
           total_subjects := List.length session_subjects;
           successful_subjects :=
             List.length
               (filter (fun id => process_single_subject run_first_level_midt
                                    c id sess) session_subjects);
           failed_subjects :=
             filter (fun id => negb (process_single_subject
                                       run_first_level_midt c id sess))
                    session_subjects |}).
  { intros c. unfold first_level_stage.
    destruct (1 <? n_jobs)%nat.
    - rewrite safe_parallel_results, count_results_map. reflexivity.
    - rewrite count_results_map. reflexivity. }
  split; [|split; [|split; [|split; [|split]]]].
  - unfold s. now rewrite Hstage.
  - unfold s. now rewrite Hstage.
  - unfold s. now rewrite Hstage.
  - unfold s. rewrite Hstage. simpl. apply filter_length_split.
  - intros id e H. unfold outcome, process_single_subject. now rewrite H.
  - unfold process_single_session.
    destruct (run_timing_extraction config
              && negb (extract_timing_for_session to_numeric timing_files
                         config sess)); [simpl; auto|].
    destruct (if run_motion_extraction config
              then extract_motion_regressors_for_session
                     extract_motion_regressors config sess session_subjects
              else (true, config)) as [motion_ok config'].
    destruct motion_ok; simpl; [|auto].
    destruct (run_first_level config'); simpl; [|auto].
    rewrite Hstage. simpl. split; [reflexivity|]. left.
    apply filter_length_split.
Qed.

(** C8: an exclusion for one session leaks into the next.  With subjects
    sub-001 and sub-002, sessions 1 and 2 and the single exclusion of
    sub-001 for ses-1, [get_valid_subjects_for_session] on the
    configuration as loaded keeps sub-001 in session 2; but in a run,
    whatever motion extraction and the analyses do, the motion stage of
    session 1 stores that session's subject list in the shared
    configuration, and session 2 is processed without sub-001. *)
Theorem C8_session_exclusion_leaks :
  forall (n_jobs : nat),
    let config :=
      {| subject_ids := ["sub-001"; "sub-002"];
         sessions_to_process := ["1"; "2"];
         excluded_subjects :=
           [[FStr "sub-001"; FStr "Timing file issues"; FStr "ses-1"]];
         tr := 16 # 10; dummy_scans := 5;
         run_timing_extraction := true; run_motion_extraction := true;
         run_first_level := true;
         motion_params := ["trans_x"; "trans_y"; "trans_z";
                           "rot_x"; "rot_y"; "rot_z"] |} in
    let files :=
      [Sample.log [Sample.trial "smile" "1" "10000" "12000" "14000"]] in
    get_valid_subjects_for_session config "1" = ["sub-002"]
    /\ get_valid_subjects_for_session config "2" = ["sub-001"; "sub-002"]
    /\ snd (fst (run_complete_pipeline Sample.to_numeric files
                   extract_motion_regressors run_first_level_midt joblib
                   config n_jobs))
       = [("1", ["sub-002"]); ("2", ["sub-002"])].
Proof.
  intros n_jobs config files.
  split; [reflexivity|]. split; [reflexivity|].
  assert (Ht : forall c s,
             extract_timing_for_session Sample.to_numeric files c s = true).
  { intros c s. vm_compute. reflexivity. }
  unfold run_complete_pipeline. subst config.
  cbn [session_loop sessions_to_process].
  replace (get_valid_subjects_for_session _ "1") with ["sub-002"]
    by reflexivity.
  unfold process_single_session at 1. rewrite Ht.
  cbn [run_timing_extraction run_motion_extraction negb andb].
  unfold extract_motion_regressors_for_session at 1.
  cbn [excluded_subjects tr dummy_scans run_timing_extraction
       run_motion_extraction run_first_level motion_params].
  destruct (extract_motion_regressors _) as [ms|ex];
    [destruct (0 <? m_successful_subjects ms)%nat|];
    cbn [negb run_first_level session_loop app fst snd];
    replace (get_valid_subjects_for_session _ "2") with ["sub-002"]
      by reflexivity;
    destruct (process_single_session _ _ _ _ _ _ _ _ _); reflexivity.
Qed.

End Orchestrator.

(** The ledger of a three-subject parallel session in which the analysis of
    the second subject raises: two succeeded, one failed. *)
Example three_subjects_one_raises :
  let analysis (config : Config.MIDTConfig) (subject_id session : string) :=
    if String.eqb subject_id "sub-002" then Raise FileNotFoundError
    else Ok true in
  let s :=
    Pipeline.first_level_stage analysis (fun _ => Pipeline.PoolCompletes)
      Sample.excluding_everywhere "1" ["sub-001"; "sub-002"; "sub-003"] 4
      {| Pipeline.session := "1"; Pipeline.total_subjects := 3;
         Pipeline.successful_subjects := 0; Pipeline.failed_subjects := [] |} in
  Pipeline.successful_subjects s = 2%nat
  /\ Pipeline.failed_subjects s = ["sub-002"].
Proof. split; reflexivity. Qed.

(* ================================================================== *)
(** * Further properties of the timing-log reader *)
(* ================================================================== *)

Section Reader.
Import Events EventViews.

Lemma length_reconcile (n : nat) (row_data : list string) :
  List.length (reconcile n row_data) = n.
Proof.
  unfold reconcile.
  destruct (List.length row_data <? n)%nat eqn:E1.
  - apply Nat.ltb_lt in E1. rewrite length_app, repeat_length. lia.
  - apply Nat.ltb_ge in E1.
    destruct (n <? List.length row_data)%nat eqn:E2.
    + apply Nat.ltb_lt in E2. rewrite length_firstn. lia.
    + apply Nat.ltb_ge in E2. lia.
Qed.

Lemma data_rows_shape (header rest : list string) :
  List.length (data_rows header rest) = List.length (filter has_text rest)
  /\ Forall (fun r => List.length r = List.length header)
            (data_rows header rest).
Proof.
  unfold has_text.
  induction rest as [|line rest [IH1 IH2]]; simpl; [split; constructor|].
  destruct (is_blank line); simpl; [now split|].
  split; [now rewrite IH1|]. constructor; [apply length_reconcile|assumption].
Qed.

Lemma length_coerce_row (to_numeric : string -> pyfloat) (col : string) :
  forall cols row,
    List.length (coerce_row to_numeric col cols row) = List.length row.
Proof.
  induction cols as [|c cols IH]; intros [|v row]; simpl; auto.
Qed.

Lemma convert_numeric_shape (to_numeric : string -> pyfloat)
    (cols : list string) :
  forall df df',
    convert_numeric to_numeric cols df = Ok df' ->
    columns df' = columns df
    /\ List.length (data df') = List.length (data df)
    /\ (forall n, Forall (fun r => List.length r = n) (data df) ->
                  Forall (fun r => List.length r = n) (data df')).
Proof.
  induction cols as [|col cols IH]; intros df df' H; simpl in H.
  - inversion H; subst. auto.
  - destruct (mem col (columns df)); [|now apply IH].
    unfold assign_numeric in H.
    destruct (1 <? count_occ string_dec (columns df) col)%nat;
      [discriminate|].
    simpl in H. apply IH in H. simpl in H. destruct H as [H1 [H2 H3]].
    split; [assumption|]. split; [now rewrite length_map in H2|].
    intros n Hn. apply H3. apply Forall_map.
    eapply Forall_impl; [|exact Hn]. intros r Hr. simpl.
    now rewrite length_coerce_row.
Qed.

(** The shape of the table read: its header, its row count and the width
    of its rows. *)
Lemma read_timing_data_shape :
  forall (to_numeric : string -> pyfloat) (ls : list string) (df : DataFrame),
    read_timing_data to_numeric ls = Ok df ->
    exists first rest,
      ls = first :: rest
      /\ columns df = split_tab (strip first)
      /\ List.length (data df) = List.length (filter has_text rest)
      /\ Forall (fun row => List.length row = List.length (columns df))
                (data df).
Proof.
  intros to_numeric ls df H. unfold read_timing_data in H.
  destruct (parse_lines to_numeric ls) as [df0|e] eqn:E; [|discriminate].
  inversion H; subst df0; clear H.
  destruct ls as [|first rest]; [discriminate|].
  exists first, rest. split; [reflexivity|].
  unfold parse_lines in E. apply convert_numeric_shape in E.
  cbn [columns data] in E. destruct E as [E1 [E2 E3]].
  destruct (data_rows_shape (split_tab (strip first)) rest) as [D1 D2].
  split; [assumption|]. split.
  - now rewrite E2, length_map.
  - rewrite E1. apply E3. apply Forall_map.
    eapply Forall_impl; [|exact D2]. intros r Hr. simpl.
    now rewrite length_map.
Qed.


(** The table read from a timing file takes its column names from the first
    line, has one row per later line that is not blank, and every row has
    exactly as many cells as the header has names, however many fields the
    line had. *)
Theorem parsed_table_shape :
  forall (to_numeric : string -> pyfloat) (ls : list string) (df : DataFrame),
    read_timing_data to_numeric ls = Ok df ->
    exists first rest,
      ls = first :: rest
      /\ columns df = split_tab (strip first)
      /\ List.length (data df) = List.length (filter has_text rest)
      /\ Forall (fun row => List.length row = List.length (columns df))
                (data df).
Proof. exact read_timing_data_shape. Qed.

Lemma parsed_table_shape_witness :
  exists df,
    read_timing_data Sample.to_numeric
      [Sample.header; Sample.trial "smile" "1" "10000" "12000" "14000"; "1"]
    = Ok df
    /\ List.length (data df) = 2%nat.
Proof.
  eexists. split; [vm_compute; reflexivity|].
  match goal with
  | |- List.length (data ?d) = _ =>
      assert (H : read_timing_data Sample.to_numeric
                    [Sample.header;
                     Sample.trial "smile" "1" "10000" "12000" "14000"; "1"]
                  = Ok d) by (vm_compute; reflexivity);
      destruct (parsed_table_shape _ _ _ H) as [first [rest [E [_ [L _]]]]]
  end.
  inversion E; subst. rewrite L. vm_compute. reflexivity.
Defined.

End Reader.

Section CellTypes.
Import Events EventViews.

Lemma nth_error_coerce_row (to_numeric : string -> pyfloat) (col : string) :
  forall cols row j,
    nth_error (coerce_row to_numeric col cols row) j
    = match nth_error row j with
      | None => None
      | Some v =>
          match nth_error cols j with
          | Some c => Some (if String.eqb c col then coerce to_numeric v else v)
          | None => Some v
          end
      end.
Proof.
  induction cols as [|c cols IH]; intros [|v row] [|j]; simpl; try reflexivity.
  - now destruct (nth_error row j).
  - apply IH.
Qed.

(** Every cell under a column named [c] is a float exactly when [P c]. *)
Let typed_by (P : string -> bool) (df : DataFrame) : Prop :=
  forall row j c v,
    In row (data df) -> nth_error (columns df) j = Some c ->
    nth_error row j = Some v -> is_num v = P c.

Lemma convert_numeric_typed (to_numeric : string -> pyfloat)
    (cols : list string) :
  forall P df df',
    typed_by P df ->
    convert_numeric to_numeric cols df = Ok df' ->
    typed_by (fun c => mem c cols || P c) df'.
Proof.
  induction cols as [|col cols IH]; intros P df df' HP H; simpl in H.
  - inversion H; subst. exact HP.
  - destruct (mem col (columns df)) eqn:Em.
    + unfold assign_numeric in H.
      destruct (1 <? count_occ string_dec (columns df) col)%nat;
        [discriminate|].
      simpl in H.
      apply (IH (fun c => String.eqb c col || P c)) in H.
      * intros row j c v Hr Hc Hv. rewrite (H row j c v Hr Hc Hv).
        simpl. rewrite orb_assoc.
        f_equal. apply orb_comm.
      * intros row j c v Hr Hc Hv. simpl in Hr, Hc.
        apply in_map_iff in Hr. destruct Hr as [row0 [<- Hr0]].
        rewrite nth_error_coerce_row, Hc in Hv.
        destruct (nth_error row0 j) as [v0|] eqn:E0; [|discriminate].
        inversion Hv; subst v; clear Hv.
        destruct (String.eqb c col); simpl.
        -- now destruct v0.
        -- now apply (HP row0 j c v0).
    + assert (Hcols := convert_numeric_shape to_numeric cols df df' H).
      apply (IH P) in H; [|exact HP].
      intros row j c v Hr Hc Hv. rewrite (H row j c v Hr Hc Hv).
      simpl. destruct (String.eqb c col) eqn:E; [|reflexivity].
      apply String.eqb_eq in E. subst c.
      destruct Hcols as [Hcols _]. rewrite Hcols in Hc.
      apply nth_error_In in Hc. apply mem_In in Hc. congruence.
Qed.

(** The type of a cell of the table read follows its column name. *)
Lemma read_timing_data_typed :
  forall (to_numeric : string -> pyfloat) (ls : list string) (df : DataFrame),
    read_timing_data to_numeric ls = Ok df ->
    forall row j c v,
      In row (data df) -> nth_error (columns df) j = Some c ->
      nth_error row j = Some v ->
      is_num v = mem c numeric_columns.
Proof.
  intros to_numeric ls df H row j c v Hr Hc Hv.
  unfold read_timing_data in H.
  destruct (parse_lines to_numeric ls) as [df0|e] eqn:E; [|discriminate].
  inversion H; subst df0; clear H.
  destruct ls as [|first rest]; [discriminate|].
  unfold parse_lines in E.
  apply (convert_numeric_typed to_numeric numeric_columns (fun _ => false))
    in E.
  - rewrite (E row j c v Hr Hc Hv). apply orb_false_r.
  - intros row0 j0 c0 v0 Hr0 _ Hv0. simpl in Hr0.
    apply in_map_iff in Hr0. destruct Hr0 as [r [<- _]].
    rewrite nth_error_map in Hv0.
    destruct (nth_error r j0); [|discriminate].
    now inversion Hv0.
Qed.


(** In the table read from a timing file a cell is a float exactly when its
    column is named by one of the eleven numeric column names of the
    reader; every cell of any other column stays text, whatever it holds. *)
Theorem parsed_cells_typed :
  forall (to_numeric : string -> pyfloat) (ls : list string) (df : DataFrame),
    read_timing_data to_numeric ls = Ok df ->
    forall row j c v,
      In row (data df) -> nth_error (columns df) j = Some c ->
      nth_error row j = Some v ->
      is_num v = mem c numeric_columns.
Proof. exact read_timing_data_typed. Qed.

Lemma parsed_cells_typed_witness :
  is_num (Str "smile") = mem "cue_type" numeric_columns.
Proof.
  assert (H : exists df,
             read_timing_data Sample.to_numeric
               [Sample.header;
                Sample.trial "smile" "1" "10000" "12000" "14000"] = Ok df
             /\ exists row, In row (data df)
                /\ nth_error (columns df) 2 = Some "cue_type"
                /\ nth_error row 2 = Some (Str "smile")).
  { eexists. split; [vm_compute; reflexivity|].
    eexists. split; [left; reflexivity|]. split; reflexivity. }
  destruct H as [df [Hread [row [Hr [Hc Hv]]]]].
  exact (parsed_cells_typed _ _ _ Hread row 2%nat "cue_type" (Str "smile")
           Hr Hc Hv).
Defined.

(** Whether the trials of a table raise is decided by its header alone.
    For a parsed table with at least twelve columns: when the names of
    columns 9, 10 and 11 are all numeric column names, every row is read
    and [process_single_trial] returns its events without warning; when one
    of them is not, [process_single_trial] raises [TypeError] on every row,
    and a table with rows ends in the no-valid-trials error, whatever the
    cells hold. *)
Theorem trial_errors_decided_by_header :
  forall (to_numeric : string -> pyfloat) (ls : list string) (df : DataFrame)
         (c9 c10 c11 : string),
    read_timing_data to_numeric ls = Ok df ->
    nth_error (columns df) 9 = Some c9 ->
    nth_error (columns df) 10 = Some c10 ->
    nth_error (columns df) 11 = Some c11 ->
    let numeric_onsets :=
      mem c9 numeric_columns && mem c10 numeric_columns
      && mem c11 numeric_columns in
    (numeric_onsets = true ->
     forall i, (i < List.length (data df))%nat ->
       exists t, read_trial df i = Ok t
                 /\ process_single_trial df i = ([], Ok (trial_events t)))
    /\ (numeric_onsets = false ->
        (forall i, (i < List.length (data df))%nat ->
           process_single_trial df i = ([], Raise TypeError))
        /\ (data df <> [] ->
            snd (events_of_table df)
            = Raise (ValueError "No valid trials found in timing file"))).
Proof.
  intros to_numeric ls df c9 c10 c11 Hread H9 H10 H11 numeric_onsets.
  destruct (read_timing_data_shape to_numeric ls df Hread)
    as [first [rest [_ [_ [_ Hw]]]]].
  assert (Hty := read_timing_data_typed to_numeric ls df Hread).
  assert (Hwide : (11 < List.length (columns df))%nat).
  { apply nth_error_Some. congruence. }
  assert (Hcell :
    forall i, (i < List.length (data df))%nat ->
      exists row, nth_error (data df) i = Some row /\ In row (data df)
        /\ (forall j, (j < 12)%nat -> exists v, nth_error row j = Some v)).
  { intros i Hi. destruct (nth_error (data df) i) as [row|] eqn:Er.
    - exists row. split; [reflexivity|].
      assert (Hin : In row (data df)) by now apply nth_error_In in Er.
      split; [assumption|]. intros j Hj.
      rewrite Forall_forall in Hw. specialize (Hw row Hin).
      destruct (nth_error row j) as [v|] eqn:Ev; [eauto|].
      apply nth_error_None in Ev. lia.
    - apply nth_error_None in Er. lia. }
  assert (Hraise :
    numeric_onsets = false ->
    forall i, (i < List.length (data df))%nat ->
      process_single_trial df i = ([], Raise TypeError)).
  { intros Hn i Hi.
    destruct (Hcell i Hi) as [row [Er [Hin Hv]]].
    destruct (Hv 2%nat ltac:(lia)) as [v2 E2].
    destruct (Hv 3%nat ltac:(lia)) as [v3 E3].
    destruct (Hv 9%nat ltac:(lia)) as [v9 E9].
    destruct (Hv 10%nat ltac:(lia)) as [v10 E10].
    destruct (Hv 11%nat ltac:(lia)) as [v11 E11].
    assert (T9 := Hty row _ _ _ Hin H9 E9).
    assert (T10 := Hty row _ _ _ Hin H10 E10).
    assert (T11 := Hty row _ _ _ Hin H11 E11).
    unfold process_single_trial, read_trial, iloc.
    rewrite Er, E2, E3, E9, E10, E11. simpl.
    unfold numeric_onsets in Hn.
    destruct v9 as [s9|x9]; simpl in *; [reflexivity|].
    destruct v10 as [s10|x10]; simpl in *; [reflexivity|].
    destruct v11 as [s11|x11]; simpl in *; [reflexivity|].
    rewrite <- T9, <- T10, <- T11 in Hn. discriminate. }
  split.
  - intros Hn i Hi.
    destruct (Hcell i Hi) as [row [Er [Hin Hv]]].
    destruct (Hv 2%nat ltac:(lia)) as [v2 E2].
    destruct (Hv 3%nat ltac:(lia)) as [v3 E3].
    destruct (Hv 9%nat ltac:(lia)) as [v9 E9].
    destruct (Hv 10%nat ltac:(lia)) as [v10 E10].
    destruct (Hv 11%nat ltac:(lia)) as [v11 E11].
    assert (T9 := Hty row _ _ _ Hin H9 E9).
    assert (T10 := Hty row _ _ _ Hin H10 E10).
    assert (T11 := Hty row _ _ _ Hin H11 E11).
    unfold numeric_onsets in Hn.
    apply andb_true_iff in Hn. destruct Hn as [Hn N11].
    apply andb_true_iff in Hn. destruct Hn as [N9 N10].
    rewrite N9 in T9. rewrite N10 in T10. rewrite N11 in T11.
    destruct v9 as [s9|x9]; [discriminate|].
    destruct v10 as [s10|x10]; [discriminate|].
    destruct v11 as [s11|x11]; [discriminate|].
    unfold process_single_trial, read_trial, iloc.
    rewrite Er, E2, E3, E9, E10, E11. simpl. eauto.
  - intros Hn. split; [now apply Hraise|].
    intros Hd.
    destruct (events_of_table_cases df)
      as [[Hd' _]|[[_ [_ He]]|[_ [Hk _]]]]; [contradiction|exact He|].
    exfalso. apply Hk. apply flat_map_nil. intros i Hi.
    unfold trial_window in Hi. apply in_seq in Hi.
    unfold kept_events. rewrite Hraise; [reflexivity|assumption|lia].
Qed.

Lemma trial_errors_witness :
  exists df,
    read_timing_data Sample.to_numeric
      [Sample.header; Sample.trial "smile" "1" "10000" "12000" "14000"]
    = Ok df
    /\ exists t, read_trial df 0 = Ok t.
Proof.
  eexists. split; [vm_compute; reflexivity|].
  match goal with
  | |- exists t, read_trial ?d _ = _ =>
      assert (H : read_timing_data Sample.to_numeric
                    [Sample.header;
                     Sample.trial "smile" "1" "10000" "12000" "14000"]
                  = Ok d) by (vm_compute; reflexivity);
      destruct (proj1 (trial_errors_decided_by_header _ _ _
                         "onsettime_cue" "onsettime_target"
                         "onsettime_feedback" H eq_refl eq_refl eq_refl)
                      eq_refl 0%nat) as [t [Ht _]]
  end.
  - simpl. lia.
  - exists t. exact Ht.
Defined.

End CellTypes.

(* ================================================================== *)
(** * The decoded table as a sorted selection *)
(* ================================================================== *)

Section DecodedTable.
Import Events EventViews.

Lemma Qle_bool_false (x y : Q) : Qle_bool x y = false -> y <= x.
Proof.
  intros H. destruct (Qlt_le_dec y x) as [Hlt|Hle].
  - now apply Qlt_le_weak.
  - apply Qle_bool_iff in Hle. congruence.
Qed.

Lemma in_time_order_trans (a b c : event) :
  in_time_order a b -> in_time_order b c -> in_time_order a c.
Proof.
  unfold in_time_order.
  destruct (onset a), (onset b), (onset c); try tauto.
  apply Qle_trans.
Qed.

Lemma insert_by_onset_sorted (e : event) (l : list event) :
  is_nan (onset e) = false ->
  Forall (fun x => is_nan (onset x) = false) l ->
  StronglySorted in_time_order l ->
  StronglySorted in_time_order (insert_by_onset e l).
Proof.
  intros He Hl Hs. induction Hs as [|x l Hs IH Hx]; simpl.
  - repeat constructor.
  - inversion Hl as [|? ? Hxn Hln]; subst.
    assert (Hcmp : onset_le e x = true -> in_time_order e x).
    { unfold onset_le, in_time_order.
      destruct (onset e), (onset x); try discriminate.
      apply Qle_bool_iff. }
    destruct (onset_le e x) eqn:E.
    + constructor; [now constructor|].
      constructor; [now apply Hcmp|].
      eapply Forall_impl; [|exact Hx]. intros y Hy.
      eapply in_time_order_trans; [now apply Hcmp|exact Hy].
    + constructor; [now apply IH|].
      apply Forall_forall. intros y Hy.
      apply In_insert_by_onset in Hy. destruct Hy as [->|Hy].
      * unfold onset_le in E. unfold in_time_order.
        destruct (onset e), (onset x); try discriminate.
        now apply Qle_bool_false.
      * rewrite Forall_forall in Hx. now apply Hx.
Qed.

Lemma isort_sorted (l : list event) :
  Forall (fun x => is_nan (onset x) = false) l ->
  StronglySorted in_time_order (fold_right insert_by_onset [] l)
  /\ Forall (fun x => is_nan (onset x) = false)
            (fold_right insert_by_onset [] l).
Proof.
  induction 1 as [|x l Hx Hl [IH1 IH2]]; simpl.
  - split; constructor.
  - split.
    + now apply insert_by_onset_sorted.
    + apply Forall_forall. intros y Hy.
      apply In_insert_by_onset in Hy. destruct Hy as [->|Hy]; [assumption|].
      rewrite Forall_forall in IH2. now apply IH2.
Qed.

Lemma isort_perm (l : list event) :
  Permutation (fold_right insert_by_onset [] l) l.
Proof.
  assert (Hins : forall e l', Permutation (insert_by_onset e l') (e :: l')).
  { intros e l'. induction l' as [|x l' IH]; simpl; [reflexivity|].
    destruct (onset_le e x); [reflexivity|].
    rewrite IH. apply perm_swap. }
  induction l as [|x l IH]; simpl; [reflexivity|].
  rewrite Hins. now constructor.
Qed.

Lemma filter_partition_perm {X : Type} (p : X -> bool) (l : list X) :
  Permutation (filter (fun x => negb (p x)) l ++ filter p l) l.
Proof.
  induction l as [|x l IH]; simpl; [reflexivity|].
  destruct (p x); simpl.
  - rewrite <- Permutation_middle. now constructor.
  - now constructor.
Qed.

Lemma filter_perm {X : Type} (p : X -> bool) (l l' : list X) :
  Permutation l l' -> Permutation (filter p l) (filter p l').
Proof.
  induction 1 as [|x l l' H IH|x y l|l l' l'' H1 IH1 H2 IH2]; simpl.
  - reflexivity.
  - destruct (p x); [now constructor|assumption].
  - destruct (p x), (p y); try reflexivity. apply perm_swap.
  - now transitivity (filter p l').
Qed.

Lemma StronglySorted_filter {X : Type} (R : X -> X -> Prop) (p : X -> bool)
    (l : list X) :
  StronglySorted R l -> StronglySorted R (filter p l).
Proof.
  induction 1 as [|x l Hs IH Hx]; simpl; [constructor|].
  destruct (p x); [|assumption].
  constructor; [assumption|].
  apply Forall_forall. intros y Hy. apply filter_In in Hy.
  rewrite Forall_forall in Hx. now apply Hx.
Qed.

Lemma StronglySorted_shift (t : Q) (l : list event) :
  StronglySorted in_time_order l ->
  StronglySorted in_time_order (map (shift_onset t) l).
Proof.
  assert (Hm : forall a b, in_time_order a b ->
                 in_time_order (shift_onset t a) (shift_onset t b)).
  { intros a b. unfold in_time_order, shift_onset. simpl.
    destruct (onset a), (onset b); simpl; try tauto. intros H. lra. }
  induction 1 as [|x l Hs IH Hx]; simpl; constructor; [assumption|].
  apply Forall_map. eapply Forall_impl; [|exact Hx]. intros y. apply Hm.
Qed.

Lemma fge0_shift (t : Q) (e : event) :
  fge0 (onset (shift_onset t e)) = at_or_after t (onset e).
Proof.
  unfold shift_onset, at_or_after. simpl.
  destruct (onset e) as [|q]; simpl; [reflexivity|].
  destruct (Qle_bool t q) eqn:E.
  - apply Qle_bool_iff in E. apply Qle_bool_iff. lra.
  - destruct (Qle_bool 0 (q - t)) eqn:E'; [|reflexivity].
    apply Qle_bool_iff in E'. assert (H : t <= q) by lra.
    apply Qle_bool_iff in H. congruence.
Qed.

Lemma filter_map_swap_ext {X Y : Type} (f : X -> Y) (p : Y -> bool)
    (q : X -> bool) (l : list X) :
  (forall x, p (f x) = q x) ->
  filter p (map f l) = map f (filter q l).
Proof.
  intros H. induction l as [|x l IH]; simpl; [reflexivity|].
  rewrite H. destruct (q x); simpl; now rewrite IH.
Qed.

Lemma finish_events_filter (events_list : list event) :
  finish_events events_list
  = map (shift_onset dummy_scan_time)
        (filter (fun e => at_or_after dummy_scan_time (onset e))
                (sort_values events_list)).
Proof.
  unfold finish_events.
  apply (filter_map_swap_ext (shift_onset dummy_scan_time)
           (fun e => fge0 (onset e))
           (fun e => at_or_after dummy_scan_time (onset e))).
  intros x. apply fge0_shift.
Qed.

Lemma finish_events_sorted (events_list : list event) :
  StronglySorted in_time_order (finish_events events_list).
Proof.
  rewrite finish_events_filter.
  apply StronglySorted_shift. unfold sort_values. rewrite filter_app.
  replace (filter (fun e => at_or_after dummy_scan_time (onset e))
             (filter (fun e => is_nan (onset e)) events_list))
    with (@nil event).
  - rewrite app_nil_r. apply StronglySorted_filter.
    apply isort_sorted. apply Forall_forall. intros x Hx.
    apply filter_In in Hx. destruct Hx as [_ Hx].
    now apply negb_true_iff in Hx.
  - symmetry. induction events_list as [|x l IH]; simpl; [reflexivity|].
    destruct (onset x) eqn:E; simpl; [rewrite E; simpl|]; exact IH.
Qed.

Lemma finish_events_perm (events_list : list event) :
  Permutation (finish_events events_list)
    (map (shift_onset dummy_scan_time)
         (filter (fun e => at_or_after dummy_scan_time (onset e))
                 events_list)).
Proof.
  rewrite finish_events_filter.
  apply Permutation_map. apply filter_perm.
  unfold sort_values. rewrite isort_perm.
  apply filter_partition_perm.
Qed.

(** Lines 104-120 as a whole: the table built from the collected events is
    in time order (every onset a number, none later than the next) and
    holds, each shifted back by the dummy-scan time, exactly the collected
    events whose onset is at or after that time, each as often as it was
    collected: nothing else is dropped and nothing is added. *)
Theorem finish_events_sorted_selection :
  forall (events_list : list event),
    StronglySorted in_time_order (finish_events events_list)
    /\ Permutation (finish_events events_list)
         (map (shift_onset dummy_scan_time)
              (filter (fun e => at_or_after dummy_scan_time (onset e))
                      events_list)).
Proof.
  intros events_list.
  split; [apply finish_events_sorted|apply finish_events_perm].
Qed.

Lemma length_kept_events (df : DataFrame) (i : nat) :
  (List.length (kept_events df i) <= 2)%nat.
Proof.
  unfold kept_events, process_single_trial.
  destruct (read_trial df i) as [t|ex]; simpl.
  - unfold trial_events.
    destruct (cue_matches "smile" (f_cue_type t));
      [|destruct (cue_matches "neutral" (f_cue_type t))]; simpl; lia.
  - destruct ex; simpl; lia.
Qed.

Lemma length_flat_map_le {X Y : Type} (f : X -> list Y) (k : nat)
    (l : list X) :
  (forall x, (List.length (f x) <= k)%nat) ->
  (List.length (flat_map f l) <= k * List.length l)%nat.
Proof.
  intros H. induction l as [|x l IH]; simpl; [lia|].
  rewrite length_app. specialize (H x). lia.
Qed.

(** A decoded table never holds more than 120 events, two for each of the
    at most 60 rows of the window, however long the log is; and each of
    its events is the shifted copy of an event of a row between 20 and 79
    that was read in full. *)
Theorem decoded_table_bounds :
  forall (to_numeric : string -> pyfloat) (f : timing_file)
         (subject_id : option string) (df : DataFrame) (ws : list warning)
         (events_df : list event),
    read_timing_data to_numeric (lines f) = Ok df ->
    extract_midt_events to_numeric f subject_id = (ws, Ok events_df) ->
    (List.length events_df <= 120)%nat
    /\ forall e, In e events_df ->
         exists i t e0,
           (20 <= i <= 79)%nat /\ (i < List.length (data df))%nat
           /\ read_trial df i = Ok t /\ In e0 (trial_events t)
           /\ e = shift_onset dummy_scan_time e0.
Proof.
  intros to_numeric f subject_id df ws events_df Hread H.
  assert (Hs : snd (events_of_table df) = Ok events_df).
  { unfold extract_midt_events in H. rewrite Hread in H.
    destruct (match subject_id with
              | Some s => Some s
              | None => subject_in_name f
              end); [|discriminate].
    now rewrite H. }
  destruct (events_of_table_cases df)
    as [[_ E]|[[_ [_ E]]|[_ [_ E]]]]; rewrite E in Hs; try discriminate.
  inversion Hs; subst events_df; clear Hs E.
  assert (Hp := finish_events_perm
                   (flat_map (kept_events df) (trial_window df))).
  split.
  - rewrite (Permutation_length Hp), length_map.
    eapply Nat.le_trans; [apply filter_length_le|].
    eapply Nat.le_trans;
      [apply (length_flat_map_le (kept_events df) 2), length_kept_events|].
    unfold trial_window. rewrite length_seq. unfold trial_start. lia.
  - intros e He.
    apply (Permutation_in _ Hp) in He. apply in_map_iff in He.
    destruct He as [e0 [<- He0]]. apply filter_In in He0.
    destruct He0 as [He0 _]. apply in_flat_map in He0.
    destruct He0 as [i [Hi He0]]. apply In_kept_events in He0.
    destruct He0 as [t [Ht He0]].
    unfold trial_window, trial_start in Hi. apply in_seq in Hi.
    exists i, t, e0. repeat split; try assumption; lia.
Qed.

Lemma decoded_table_bounds_witness :
  exists events_df,
    Sample.decode [Sample.trial "smile" "1" "10000" "12000" "14000"]
    = Ok events_df
    /\ (List.length events_df <= 120)%nat.
Proof.
  eexists. split; [vm_compute; reflexivity|].
  match goal with
  | |- (List.length ?evs <= _)%nat =>
      refine (proj1 (decoded_table_bounds Sample.to_numeric
                (Sample.log [Sample.trial "smile" "1" "10000" "12000" "14000"])
                None
                (match read_timing_data Sample.to_numeric
                         (lines (Sample.log
                            [Sample.trial "smile" "1" "10000" "12000" "14000"]))
                 with Ok d => d | Raise _ => {| columns := []; data := [] |} end)
                [] evs _ _))
  end; vm_compute; reflexivity.
Defined.

End DecodedTable.

(* ================================================================== *)
(** * Further properties of the exclusion list *)
(* ================================================================== *)

Section ExclusionCounts.
Import Config ConfigViews.

Lemma count_remove_first (x y : string) (l : list string) :
  count_occ string_dec (remove_first x l) y
  = if String.eqb x y then Nat.pred (count_occ string_dec l y)
    else count_occ string_dec l y.
Proof.
  induction l as [|z l IH]; simpl.
  - now destruct (String.eqb x y).
  - destruct (String.eqb_spec x z) as [->|Hxz].
    + destruct (string_dec z y) as [->|Hzy].
      * now rewrite String.eqb_refl.
      * destruct (String.eqb_spec z y); [contradiction|reflexivity].
    + simpl. rewrite IH.
      destruct (string_dec z y) as [->|Hzy]; [|reflexivity].
      destruct (String.eqb_spec x y); [contradiction|reflexivity].
Qed.

Lemma count_exclude (subject_id : field) (x : string) (valid : list string) :
  count_occ string_dec (exclude subject_id valid) x
  = match subject_id with
    | FStr s => if String.eqb s x
                then Nat.pred (count_occ string_dec valid x)
                else count_occ string_dec valid x
    | FList _ => count_occ string_dec valid x
    end.
Proof.
  destruct subject_id as [s|l]; simpl; [|reflexivity].
  destruct (mem s valid) eqn:E; [apply count_remove_first|].
  destruct (String.eqb_spec s x) as [->|]; [|reflexivity].
  assert (H : ~ In x valid).
  { intros H. apply mem_In in H. congruence. }
  apply (count_occ_not_In string_dec) in H. now rewrite H.
Qed.

Lemma count_apply_exclusions (exclusions : list (list field))
    (session x : string) :
  forall valid,
    count_occ string_dec (apply_exclusions exclusions session valid) x
    = (count_occ string_dec valid x
       - List.length (filter (excludes session x) exclusions))%nat.
Proof.
  induction exclusions as [|ex rest IH]; intros valid; simpl; [lia|].
  destruct ex as [|subject_id [|reason [|affected more]]];
    try (rewrite IH; simpl; try destruct subject_id; simpl; lia).
  destruct (session_affected affected session) eqn:Ea; rewrite IH.
  - rewrite count_exclude. unfold excludes.
    destruct subject_id as [s|l]; simpl; [|lia].
    rewrite Ea. destruct (String.eqb s x); simpl; lia.
  - unfold excludes. destruct subject_id as [s|l]; simpl; [|lia].
    rewrite Ea, andb_false_r. simpl. lia.
Qed.

(** [get_valid_subjects_for_session] in full: an identifier stays in the
    result as often as it is listed in [subject_ids], less once for every
    exclusion entry that names it and affects the session (never below
    zero).  So an entry removes one listing only, an identifier listed
    twice survives a single entry, and with distinct identifiers a subject
    is eligible exactly when it is listed and no entry excludes it. *)
Theorem eligible_subject_count :
  forall (config : MIDTConfig) (session x : string),
    count_occ string_dec (get_valid_subjects_for_session config session) x
    = (count_occ string_dec (subject_ids config) x
       - List.length (filter (excludes session x)
                             (excluded_subjects config)))%nat
    /\ (NoDup (subject_ids config) ->
        (In x (get_valid_subjects_for_session config session) <->
         In x (subject_ids config)
         /\ forall exclusion, In exclusion (excluded_subjects config) ->
                              excludes session x exclusion = false)).
Proof.
  intros config session x. unfold get_valid_subjects_for_session.
  split; [apply count_apply_exclusions|].
  intros Hnd.
  rewrite (count_occ_In string_dec), count_apply_exclusions.
  assert (Hc : (count_occ string_dec (subject_ids config) x <= 1)%nat).
  { now apply NoDup_count_occ. }
  assert (Hf : List.length (filter (excludes session x)
                                   (excluded_subjects config)) = 0%nat
               <-> forall exclusion,
                     In exclusion (excluded_subjects config) ->
                     excludes session x exclusion = false).
  { rewrite length_zero_iff_nil.
    induction (excluded_subjects config) as [|e l IH]; simpl.
    - split; [intros _ ? []|reflexivity].
    - destruct (excludes session x e) eqn:E.
      + split; [discriminate|]. intros H.
        rewrite (H e (or_introl eq_refl)) in E. discriminate.
      + rewrite IH. split.
        * intros H ex [<-|Hex]; auto.
        * intros H ex Hex. apply H. now right. }
  rewrite <- Hf, (count_occ_In string_dec). lia.
Qed.

End ExclusionCounts.

(* ================================================================== *)
(** * Further properties of the orchestrator *)
(* ================================================================== *)

Section ParallelResults.
Import Pipeline.
Context {A B : Type}.
Variable func : A -> result B.
Variable joblib : list A -> joblib_outcome.

Lemma pool_results_sequential (items : list A) (results : list (option B)) :
  pool_results func items = Ok results ->
  results = sequential_results func items.
Proof.
  revert results. induction items as [|item items IH]; intros results H;
    simpl in H.
  - now inversion H.
  - unfold sequential_results. simpl.
    destruct (func item) as [r|e]; simpl in H; [|discriminate].
    destruct (pool_results func items) as [rs|e]; simpl in H; [|discriminate].
    inversion H; subst. f_equal. now apply IH.
Qed.

(** [safe_parallel_processing] returns the same list whatever the number
    of jobs and whatever the worker pool does (missing, raising, or
    completing): one entry per item, in the order of the items, holding the
    item's result, or [None] when the function raised on that item. *)
Theorem safe_parallel_is_sequential :
  forall (items : list A) (n_jobs : nat),
    safe_parallel_processing func joblib items n_jobs
    = sequential_results func items
    /\ List.length (safe_parallel_processing func joblib items n_jobs)
       = List.length items
    /\ forall i item,
         nth_error items i = Some item ->
         nth_error (safe_parallel_processing func joblib items n_jobs) i
         = Some (match func item with Ok r => Some r | Raise _ => None end).
Proof.
  intros items n_jobs.
  assert (H : safe_parallel_processing func joblib items n_jobs
              = sequential_results func items).
  { unfold safe_parallel_processing.
    destruct (n_jobs =? 1)%nat; [reflexivity|].
    destruct (joblib items); try reflexivity.
    destruct (pool_results func items) as [rs|e] eqn:E; [|reflexivity].
    now apply pool_results_sequential. }
  rewrite H. unfold sequential_results. split; [reflexivity|].
  split; [apply length_map|].
  intros i item Hi. now rewrite nth_error_map, Hi.
Qed.

End ParallelResults.

Section RunLedger.
Import Config Pipeline.

Variable to_numeric : string -> pyfloat.
Variable timing_files : list Events.timing_file.
Variable extract_motion_regressors : MIDTConfig -> result motion_summary.
Variable run_first_level_midt : MIDTConfig -> string -> string -> result bool.
Variable joblib : list string -> joblib_outcome.

Lemma first_level_stage_counts (c : MIDTConfig) (sess : string)
    (session_subjects : list string) (n_jobs : nat) :
  first_level_stage run_first_level_midt joblib c sess session_subjects n_jobs
    {| session := sess; total_subjects := List.length session_subjects;
       successful_subjects := 0; failed_subjects := [] |}
  = {| session := sess; total_subjects := List.length session_subjects;
       successful_subjects :=
         List.length
           (filter (fun id => process_single_subject run_first_level_midt
                                c id sess) session_subjects);
       failed_subjects :=
         filter (fun id => negb (process_single_subject
                                   run_first_level_midt c id sess))
                session_subjects |}.
Proof.
  unfold first_level_stage. destruct (1 <? n_jobs)%nat.
  - rewrite safe_parallel_results, count_results_map. reflexivity.
  - rewrite count_results_map. reflexivity.
Qed.

Lemma process_single_session_summary (config : MIDTConfig) (sess : string)
    (session_subjects : list string) (n_jobs : nat) :
  let s := fst (process_single_session to_numeric timing_files
                  extract_motion_regressors run_first_level_midt joblib
                  config sess session_subjects n_jobs) in
  total_subjects s = List.length session_subjects
  /\ (successful_subjects s + List.length (failed_subjects s)
      <= total_subjects s)%nat
  /\ incl (failed_subjects s) session_subjects.
Proof.
  unfold process_single_session.
  destruct (run_timing_extraction config
            && negb (extract_timing_for_session to_numeric timing_files
                       config sess)).
  { simpl. repeat split; [lia|]. intros x []. }
  destruct (if run_motion_extraction config
            then extract_motion_regressors_for_session
                   extract_motion_regressors config sess session_subjects
            else (true, config)) as [motion_ok config'].
  destruct motion_ok; simpl.
  2:{ repeat split; [lia|]. intros x []. }
  destruct (run_first_level config'); simpl.
  2:{ repeat split; [lia|]. intros x []. }
  rewrite first_level_stage_counts. simpl. repeat split.
  - assert (Hsplit := filter_length_split
                        (fun id => process_single_subject run_first_level_midt
                                     config' id sess) session_subjects).
    simpl in Hsplit. lia.
  - intros x Hx. apply filter_In in Hx. tauto.
Qed.

(** The invariant of the session loop on the overall summary and the calls
    made so far. *)
Let ledger_ok (overall : overall_summary)
    (calls : list (string * list string)) : Prop :=
  sessions_processed overall = map fst calls
  /\ all_total_subjects overall
     = list_sum (map (fun c => List.length (snd c)) calls)
  /\ (all_successful_subjects overall
      + List.length (all_failed_subjects overall)
      <= all_total_subjects overall)%nat
  /\ incl (all_failed_subjects overall) (flat_map snd calls)
  /\ Forall (fun c => snd c <> []) calls.

Lemma session_loop_ledger (sessions : list string) (n_jobs : nat) :
  forall config overall calls,
    ledger_ok overall calls ->
    let r := session_loop to_numeric timing_files extract_motion_regressors
               run_first_level_midt joblib sessions config n_jobs overall
               calls in
    ledger_ok (fst (fst r)) (snd (fst r))
    /\ incl (map fst (snd (fst r))) (map fst calls ++ sessions).
Proof.
  induction sessions as [|sess sessions IH]; intros config overall calls H;
    simpl.
  - split; [exact H|]. rewrite app_nil_r. apply incl_refl.
  - destruct (get_valid_subjects_for_session config sess)
      as [|id ids] eqn:Ev.
    + destruct (IH config overall calls H) as [IH1 IH2].
      split; [exact IH1|].
      intros x Hx. apply IH2 in Hx. apply in_app_iff in Hx.
      apply in_app_iff. simpl. tauto.
    + assert (Hs := process_single_session_summary config sess (id :: ids)
                      n_jobs).
      destruct (process_single_session to_numeric timing_files
                  extract_motion_regressors run_first_level_midt joblib
                  config sess (id :: ids) n_jobs) as [s config'].
      cbn [fst] in Hs. destruct Hs as [Ht [Hle Hin]].
      destruct H as [H1 [H2 [H3 [H4 H5]]]].
      match goal with
      | |- context [session_loop _ _ _ _ _ _ _ _ ?o ?c] =>
          destruct (IH config' o c) as [IH1 IH2]
      end.
      * unfold ledger_ok. cbn [sessions_processed all_total_subjects
          all_successful_subjects all_failed_subjects].
        rewrite !map_app, flat_map_app, list_sum_app. simpl.
        rewrite length_app. repeat split.
        -- now rewrite H1.
        -- rewrite H2, Ht. simpl. lia.
        -- lia.
        -- rewrite app_nil_r. apply incl_app_app; assumption.
        -- apply Forall_app. split; [assumption|].
           repeat constructor. discriminate.
      * split; [exact IH1|].
        intros x Hx. apply IH2 in Hx. rewrite map_app in Hx. simpl in Hx.
        rewrite !in_app_iff in Hx. simpl in Hx.
        rewrite in_app_iff. simpl. tauto.
Qed.

(** The overall summary of a run, whatever the stages do: the sessions
    reported as processed are configured sessions, those whose eligible
    list was not empty when the loop reached them; the total is the sum of
    their eligible lists; succeeded plus failed never exceeds the total;
    and every failed subject was eligible in a processed session. *)
Theorem overall_summary_ledger :
  forall (config : MIDTConfig) (n_jobs : nat),
    let r := run_complete_pipeline to_numeric timing_files
               extract_motion_regressors run_first_level_midt joblib
               config n_jobs in
    let overall := fst (fst r) in
    let calls := snd (fst r) in
    sessions_processed overall = map fst calls
    /\ incl (sessions_processed overall) (sessions_to_process config)
    /\ Forall (fun c => snd c <> []) calls
    /\ all_total_subjects overall
       = list_sum (map (fun c => List.length (snd c)) calls)
    /\ (all_successful_subjects overall
        + List.length (all_failed_subjects overall)
        <= all_total_subjects overall)%nat
    /\ incl (all_failed_subjects overall) (flat_map snd calls).
Proof.
  intros config n_jobs r overall calls.
  destruct (session_loop_ledger (sessions_to_process config) n_jobs config
              {| sessions_processed := []; all_total_subjects := 0;
                 all_successful_subjects := 0; all_failed_subjects := [] |}
              [])
    as [[H1 [H2 [H3 [H4 H5]]]] H6].
  { unfold ledger_ok. simpl. repeat split; try lia; try constructor.
    intros x []. }
  fold (run_complete_pipeline to_numeric timing_files
          extract_motion_regressors run_first_level_midt joblib config n_jobs)
    in H1, H2, H3, H4, H5, H6.
  fold r in H1, H2, H3, H4, H5, H6.
  unfold overall, calls. repeat split; try assumption.
  rewrite H1. exact H6.
Qed.

(** Whether the timing stage of a session succeeds does not depend on the
    session or the configuration. *)
Lemma no_decodable_file (config : MIDTConfig) (sess : string) :
  Forall (fun f => is_ok (snd (Events.extract_midt_events to_numeric f None))
                   = false) timing_files ->
  extract_timing_for_session to_numeric timing_files config sess = false.
Proof.
  intros H. unfold extract_timing_for_session, timing_tables.
  replace (filter is_ok
             (map (fun f => snd (Events.extract_midt_events to_numeric f None))
                  timing_files)) with (@nil (result (list Events.event)));
    [reflexivity|].
  induction H as [|f l Hf Hl IH]; simpl; [reflexivity|].
  now rewrite Hf.
Qed.

Lemma abandoned_loop (sessions : list string) (n_jobs : nat)
    (config : MIDTConfig) :
  Forall (fun f => is_ok (snd (Events.extract_midt_events to_numeric f None))
                   = false) timing_files ->
  run_timing_extraction config = true ->
  forall overall calls,
    session_loop to_numeric timing_files extract_motion_regressors
      run_first_level_midt joblib sessions config n_jobs overall calls
    = ({| sessions_processed :=
            sessions_processed overall
            ++ filter (fun s => negb (match get_valid_subjects_for_session
                                              config s with
                                      | [] => true | _ => false end))
                      sessions;
          all_total_subjects :=
            all_total_subjects overall
            + list_sum (map (fun s => List.length
                                        (get_valid_subjects_for_session
                                           config s)) sessions);
          all_successful_subjects := all_successful_subjects overall;
          all_failed_subjects := all_failed_subjects overall |},
       calls
       ++ map (fun s => (s, get_valid_subjects_for_session config s))
            (filter (fun s => negb (match get_valid_subjects_for_session
                                            config s with
                                    | [] => true | _ => false end))
                    sessions),
       config).
Proof.
  intros Hf Ht. induction sessions as [|sess sessions IH];
    intros overall calls; simpl.
  - rewrite !app_nil_r, Nat.add_0_r. now destruct overall.
  - destruct (get_valid_subjects_for_session config sess)
      as [|id ids] eqn:Ev; simpl.
    + rewrite IH. reflexivity.
    + unfold process_single_session.
      rewrite Ht, (no_decodable_file config sess Hf). simpl.
      rewrite IH. simpl. rewrite <- !app_assoc. simpl.
      rewrite Ev, app_nil_r, Nat.add_0_r.
      do 3 f_equal. simpl. lia.
Qed.

(** When the timing stage is on and no timing file can be decoded (or there
    is none), every session is abandoned before any subject is touched:
    nobody succeeds and nobody is listed as failed, yet every session with
    eligible subjects is reported as processed and its subjects are counted
    in the total; the configuration is left as it was. *)
Theorem run_without_timing_files :
  forall (config : MIDTConfig) (n_jobs : nat),
    Forall (fun f => is_ok (snd (Events.extract_midt_events to_numeric f None))
                     = false) timing_files ->
    run_timing_extraction config = true ->
    let r := run_complete_pipeline to_numeric timing_files
               extract_motion_regressors run_first_level_midt joblib
               config n_jobs in
    let overall := fst (fst r) in
    all_successful_subjects overall = 0%nat
    /\ all_failed_subjects overall = []
    /\ all_total_subjects overall
       = list_sum (map (fun s => List.length
                                   (get_valid_subjects_for_session config s))
                       (sessions_to_process config))
    /\ sessions_processed overall
       = filter (fun s => negb (match get_valid_subjects_for_session
                                        config s with
                                | [] => true | _ => false end))
                (sessions_to_process config)
    /\ snd r = config.
Proof.
  intros config n_jobs Hf Ht r overall. unfold overall, r.
  unfold run_complete_pipeline. rewrite (abandoned_loop _ _ _ Hf Ht).
  simpl. repeat split.
Qed.

End RunLedger.

Lemma run_without_timing_files_witness :
  Pipeline.all_total_subjects
    (fst (fst (Pipeline.run_complete_pipeline Sample.to_numeric []
                 (fun _ => Raise FileNotFoundError) (fun _ _ _ => Ok true)
                 (fun _ => Pipeline.PoolCompletes)
                 Sample.excluding_everywhere 1)))
  = 2%nat.
Proof.
  rewrite (proj1 (proj2 (proj2 (run_without_timing_files Sample.to_numeric []
             (fun _ => Raise FileNotFoundError) (fun _ _ _ => Ok true)
             (fun _ => Pipeline.PoolCompletes)
             Sample.excluding_everywhere 1 (Forall_nil _) eq_refl)))).
  reflexivity.
Defined.

(* ================================================================== *)
(** * The resolved vectors and the catalogue's weight lists *)
(* ================================================================== *)

Section CatalogueWeights.
Import FirstLevel.

Lemma index_distinct (a b : string) (cols : list string) :
  mem a cols = true -> mem b cols = true -> a <> b ->
  index a cols <> index b cols.
Proof.
  intros Ha Hb Hne E.
  destruct (index_first a cols Ha) as [_ [Ha2 _]].
  destruct (index_first b cols Hb) as [_ [Hb2 _]].
  rewrite E in Ha2. congruence.
Qed.

(** What the chain and the catalogue say about an implemented difference. *)
Lemma implemented_difference_facts (contrast_name plus minus : string)
    (weights : list Z) :
  In (contrast_name, (plus, minus)) implemented_differences ->
  In (contrast_name, weights) define_midt_contrasts ->
  plus <> minus /\ In plus midt_conditions /\ In minus midt_conditions
  /\ (forall cols, resolve_contrast contrast_name cols
                   = difference plus minus cols)
  /\ (forall k c, nth_error midt_conditions k = Some c ->
        nth k weights 0%Z
        = if String.eqb c plus then 1%Z
          else if String.eqb c minus then (-1)%Z else 0%Z).
Proof.
  intros Hi Hw. simpl in Hi.
  decompose [or] Hi; try contradiction;
    match goal with E : (_, _) = _ |- _ => inversion E; subst; clear E end;
    simpl in Hw; decompose [or] Hw; try contradiction;
    match goal with E : (_, _) = _ |- _ => inversion E; subst; clear E end;
    (split; [discriminate|]);
    (split; [in_list|]); (split; [in_list|]);
    (split; [reflexivity|]);
    intros k c Hk;
    do 6 (destruct k as [|k]; [inversion Hk; subst; reflexivity|]);
    destruct k; discriminate.
Qed.

(** Name lookup and the catalogue's positional weight lists agree: when an
    implemented difference is resolved against any realized columns, the
    column found for a MIDT condition carries the weight the catalogue
    lists for that condition, and every column that is not a MIDT
    condition (a nuisance regressor) carries 0. *)
Theorem resolved_vector_follows_catalogue :
  forall (contrast_name plus minus : string) (weights : list Z)
         (cols : list string),
    In (contrast_name, (plus, minus)) implemented_differences ->
    In (contrast_name, weights) define_midt_contrasts ->
    mem plus cols = true -> mem minus cols = true ->
    exists v,
      resolve_contrast contrast_name cols = Resolved (ByVector v)
      /\ (forall k c, nth_error midt_conditions k = Some c ->
            mem c cols = true ->
            nth (index c cols) v 0%Z = nth k weights 0%Z)
      /\ (forall j c, nth_error cols j = Some c -> ~ In c midt_conditions ->
            nth j v 0%Z = 0%Z).
Proof.
  intros contrast_name plus minus weights cols Hi Hw Hp Hm.
  destruct (implemented_difference_facts _ _ _ _ Hi Hw)
    as [Hne [Hpin [Hmin [Hres Hcat]]]].
  destruct (difference_resolved plus minus cols Hne Hp Hm)
    as [v [Hv [_ [Hpi [Hmi Hn]]]]].
  exists v. split; [now rewrite Hres|]. split.
  - intros k c Hk Hc. rewrite Hn, (Hcat k c Hk).
    destruct (String.eqb_spec c plus) as [->|Hcp].
    + now rewrite Nat.eqb_refl.
    + destruct (Nat.eqb_spec (index c cols) (index plus cols)) as [E|_].
      { exfalso. now apply (index_distinct c plus cols Hc Hp Hcp). }
      destruct (String.eqb_spec c minus) as [->|Hcm].
      * now rewrite Nat.eqb_refl.
      * destruct (Nat.eqb_spec (index c cols) (index minus cols)) as [E|_];
          [|reflexivity].
        exfalso. now apply (index_distinct c minus cols Hc Hm Hcm).
  - intros j c Hj Hc. rewrite Hn.
    destruct (Nat.eqb_spec j (index plus cols)) as [->|_].
    { exfalso. apply Hc. congruence. }
    destruct (Nat.eqb_spec j (index minus cols)) as [->|_]; [|reflexivity].
    exfalso. apply Hc. congruence.
Qed.

Lemma resolved_vector_witness :
  exists v,
    resolve_contrast "anticip-reward-vs-neutral"
      ["trans_x"; "anticip-neutral"; "anticip-reward"]
    = Resolved (ByVector v)
    /\ nth 2 v 0%Z = 1%Z.
Proof.
  destruct (resolved_vector_follows_catalogue "anticip-reward-vs-neutral"
              "anticip-reward" "anticip-neutral" [1; -1; 0; 0; 0; 0]%Z
              ["trans_x"; "anticip-neutral"; "anticip-reward"]
              (or_introl eq_refl) (or_introl eq_refl) eq_refl eq_refl)
    as [v [Hv [Hc _]]].
  exists v. split; [exact Hv|].
  exact (Hc 0%nat "anticip-reward" eq_refl eq_refl).
Defined.

End CatalogueWeights.

(* ================================================================== *)
(** * The validator on decoded tables *)
(* ================================================================== *)

Section ValidatedTables.
Import Events Validation.

(** A returned table is the finished list of the events kept in the
    window of some parsed table. *)
Lemma extract_ok_finished (to_numeric : string -> pyfloat) (f : timing_file)
    (subject_id : option string) (ws : list warning)
    (events_df : list event) :
  extract_midt_events to_numeric f subject_id = (ws, Ok events_df) ->
  exists df,
    events_df = finish_events (flat_map (kept_events df) (trial_window df)).
Proof.
  intros H. unfold extract_midt_events in H.
  destruct (match subject_id with
            | Some s => Some s
            | None => subject_in_name f
            end); [|discriminate].
  destruct (read_timing_data to_numeric (lines f)) as [df|ex];
    [|discriminate].
  exists df.
  assert (Hs : snd (events_of_table df) = Ok events_df) by now rewrite H.
  destruct (events_of_table_cases df)
    as [[_ E]|[[_ [_ E]]|[_ [_ E]]]]; rewrite E in Hs; try discriminate.
  now inversion Hs.
Qed.

(** [validate_events_file] on a table returned by the decoder: the
    required columns are there, no onset is negative and no trial type is
    unexpected, so no warning is issued and the only possible failure is
    "Found negative durations", raised exactly when an event of the table
    has a negative duration (a NaN duration passes). *)
Theorem validate_decoded_table :
  forall (to_numeric : string -> pyfloat) (f : timing_file)
         (subject_id : option string) (ws : list warning)
         (events_df : list event),
    extract_midt_events to_numeric f subject_id = (ws, Ok events_df) ->
    validate_events_file (decoded_table events_df)
    = ([], if existsb (fun e => flt0 (duration e)) events_df
           then Raise (ValueError "Found negative durations")
           else Ok true).
Proof.
  intros to_numeric f subject_id ws events_df H.
  destruct (extract_ok_finished _ _ _ _ _ H) as [df ->].
  set (evs := finish_events (flat_map (kept_events df) (trial_window df))).
  assert (Hev : forall e, In e evs ->
            flt0 (onset e) = false /\ mem (trial_type e) expected_types = true).
  { intros e He. unfold evs, finish_events in He.
    apply filter_In in He. destruct He as [He Hpos]. split.
    - destruct (onset e) as [|q]; [reflexivity|]. simpl in *.
      now rewrite Hpos.
    - apply in_map_iff in He. destruct He as [e0 [<- He0]].
      apply In_sort_values, in_flat_map in He0. destruct He0 as [i [_ He0]].
      apply In_kept_events in He0. destruct He0 as [t [_ He0]].
      apply In_trial_events in He0. apply mem_In. simpl. tauto. }
  unfold validate_events_file, decoded_table.
  cbn [table_columns table_rows].
  change (filter (fun col => negb (mem col decoder_columns))
            ["onset"; "duration"; "trial_type"]) with (@nil string).
  cbv beta iota zeta.
  replace (existsb (fun e => flt0 (onset e)) evs) with false.
  2:{ symmetry. apply not_true_is_false. intros Hx.
      apply existsb_exists in Hx. destruct Hx as [e [He Hx]].
      destruct (Hev e He) as [Ho _]. congruence. }
  destruct (existsb (fun e => flt0 (duration e)) evs); [reflexivity|].
  replace (filter (fun ty => negb (mem ty expected_types))
             (nodup string_dec (map trial_type evs))) with (@nil string);
    [reflexivity|].
  symmetry.
  assert (Hall : forall ty, In ty (nodup string_dec (map trial_type evs)) ->
                            negb (mem ty expected_types) = false).
  { intros ty Hty. apply nodup_In, in_map_iff in Hty.
    destruct Hty as [e [<- He]]. destruct (Hev e He) as [_ ->]. reflexivity. }
  induction (nodup string_dec (map trial_type evs)) as [|ty l IH];
    [reflexivity|].
  cbn [filter]. rewrite (Hall ty (or_introl eq_refl)). apply IH.
  intros ty' Hty'. apply Hall. now right.
Qed.

Lemma validate_decoded_table_witness :
  exists events_df,
    Sample.decode [Sample.trial "smile" "1" "10000" "9000" "14000"]
    = Ok events_df
    /\ validate_events_file (decoded_table events_df)
       = ([], Raise (ValueError "Found negative durations")).
Proof.
  eexists. split; [vm_compute; reflexivity|].
  match goal with
  | |- validate_events_file (decoded_table ?evs) = _ =>
      assert (H : extract_midt_events Sample.to_numeric
                    (Sample.log
                       [Sample.trial "smile" "1" "10000" "9000" "14000"])
                    None = ([], Ok evs)) by (vm_compute; reflexivity);
      rewrite (validate_decoded_table _ _ _ _ _ H)
  end.
  vm_compute. reflexivity.
Defined.

End ValidatedTables.

(* ================================================================== *)
(** * The timepoint check of the first-level analysis *)
(* ================================================================== *)

Section TimepointCheck.
Import Timepoints.

(** When the timepoint check of [run_first_level_midt] passes, for a
    functional image of [n_f] volumes, a confound table of [n_c] rows and
    [d] dummy scans.  With the confounds loaded from fMRIPrep it passes
    exactly when the two counts are equal (and the image has more than [d]
    volumes, or none), or the image has [d] volumes more than the table,
    or the image has [d] volumes fewer than the table but no more than [d]
    volumes.  With extracted motion regressors of [n_c - d] rows it passes
    exactly when the trimmed image has that many volumes.  In both cases an
    image that already lacks its [d] dummy volumes ([n_c = n_f + d]) and has
    more than [d] volumes is trimmed again and fails the check. *)
Theorem timepoint_check_cases :
  forall (n_f n_c d : nat),
    (timepoints_match n_f n_c d None = true <->
     (n_f = n_c /\ (d < n_f \/ n_f = 0))
     \/ (n_f = n_c + d /\ 0 < d /\ 0 < n_c)
     \/ (n_c = n_f + d /\ 0 < d /\ n_f <= d))%nat
    /\ (timepoints_match n_f n_c d (Some (n_c - d)) = true <->
        (d < n_f /\ n_f - d = n_c - d) \/ (n_f <= d /\ n_f = n_c - d))%nat
    /\ ((0 < d)%nat -> (d < n_f)%nat -> (n_c = n_f + d)%nat ->
        timepoints_match n_f n_c d None = false
        /\ timepoints_match n_f n_c d (Some (n_c - d)%nat) = false).
Proof.
  intros n_f n_c d.
  assert (H00 : (0 <? 0)%nat = false) by reflexivity.
  unfold timepoints_match, confound_rows, loaded_confound_rows,
    dummy_scans_to_remove, trimmed_volumes.
  split; [|split].
  - rewrite Nat.eqb_eq.
    destruct (Nat.eqb_spec n_f n_c);
      [|destruct (Z.eqb_spec (Z.of_nat n_f) (Z.of_nat n_c - Z.of_nat d))];
      rewrite ?H00; destruct (Nat.ltb_spec d n_f);
      destruct (Nat.ltb_spec 0 d); lia.
  - rewrite Nat.eqb_eq. destruct (Nat.ltb_spec d n_f); lia.
  - intros Hd Hf Hc. rewrite !Nat.eqb_neq.
    destruct (Nat.eqb_spec n_f n_c);
      [|destruct (Z.eqb_spec (Z.of_nat n_f) (Z.of_nat n_c - Z.of_nat d))];
      rewrite ?H00; destruct (Nat.ltb_spec d n_f);
      destruct (Nat.ltb_spec 0 d); lia.
Qed.

Lemma timepoint_check_cases_witness :
  Timepoints.timepoints_match 195 200 5 None = false
  /\ Timepoints.timepoints_match 195 200 5 (Some 195%nat) = false.
Proof.
  apply (timepoint_check_cases 195 200 5); lia.
Defined.

End TimepointCheck.

(* ================================================================== *)
(** * Placeholder paths *)
(* ================================================================== *)

Section PlaceholderPaths.
Import Paths.

Lemma check_placeholders_ok (indicators : list string)
    (base_dir behavioral_dir fmriprep_dir : string) :
  check_placeholders indicators base_dir behavioral_dir fmriprep_dir = Ok tt
  <-> forall indicator dir,
        In indicator indicators ->
        In dir [base_dir; behavioral_dir; fmriprep_dir] ->
        contains indicator dir = false.
Proof.
  induction indicators as [|ind rest IH]; cbn [check_placeholders].
  - split; [intros _ ? ? []|reflexivity].
  - split.
    + intros H indicator dir Hi Hd.
      destruct (contains ind base_dir) eqn:E1; [discriminate|].
      destruct (contains ind behavioral_dir) eqn:E2; [discriminate|].
      destruct (contains ind fmriprep_dir) eqn:E3; [discriminate|].
      cbn [orb] in H. destruct Hi as [<-|Hi].
      * cbn [In] in Hd. decompose [or] Hd; subst; try assumption.
        contradiction.
      * now apply (proj1 IH H).
    + intros H.
      rewrite (H ind base_dir), (H ind behavioral_dir),
        (H ind fmriprep_dir) by (cbn [In]; auto).
      cbn [orb]. apply IH. intros indicator dir Hi Hd.
      apply H; [now right|assumption].
Qed.

Lemma check_placeholders_error (indicators : list string)
    (base_dir behavioral_dir fmriprep_dir : string) :
  check_placeholders indicators base_dir behavioral_dir fmriprep_dir = Ok tt
  \/ check_placeholders indicators base_dir behavioral_dir fmriprep_dir
     = Raise (ValueError "Configuration contains placeholder paths").
Proof.
  induction indicators as [|ind rest IH]; cbn [check_placeholders];
    [now left|].
  destruct (contains ind base_dir || contains ind behavioral_dir
            || contains ind fmriprep_dir); [now right|assumption].
Qed.

(** A configuration is accepted exactly when none of its three
    directories holds a placeholder text and the behavioral and fMRIPrep
    directories exist; a placeholder is reported before any directory is
    looked up, so it is reported whatever exists on disk.  In particular
    [create_example_config] never returns a configuration: it raises the
    placeholder error. *)
Theorem placeholder_paths_rejected :
  forall (path_exists : string -> bool)
         (base_dir behavioral_dir fmriprep_dir : string),
    (validate_paths path_exists base_dir behavioral_dir fmriprep_dir = Ok tt
     <-> (forall indicator dir,
            In indicator placeholder_indicators ->
            In dir [base_dir; behavioral_dir; fmriprep_dir] ->
            contains indicator dir = false)
         /\ path_exists behavioral_dir = true
         /\ path_exists fmriprep_dir = true)
    /\ ((exists indicator dir,
            In indicator placeholder_indicators
            /\ In dir [base_dir; behavioral_dir; fmriprep_dir]
            /\ contains indicator dir = true) ->
        validate_paths path_exists base_dir behavioral_dir fmriprep_dir
        = Raise (ValueError "Configuration contains placeholder paths"))
    /\ create_example_config path_exists
       = Raise (ValueError "Configuration contains placeholder paths").
Proof.
  intros path_exists base_dir behavioral_dir fmriprep_dir.
  assert (Hok := check_placeholders_ok placeholder_indicators base_dir
                   behavioral_dir fmriprep_dir).
  assert (Herr := check_placeholders_error placeholder_indicators base_dir
                    behavioral_dir fmriprep_dir).
  split; [|split; [|reflexivity]].
  - unfold validate_paths. destruct Herr as [E|E]; rewrite E; cbn [bind].
    + destruct (path_exists behavioral_dir); cbn [negb];
        [|split; [discriminate|intros [_ [H _]]; discriminate]].
      destruct (path_exists fmriprep_dir); cbn [negb];
        [|split; [discriminate|intros [_ [_ H]]; discriminate]].
      split; [intros _|reflexivity].
      split; [now apply Hok|auto].
    + split; [discriminate|]. intros [Hno _].
      apply Hok in Hno. congruence.
  - intros [indicator [dir [Hi [Hd Hc]]]]. unfold validate_paths.
    destruct Herr as [E|E]; [|now rewrite E].
    rewrite (proj1 Hok E indicator dir Hi Hd) in Hc. discriminate.
Qed.

End PlaceholderPaths.

(* ================================================================== *)
(** * The ledger of the motion-regressor driver *)
(* ================================================================== *)

Section MotionLedger.
Import Motion MotionDriver.
Variable np_sqrt : Q -> Q.
Variable np_degrees : Q -> Q.
Variable confounds_file : string -> string -> option (result confounds).
Variable dummy_scans : nat.
Variable motion_params : list string.

Let succeeded := is_success np_sqrt np_degrees confounds_file dummy_scans
                   motion_params.
Let failed := is_failure np_sqrt np_degrees confounds_file dummy_scans
                motion_params.
Let missing := is_missing np_sqrt np_degrees confounds_file dummy_scans
                 motion_params.
Let key (entry : string * string * qc_metrics) : string * string :=
  fst entry.

(** What a stretch of visited pairs adds to a summary. *)
Let extends (visited : list (string * string)) (s s' : summary) : Prop :=
  total_subjects s' = total_subjects s
  /\ successful_subjects s'
     = (successful_subjects s + List.length (filter succeeded visited))%nat
  /\ failed_subjects s'
     = failed_subjects s ++ map label (filter failed visited)
  /\ map key (qc_data s')
     = map key (qc_data s) ++ filter succeeded visited.

Lemma process_session_extends (subject_id session : string) (s : summary) :
  extends [(subject_id, session)] s
    (process_session np_sqrt np_degrees confounds_file dummy_scans
       motion_params subject_id session s).
Proof.
  unfold extends, succeeded, failed, is_success, is_failure, extraction,
    process_session.
  cbn [filter fst snd].
  destruct (confounds_file subject_id session) as [read|].
  - destruct (df <- read;;
              extract_subject_motion np_sqrt np_degrees df dummy_scans
                motion_params) as [[[m qc] names]|ex];
      cbn [total_subjects successful_subjects failed_subjects qc_data
           List.length map label fst snd];
      rewrite ?map_app, ?app_nil_r, ?Nat.add_0_r; auto.
  - cbn [List.length map]. rewrite ?app_nil_r, ?Nat.add_0_r. auto.
Qed.

Lemma extends_trans (l1 l2 : list (string * string)) (s1 s2 s3 : summary) :
  extends l1 s1 s2 -> extends l2 s2 s3 -> extends (l1 ++ l2) s1 s3.
Proof.
  unfold extends. intros [A1 [A2 [A3 A4]]] [B1 [B2 [B3 B4]]].
  rewrite !filter_app, length_app, map_app.
  rewrite B1, B2, B3, B4, A1, A2, A3, A4, <- !app_assoc.
  repeat split; lia.
Qed.

Lemma session_loop_extends (subject_id : string) (sessions : list string)
    (s : summary) :
  extends (map (fun session => (subject_id, session)) sessions) s
    (session_loop np_sqrt np_degrees confounds_file dummy_scans
       motion_params subject_id sessions s).
Proof.
  revert s. induction sessions as [|session rest IH]; intros s;
    cbn [session_loop map].
  - unfold extends. cbn [filter map List.length].
    rewrite !app_nil_r, Nat.add_0_r. auto.
  - apply (extends_trans [(subject_id, session)] _ _ _ _
             (process_session_extends subject_id session s) (IH _)).
Qed.

Lemma subject_loop_extends (subject_ids sessions : list string)
    (s : summary) :
  extends (pairs subject_ids sessions) s
    (subject_loop np_sqrt np_degrees confounds_file dummy_scans
       motion_params subject_ids sessions s).
Proof.
  revert s. induction subject_ids as [|subject_id rest IH]; intros s;
    cbn [subject_loop pairs flat_map].
  - unfold extends. cbn [filter map List.length].
    rewrite !app_nil_r, Nat.add_0_r. auto.
  - apply (extends_trans _ _ _ _ _
             (session_loop_extends subject_id sessions s) (IH _)).
Qed.

Lemma length_pairs (subject_ids sessions : list string) :
  List.length (pairs subject_ids sessions)
  = (List.length subject_ids * List.length sessions)%nat.
Proof.
  induction subject_ids as [|subject_id rest IH]; cbn [pairs flat_map];
    [reflexivity|].
  rewrite length_app, length_map. fold (pairs rest sessions).
  rewrite IH. simpl. lia.
Qed.

Lemma three_way_split (l : list (string * string)) :
  (List.length (filter succeeded l) + List.length (filter failed l)
   + List.length (filter missing l))%nat = List.length l.
Proof.
  induction l as [|p l IH]; [reflexivity|].
  cbn [filter List.length].
  unfold succeeded, failed, missing, is_success, is_failure, is_missing
    in *.
  destruct (extraction np_sqrt np_degrees confounds_file dummy_scans
              motion_params p) as [[ok|ex]|]; cbn [List.length]; lia.
Qed.

(** The summary of [extract_motion_regressors] over the subject-session
    pairs, visited subject by subject: the QC entries are those of the
    pairs whose extraction returned, in visiting order; the failed list
    holds the label [<subject>_ses-<session>] of each pair whose confound
    file exists and whose extraction raised, in visiting order;
    [successful_subjects] is the number of QC entries, so it counts pairs
    while [total_subjects] is the number of subjects; a pair without a
    confound file is counted nowhere: successes, failures and missing
    files add up to subjects times sessions. *)
Theorem motion_driver_ledger :
  forall (subject_ids sessions : list string),
    let s := extract_motion_regressors np_sqrt np_degrees confounds_file
               dummy_scans motion_params subject_ids sessions in
    let visited := pairs subject_ids sessions in
    total_subjects s = List.length subject_ids
    /\ map key (qc_data s) = filter succeeded visited
    /\ failed_subjects s = map label (filter failed visited)
    /\ successful_subjects s = List.length (qc_data s)
    /\ (successful_subjects s + List.length (failed_subjects s)
        + List.length (filter missing visited))%nat
       = (List.length subject_ids * List.length sessions)%nat.
Proof.
  intros subject_ids sessions s visited.
  destruct (subject_loop_extends subject_ids sessions
              {| total_subjects := List.length subject_ids;
                 successful_subjects := 0;
                 failed_subjects := []; qc_data := [] |})
    as [H1 [H2 [H3 H4]]].
  fold (extract_motion_regressors np_sqrt np_degrees confounds_file
          dummy_scans motion_params subject_ids sessions) in H1, H2, H3, H4.
  fold s in H1, H2, H3, H4. fold visited in H2, H3, H4.
  cbn [total_subjects successful_subjects failed_subjects qc_data map app
       Nat.add] in H1, H2, H3, H4.
  repeat split; try assumption.
  - rewrite H2, <- (length_map key (qc_data s)), H4. reflexivity.
  - rewrite H2, H3, length_map, three_way_split. apply length_pairs.
Qed.

End MotionLedger.

(* ================================================================== *)
(** * Subject identifiers *)
(* ================================================================== *)

Section SubjectIdentifiers.
Import Subjects.

Lemma strip_prefix_app (literal s : string) :
  strip_prefix literal (literal ++ s) = Some s.
Proof.
  induction literal as [|a literal IH]; cbn [strip_prefix String.append];
    [reflexivity|].
  now rewrite Ascii.eqb_refl.
Qed.

Lemma strip_prefix_inv (literal s rest : string) :
  strip_prefix literal s = Some rest -> s = (literal ++ rest)%string.
Proof.
  revert s. induction literal as [|a literal IH]; intros s;
    cbn [strip_prefix String.append].
  - now intros [= ->].
  - destruct s as [|b s]; [discriminate|].
    destruct (Ascii.eqb_spec a b) as [<-|]; [|discriminate].
    intros H. now rewrite (IH _ H).
Qed.

Lemma span_inv (class : ascii -> bool) (s run tail : string) :
  span class s = (run, tail) ->
  s = (run ++ tail)%string /\ all_of class run = true.
Proof.
  revert run tail. induction s as [|c s IH]; intros run tail;
    cbn [span].
  - intros [= <- <-]. now split.
  - destruct (class c) eqn:Ec.
    + destruct (span class s) as [run' tail']. intros [= <- <-].
      destruct (IH _ _ eq_refl) as [-> Hall].
      cbn [String.append all_of]. now rewrite Ec, Hall.
    + intros [= <- <-]. now split.
Qed.

(** A run followed by nothing, or by a character outside the class, is
    the longest one. *)
Lemma span_app (class : ascii -> bool) (run tail : string) :
  all_of class run = true ->
  match tail with
  | EmptyString => True
  | String c _ => class c = false
  end ->
  span class (run ++ tail) = (run, tail).
Proof.
  intros Hrun Htail. induction run as [|c run IH];
    cbn [String.append span all_of] in *.
  - destruct tail as [|c tail]; [reflexivity|]. cbn [span].
    now rewrite Htail.
  - apply andb_prop in Hrun. destruct Hrun as [-> Hrun].
    now rewrite (IH Hrun).
Qed.

Lemma span_all (class : ascii -> bool) (s : string) :
  all_of class s = true -> span class s = (s, EmptyString).
Proof.
  intros H. rewrite <- (span_app class s EmptyString H I).
  f_equal. induction s as [|c s IH]; cbn [String.append];
    [reflexivity|].
  cbn [all_of] in H. apply andb_prop in H. now rewrite <- (IH (proj2 H)).
Qed.

Lemma has_digit_app (s t : string) :
  has_digit (s ++ t) = has_digit s || has_digit t.
Proof.
  induction s as [|c s IH]; cbn [String.append has_digit];
    [reflexivity|].
  now rewrite IH, orb_assoc.
Qed.

Lemma letter_not_digit (c : ascii) : is_letter c = true -> is_digit c = false.
Proof.
  unfold is_letter, is_digit. cbv zeta.
  destruct (Nat.leb_spec 65 (nat_of_ascii c));
    destruct (Nat.leb_spec (nat_of_ascii c) 90);
    destruct (Nat.leb_spec 97 (nat_of_ascii c));
    destruct (Nat.leb_spec (nat_of_ascii c) 122);
    destruct (Nat.leb_spec 48 (nat_of_ascii c));
    destruct (Nat.leb_spec (nat_of_ascii c) 57);
    cbn [andb orb]; try reflexivity; try discriminate; lia.
Qed.

Lemma letters_no_digit (s : string) :
  all_of is_letter s = true -> has_digit s = false.
Proof.
  induction s as [|c s IH]; cbn [all_of has_digit]; [reflexivity|].
  intros H. apply andb_prop in H. destruct H as [Hc Hs].
  now rewrite (letter_not_digit c Hc), (IH Hs).
Qed.

Lemma digits_have_digit (c : ascii) (digits : string) :
  all_of is_digit (String c digits) = true ->
  has_digit (String c digits) = true.
Proof.
  cbn [all_of has_digit]. intros H. apply andb_prop in H.
  now rewrite (proj1 H).
Qed.

(** ** Numbers and their decimal text *)

Lemma string_of_uint_digits (d : Decimal.uint) :
  all_of is_digit (NilEmpty.string_of_uint d) = true.
Proof.
  induction d; cbn [NilEmpty.string_of_uint all_of]; try reflexivity;
    rewrite IHd; reflexivity.
Qed.

Lemma all_of_app (class : ascii -> bool) (s t : string) :
  all_of class (s ++ t) = all_of class s && all_of class t.
Proof.
  induction s as [|c s IH]; cbn [String.append all_of]; [reflexivity|].
  now rewrite IH, andb_assoc.
Qed.

Lemma zeros_digits (k : nat) : all_of is_digit (zeros k) = true.
Proof.
  induction k as [|k IH]; cbn [zeros all_of]; [reflexivity|].
  now rewrite IH.
Qed.

Lemma format_03d_digits (n : N) : all_of is_digit (format_03d n) = true.
Proof.
  unfold format_03d. cbv zeta.
  now rewrite all_of_app, zeros_digits, string_of_uint_digits.
Qed.

Lemma length_zeros (k : nat) : String.length (zeros k) = k.
Proof.
  induction k as [|k IH]; cbn [zeros String.length]; congruence.
Qed.

Lemma string_length_app (s t : string) :
  String.length (s ++ t) = (String.length s + String.length t)%nat.
Proof.
  induction s as [|c s IH]; cbn [String.append String.length Nat.add];
    congruence.
Qed.

Lemma format_03d_length (n : N) : (3 <= String.length (format_03d n))%nat.
Proof.
  unfold format_03d. cbv zeta.
  rewrite string_length_app, length_zeros. lia.
Qed.

Lemma uint_of_zeros (k : nat) (d : Decimal.uint) :
  NilEmpty.uint_of_string (zeros k ++ NilEmpty.string_of_uint d)
  = Some (Nat.iter k Decimal.D0 d).
Proof.
  induction k as [|k IH]; cbn [zeros String.append Nat.iter nat_rect].
  - apply NilEmpty.usu.
  - cbn [NilEmpty.uint_of_string]. rewrite IH. reflexivity.
Qed.

Lemma of_uint_zeros (k : nat) (d : Decimal.uint) :
  N.of_uint (Nat.iter k Decimal.D0 d) = N.of_uint d.
Proof.
  induction k as [|k IH]; [reflexivity|]. exact IH.
Qed.

Lemma int_format_03d (n : N) : int (format_03d n) = n.
Proof.
  unfold int, format_03d. cbv zeta.
  rewrite uint_of_zeros, of_uint_zeros. apply DecimalN.Unsigned.of_to.
Qed.

(** ** The conversion *)

Lemma search_digits_none (s : string) :
  has_digit s = false -> search digits_at s = None.
Proof.
  induction s as [|c s IH]; [reflexivity|].
  cbn [has_digit]. intros H. apply orb_false_elim in H.
  destruct H as [Hc Hs].
  cbn [search]. unfold digits_at at 1. cbn [span]. rewrite Hc.
  now apply IH.
Qed.

Lemma search_digits_some (s : string) :
  has_digit s = true -> search digits_at s <> None.
Proof.
  induction s as [|c s IH]; [discriminate|].
  cbn [has_digit search]. unfold digits_at at 1. cbn [span].
  destruct (is_digit c).
  - destruct (span is_digit s). discriminate.
  - cbn [orb]. exact IH.
Qed.

Lemma clean_letters (s : string) :
  all_of is_letter s = true -> clean s = s.
Proof.
  induction s as [|c s IH]; cbn [all_of clean]; [reflexivity|].
  intros H. apply andb_prop in H. destruct H as [-> Hs].
  cbn [orb]. now rewrite (IH Hs).
Qed.

Lemma clean_no_digit (s : string) :
  has_digit s = false -> all_of is_letter (clean s) = true.
Proof.
  induction s as [|c s IH]; cbn [has_digit clean]; [reflexivity|].
  intros H. apply orb_false_elim in H. destruct H as [Hc Hs].
  rewrite Hc, orb_false_r. destruct (is_letter c) eqn:El.
  - cbn [all_of]. now rewrite El, (IH Hs).
  - now apply IH.
Qed.

(** A converted number is left as it is. *)
Lemma convert_bids (n : N) :
  convert_to_bids_format (bids n) = bids n.
Proof.
  unfold bids.
  assert (Hd := format_03d_digits n).
  assert (Hl := format_03d_length n).
  assert (Hi := int_format_03d n).
  destruct (format_03d n) as [|c digits] eqn:E;
    [cbn [String.length] in Hl; lia|].
  unfold convert_to_bids_format.
  change (("sub-" ++ String c digits)%string =? "")%string with false.
  cbv iota.
  change (match_ld ("sub-" ++ String c digits)) with (@None string).
  cbv iota.
  assert (Hminus : forall s, span is_digit (String "-" s)
                             = (EmptyString, String "-" s))
    by reflexivity.
  unfold match_sub.
  change (strip_prefix "sub" ("sub-" ++ String c digits))
    with (Some (String "-" (String c digits))).
  cbv iota. rewrite Hminus. cbv iota.
  unfold match_number.
  change (span is_digit ("sub-" ++ String c digits))
    with (EmptyString, ("sub-" ++ String c digits)%string).
  cbv iota.
  destruct (match_bids ("sub-" ++ String c digits)); [reflexivity|].
  change (search digits_at ("sub-" ++ String c digits))
    with (search digits_at (String c digits)).
  cbn [search]. unfold digits_at at 1.
  rewrite (span_all is_digit _ Hd). cbv beta iota. rewrite Hi.
  unfold bids. now rewrite E.
Qed.

Lemma span_no_digit (s : string) :
  has_digit s = false -> span is_digit s = (EmptyString, s).
Proof.
  destruct s as [|c s]; [reflexivity|]. cbn [has_digit span].
  intros H. apply orb_false_elim in H. now rewrite (proj1 H).
Qed.

Lemma no_digit_after (literal s s1 : string) :
  has_digit s = false -> strip_prefix literal s = Some s1 ->
  has_digit s1 = false.
Proof.
  intros Hd Hp. apply strip_prefix_inv in Hp. subst s.
  rewrite has_digit_app in Hd. now apply orb_false_elim in Hd.
Qed.

(** Without a digit, only the last resort applies. *)
Lemma convert_no_digit (s : string) :
  s <> EmptyString -> has_digit s = false ->
  convert_to_bids_format s = ("sub-" ++ clean s)%string.
Proof.
  intros Hne Hd. unfold convert_to_bids_format.
  destruct (String.eqb_spec s ""); [contradiction|].
  replace (match_ld s) with (@None string).
  2:{ unfold match_ld. destruct (strip_prefix "ld" s) as [s1|] eqn:E;
        [|reflexivity].
      now rewrite (span_no_digit s1 (no_digit_after _ _ _ Hd E)). }
  replace (match_sub s) with (@None string).
  2:{ unfold match_sub. destruct (strip_prefix "sub" s) as [s1|] eqn:E;
        [|reflexivity].
      now rewrite (span_no_digit s1 (no_digit_after _ _ _ Hd E)). }
  replace (match_number s) with (@None string).
  2:{ unfold match_number. now rewrite (span_no_digit s Hd). }
  replace (match_bids s) with false.
  2:{ unfold match_bids. destruct (strip_prefix "sub-" s) as [s1|] eqn:E;
        [|reflexivity].
      assert (H1 := no_digit_after _ _ _ Hd E).
      destruct s1 as [|d1 [|d2 [|d3 s1]]]; try reflexivity.
      cbn [has_digit] in H1. apply orb_false_elim in H1.
      now rewrite (proj1 H1). }
  now rewrite (search_digits_none s Hd).
Qed.

(** A text that starts with [sub-]. *)
Lemma convert_starts_sub (original_id : string) :
  exists rest, convert_to_bids_format original_id = ("sub-" ++ rest)%string.
Proof.
  unfold convert_to_bids_format, bids.
  destruct (original_id =? "")%string; [now exists "unknown"|].
  destruct (match_ld original_id); [eexists; reflexivity|].
  destruct (match_sub original_id); [eexists; reflexivity|].
  destruct (match_number original_id); [eexists; reflexivity|].
  destruct (match_bids original_id) eqn:E.
  - unfold match_bids in E.
    destruct (strip_prefix "sub-" original_id) as [s1|] eqn:Ep;
      [|discriminate].
    exists s1. now apply strip_prefix_inv.
  - destruct (search digits_at original_id); eexists; reflexivity.
Qed.

(** With a digit, the result is a converted number or the identifier
    itself. *)
Lemma convert_digit_cases (original_id : string) :
  has_digit original_id = true ->
  (exists n, convert_to_bids_format original_id = bids n)
  \/ convert_to_bids_format original_id = original_id.
Proof.
  intros Hd. unfold convert_to_bids_format.
  destruct (String.eqb_spec original_id "") as [->|Hne]; [discriminate|].
  destruct (match_ld original_id); [left; eexists; reflexivity|].
  destruct (match_sub original_id); [left; eexists; reflexivity|].
  destruct (match_number original_id); [left; eexists; reflexivity|].
  destruct (match_bids original_id); [now right|].
  destruct (search digits_at original_id) eqn:Es;
    [left; eexists; reflexivity|].
  now apply search_digits_some in Es.
Qed.

(** [convert_to_bids_format] returns a text that starts with [sub-].  On
    an identifier that holds a decimal digit a second conversion changes
    nothing.  On an identifier without a digit the function is not
    idempotent: the result is [sub-] before the letters of the identifier
    ([sub-unknown] for the empty identifier), and converting that result
    again puts [sub-sub] before them, so an identifier such as [sub-abc],
    which already has the prefix, becomes [sub-subabc]. *)
Theorem bids_conversion_twice :
  forall (original_id : string),
    let letters := if (original_id =? "")%string then "unknown"
                   else clean original_id in
    (exists rest,
        convert_to_bids_format original_id = ("sub-" ++ rest)%string)
    /\ (has_digit original_id = true ->
        convert_to_bids_format (convert_to_bids_format original_id)
        = convert_to_bids_format original_id)
    /\ (has_digit original_id = false ->
        convert_to_bids_format original_id = ("sub-" ++ letters)%string
        /\ convert_to_bids_format (convert_to_bids_format original_id)
           = ("sub-sub" ++ letters)%string).
Proof.
  intros original_id letters. split; [apply convert_starts_sub|]. split.
  - intros Hd.
    destruct (convert_digit_cases original_id Hd) as [[n E]|E].
    + rewrite E. apply convert_bids.
    + rewrite E. exact E.
  - intros Hd.
    assert (Hl : all_of is_letter letters = true).
    { unfold letters. destruct (original_id =? "")%string;
        [reflexivity|now apply clean_no_digit]. }
    assert (H1 : convert_to_bids_format original_id
                 = ("sub-" ++ letters)%string).
    { unfold letters. destruct (String.eqb_spec original_id "") as [E|Hne];
        [rewrite E; reflexivity|now apply convert_no_digit]. }
    split; [exact H1|]. rewrite H1.
    rewrite convert_no_digit.
    + change (clean ("sub-" ++ letters))
        with ("sub" ++ clean letters)%string.
      now rewrite (clean_letters _ Hl).
    + discriminate.
    + change (has_digit ("sub-" ++ letters)) with (has_digit letters).
      now apply letters_no_digit.
Qed.

(** ** The subject in a file name *)

Lemma search_inv (match_at : string -> option string) (s group : string) :
  search match_at s = Some group -> exists t, match_at t = Some group.
Proof.
  induction s as [|c s IH]; cbn [search].
  - destruct (match_at "") eqn:E; [|discriminate].
    intros [= <-]. now exists "".
  - destruct (match_at (String c s)) eqn:E.
    + intros [= <-]. now exists (String c s).
    + exact IH.
Qed.

Lemma between_inv (prefix suffix s group : string) :
  between prefix suffix s = Some group ->
  group <> "" /\ all_of not_underscore group = true.
Proof.
  unfold between. destruct (strip_prefix prefix s) as [s1|]; [|discriminate].
  destruct (span not_underscore s1) as [[|c run] s2] eqn:E; [discriminate|].
  destruct (strip_prefix suffix s2); [|discriminate].
  intros [= <-]. split; [discriminate|].
  now destruct (span_inv _ _ _ _ E).
Qed.

Lemma all_of_impl (class class' : ascii -> bool) (s : string) :
  (forall c, class c = true -> class' c = true) ->
  all_of class s = true -> all_of class' s = true.
Proof.
  intros Himp. induction s as [|c s IH]; cbn [all_of]; [reflexivity|].
  intros H. apply andb_prop in H. destruct H as [Hc Hs].
  now rewrite (Himp c Hc), (IH Hs).
Qed.

Lemma letter_not_underscore (c : ascii) :
  is_letter c = true -> not_underscore c = true.
Proof.
  unfold not_underscore. destruct (Ascii.eqb_spec c "_") as [->|];
    [discriminate|reflexivity].
Qed.

Lemma digit_not_underscore (c : ascii) :
  is_digit c = true -> not_underscore c = true.
Proof.
  unfold not_underscore. destruct (Ascii.eqb_spec c "_") as [->|];
    [discriminate|reflexivity].
Qed.

Lemma letters_digits_inv (s group : string) :
  letters_digits s = Some group ->
  group <> "" /\ all_of not_underscore group = true.
Proof.
  unfold letters_digits.
  destruct (span is_letter s) as [letters s1] eqn:E1.
  destruct (span is_digit s1) as [[|c digits] s2] eqn:E2; [discriminate|].
  destruct (span is_letter s2) as [letters' s3] eqn:E3.
  destruct (span is_digit s3) as [digits' s4] eqn:E4.
  remember (String c digits) as run eqn:Er.
  intros [= <-].
  apply span_inv in E1, E2, E3, E4.
  destruct E1 as [_ H1], E2 as [_ H2], E3 as [_ H3], E4 as [_ H4].
  split.
  - subst run. destruct letters; discriminate.
  - rewrite !all_of_app.
    rewrite (all_of_impl _ _ _ letter_not_underscore H1).
    rewrite (all_of_impl _ _ _ digit_not_underscore H2).
    rewrite (all_of_impl _ _ _ letter_not_underscore H3).
    now rewrite (all_of_impl _ _ _ digit_not_underscore H4).
Qed.

Lemma digit_not_letter (c : ascii) : is_digit c = true -> is_letter c = false.
Proof.
  intros H. destruct (is_letter c) eqn:E; [|reflexivity].
  rewrite (letter_not_digit c E) in H. discriminate.
Qed.

Lemma letters_digits_found (s : string) :
  has_digit s = true -> search letters_digits s <> None.
Proof.
  induction s as [|c s IH]; [discriminate|].
  cbn [has_digit search].
  destruct (letters_digits (String c s)) eqn:E; [discriminate|].
  destruct (is_digit c) eqn:Ec; [|exact IH].
  intros _. exfalso. revert E. unfold letters_digits. cbn [span].
  rewrite (digit_not_letter c Ec). cbn [span]. rewrite Ec.
  destruct (span is_digit s) as [digits s2].
  destruct (span is_letter s2) as [letters' s3].
  destruct (span is_digit s3). discriminate.
Qed.

(** The identifier [extract_subject_from_filename] finds in a file name is
    never empty and never holds an underscore, whichever of the four
    patterns finds it; and a name that holds a decimal digit always yields
    an identifier, so the "could not extract subject ID" error of the
    decoder is confined to names without a digit. *)
Theorem subject_in_name_shape :
  forall (filename : string),
    (forall id, extract_subject_from_filename filename = Some id ->
                id <> "" /\ all_of not_underscore id = true)
    /\ (has_digit filename = true ->
        extract_subject_from_filename filename <> None).
Proof.
  intros filename. unfold extract_subject_from_filename.
  cbn [first_match]. split.
  - intros id.
    destruct (search (between "Reward_task_" "_reward") filename) eqn:E1.
    { intros [= <-]. apply search_inv in E1. destruct E1 as [t E1].
      now apply between_inv in E1. }
    destruct (search (between "task_" "_") filename) eqn:E2.
    { intros [= <-]. apply search_inv in E2. destruct E2 as [t E2].
      now apply between_inv in E2. }
    destruct (between "" "_" filename) eqn:E3.
    { intros [= <-]. now apply between_inv in E3. }
    destruct (search letters_digits filename) eqn:E4; [|discriminate].
    intros [= <-]. apply search_inv in E4. destruct E4 as [t E4].
    now apply letters_digits_inv in E4.
  - intros Hd.
    destruct (search (between "Reward_task_" "_reward") filename);
      [discriminate|].
    destruct (search (between "task_" "_") filename); [discriminate|].
    destruct (between "" "_" filename); [discriminate|].
    destruct (search letters_digits filename) eqn:E4; [discriminate|].
    now apply letters_digits_found in E4.
Qed.

Lemma convert_ld (digits digits' : string) :
  digits <> "" -> all_of is_digit digits = true ->
  all_of is_digit digits' = true ->
  convert_to_bids_format ("ld" ++ digits ++ "s" ++ digits')
  = bids (int digits).
Proof.
  intros Hne Hd Hd'. unfold convert_to_bids_format.
  change (("ld" ++ digits ++ "s" ++ digits')%string =? "")%string
    with false.
  cbv iota. unfold match_ld.
  rewrite (strip_prefix_app "ld").
  rewrite (span_app is_digit digits ("s" ++ digits') Hd eq_refl).
  destruct digits as [|c digits]; [contradiction|].
  rewrite (strip_prefix_app "s").
  rewrite (span_all is_digit digits' Hd'). reflexivity.
Qed.

Lemma extract_reward_log (id rest : string) :
  id <> "" -> all_of not_underscore id = true ->
  extract_subject_from_filename ("Reward_task_" ++ id ++ "_reward" ++ rest)
  = Some id.
Proof.
  intros Hne Hid.
  unfold extract_subject_from_filename. cbn [first_match].
  replace (search (between "Reward_task_" "_reward")
             ("Reward_task_" ++ id ++ "_reward" ++ rest))
    with (Some id); [reflexivity|].
  symmetry.
  assert (E : between "Reward_task_" "_reward"
                ("Reward_task_" ++ id ++ "_reward" ++ rest) = Some id).
  { unfold between. rewrite (strip_prefix_app "Reward_task_").
    rewrite (span_app not_underscore id ("_reward" ++ rest) Hid eq_refl).
    destruct id as [|c id]; [contradiction|].
    now rewrite (strip_prefix_app "_reward"). }
  destruct ("Reward_task_" ++ id ++ "_reward" ++ rest)%string;
    cbn [search]; now rewrite E.
Qed.

(** The naming convention of the timing logs,
    [Reward_task_<id>_reward...]: the identifier found in such a name is
    the text between the two markers, when it is not empty and holds no
    underscore; and when that identifier is [ld<digits>s<digits>] the
    conversion gives [sub-] and the first number, zero-padded to three
    digits. *)
Theorem reward_log_subject :
  forall (id rest : string),
    id <> "" -> all_of not_underscore id = true ->
    extract_subject_from_filename
      ("Reward_task_" ++ id ++ "_reward" ++ rest) = Some id
    /\ forall (digits digits' : string),
         id = ("ld" ++ digits ++ "s" ++ digits')%string ->
         digits <> "" -> all_of is_digit digits = true ->
         all_of is_digit digits' = true ->
         convert_to_bids_format id = bids (int digits).
Proof.
  intros id rest Hne Hid. split; [now apply extract_reward_log|].
  intros digits digits' -> Hd1 Hd2 Hd3. now apply convert_ld.
Qed.

Lemma reward_log_subject_witness :
  extract_subject_from_filename "Reward_task_ld042s1_reward_run1.txt"
  = Some "ld042s1"
  /\ convert_to_bids_format "ld042s1" = "sub-042".
Proof.
  destruct (reward_log_subject "ld042s1" "_run1.txt") as [H1 H2];
    [discriminate|reflexivity|].
  split; [exact H1|].
  exact (H2 "042" "1" eq_refl ltac:(discriminate) eq_refl eq_refl).
Defined.

Lemma ld_identifier (digits digits' : string) :
  all_of is_digit digits = true -> all_of is_digit digits' = true ->
  ("ld" ++ digits ++ "s" ++ digits')%string <> ""
  /\ all_of not_underscore ("ld" ++ digits ++ "s" ++ digits') = true.
Proof.
  intros Hd Hd'. split; [discriminate|].
  change ("ld" ++ digits ++ "s" ++ digits')%string
    with (String "l" (String "d" (digits ++ "s" ++ digits')))%string.
  cbn [all_of]. rewrite all_of_app.
  rewrite (all_of_impl _ _ _ digit_not_underscore Hd).
  change ("s" ++ digits')%string with (String "s" digits').
  cbn [all_of]. now rewrite (all_of_impl _ _ _ digit_not_underscore Hd').
Qed.

(** The events file of a timing log named
    [Reward_task_ld<digits>s<digits'>_reward...] is written under
    [sub-<number>_ses-<session>_task-MIDT_events.tsv], where the number is
    that of the first digits, zero-padded to three digits, and the session
    is the one the pipeline is processing: the name does not depend on the
    second digits or on the rest of the log's name.  So two logs of one
    subject number, as [ld001s1] and [ld001s2], are written under the same
    file name in every session. *)
Theorem events_file_of_reward_log :
  forall (digits1 digits1' rest1 digits2 digits2' rest2 session : string),
    digits1 <> "" -> all_of is_digit digits1 = true ->
    all_of is_digit digits1' = true ->
    digits2 <> "" -> all_of is_digit digits2 = true ->
    all_of is_digit digits2' = true ->
    int digits1 = int digits2 ->
    output_filename
      ("Reward_task_" ++ ("ld" ++ digits1 ++ "s" ++ digits1')
       ++ "_reward" ++ rest1) session None
    = Ok (events_filename (bids (int digits1)) session)
    /\ output_filename
         ("Reward_task_" ++ ("ld" ++ digits2 ++ "s" ++ digits2')
          ++ "_reward" ++ rest2) session None
       = output_filename
           ("Reward_task_" ++ ("ld" ++ digits1 ++ "s" ++ digits1')
            ++ "_reward" ++ rest1) session None.
Proof.
  intros digits1 digits1' rest1 digits2 digits2' rest2 session
    Hn1 Hd1 Hd1' Hn2 Hd2 Hd2' Hint.
  destruct (ld_identifier digits1 digits1' Hd1 Hd1') as [Hne1 Hu1].
  destruct (ld_identifier digits2 digits2' Hd2 Hd2') as [Hne2 Hu2].
  unfold output_filename.
  rewrite (extract_reward_log _ rest1 Hne1 Hu1).
  rewrite (extract_reward_log _ rest2 Hne2 Hu2).
  rewrite (convert_ld digits1 digits1' Hn1 Hd1 Hd1').
  rewrite (convert_ld digits2 digits2' Hn2 Hd2 Hd2').
  now rewrite Hint.
Qed.

Lemma events_file_of_reward_log_witness :
  output_filename "Reward_task_ld001s1_reward.txt" "1" None
  = Ok "sub-001_ses-1_task-MIDT_events.tsv"
  /\ output_filename "Reward_task_ld001s2_reward.txt" "1" None
     = output_filename "Reward_task_ld001s1_reward.txt" "1" None.
Proof.
  apply (events_file_of_reward_log "001" "1" ".txt" "001" "2" ".txt" "1");
    try discriminate; reflexivity.
Defined.

End SubjectIdentifiers.

(* ================================================================== *)
(** * The manual confound loader *)
(* ================================================================== *)

Section ManualConfounds.
Import Motion Confounds.

Lemma select_available (df : confounds) (names : list string) :
  Forall (fun name => has_column df name = true) names ->
  exists selected,
    select df names = Ok selected
    /\ map fst selected = names
    /\ Forall (fun col => column (fst col) df = Some (snd col)) selected.
Proof.
  induction names as [|name rest IH]; intros H; cbn [select].
  - exists []. repeat split. constructor.
  - inversion H as [|? ? Hname Hrest]; subst.
    destruct (IH Hrest) as [selected [E [Hn Hc]]].
    unfold has_column in Hname.
    destruct (column name df) as [vals|] eqn:Ecol; [|discriminate].
    rewrite E. cbn [bind]. exists ((name, vals) :: selected).
    repeat split; cbn [map fst]; [now rewrite Hn|].
    constructor; [exact Ecol|exact Hc].
Qed.

Lemma Forall_filter_true {A : Type} (f : A -> bool) (l : list A) :
  Forall (fun x => f x = true) (filter f l).
Proof.
  apply Forall_forall. intros x Hx. now apply filter_In in Hx.
Qed.

(** When nilearn's loader raises, [load_midt_confounds] falls back on the
    raw table: it raises "No usable confound regressors found" exactly
    when none of the nine regressors it knows is a column of the table;
    otherwise it returns the available ones, the six motion parameters
    before the three tissue signals, each column being the raw column
    with NaN replaced by 0 and without its first [dummy_scans] rows, so
    the table returned holds no NaN and has as many rows as the timepoint
    check expects. *)
Theorem manual_confounds_table :
  forall (e : exn) (raw : confounds) (dummy_scans : nat),
    let available :=
      filter (has_column raw) (basic_motion_params ++ tissue_params) in
    match load_midt_confounds (Raise e) (Ok raw) dummy_scans with
    | Raise e' =>
        available = []
        /\ e' = ValueError "No usable confound regressors found"
    | Ok confounds_df =>
        available <> []
        /\ map fst confounds_df = available
        /\ Forall
             (fun col =>
                exists vals,
                  column (fst col) raw = Some vals
                  /\ snd col
                     = skipn dummy_scans
                         (map (fun x => if is_nan x then Fin 0 else x) vals)
                  /\ List.length (snd col)
                     = Timepoints.loaded_confound_rows (List.length vals)
                         dummy_scans
                  /\ Forall (fun x => is_nan x = false) (snd col))
             confounds_df
    end.
Proof.
  intros e raw dummy_scans available.
  unfold load_midt_confounds. cbn [bind].
  assert (Eav : available
                = filter (has_column raw) basic_motion_params
                  ++ filter (has_column raw) tissue_params)
    by (unfold available; apply filter_app).
  rewrite <- Eav.
  destruct available as [|name rest] eqn:E; [now split|].
  rewrite <- E in *.
  assert (Hav : Forall (fun name => has_column raw name = true) available).
  { rewrite Eav. apply Forall_app. split; apply Forall_filter_true. }
  destruct (select_available raw available Hav) as [selected [Es [Hn Hc]]].
  rewrite Es. cbn [bind].
  assert (Hdrop : forall df,
             drop_dummy_scans dummy_scans df
             = map (fun col : string * list pyfloat =>
                      (fst col, skipn dummy_scans (snd col))) df).
  { intros df. unfold drop_dummy_scans.
    destruct (Nat.ltb_spec 0 dummy_scans) as [|Hz]; [reflexivity|].
    assert (dummy_scans = 0%nat) as -> by lia.
    cbn [skipn]. induction df as [|[c v] df IH]; [reflexivity|].
    cbn [map fst snd]. now rewrite <- IH. }
  rewrite Hdrop. unfold fillna0.
  split; [rewrite E; discriminate|]. split.
  - rewrite !map_map. cbn [fst]. exact Hn.
  - rewrite !Forall_map. cbn [fst snd]. revert Hc. apply Forall_impl.
    intros [c vals] Hcol. cbn [fst snd] in *.
    exists vals. split; [exact Hcol|]. split; [reflexivity|]. split.
    + rewrite length_skipn, length_map.
      unfold Timepoints.loaded_confound_rows.
      destruct (Nat.ltb_spec 0 dummy_scans); lia.
    + apply Forall_forall. intros x Hx.
      assert (Hin : In x (map (fun x => if is_nan x then Fin 0 else x) vals)).
      { rewrite <- (firstn_skipn dummy_scans). apply in_or_app. now right. }
      apply in_map_iff in Hin. destruct Hin as [y [<- _]].
      now destruct y.
Qed.

End ManualConfounds.
